(** * FedDrone: the VisDrone partition-and-transform pipeline

    A shallow embedding of [datasets/prepare_VisDrone.py] and
    [datasets/datasets_utils.py], and the properties of the partitioner, the
    annotation transformer and the distribution table that hold of it. *)

From Stdlib Require Import ZArith QArith Qabs List Ascii Floats.
From stdpp Require Import base numbers option list strings pretty gmap.

Local Open Scope Z_scope.

(** * The pseudo-random generator behind [random.seed] and [random.shuffle]

    The [random] module keeps one process-wide generator.  The embedding
    threads its state explicitly.  [seed a] is the state after
    [random.seed(a)]: it depends on [a] alone, never on the state before.
    [randbelow n g] is [Random._randbelow(n)], the draw [random.shuffle] uses:
    the number drawn and the state after the draw. *)

Class RandomGen (G : Type) := {
  seed : Z → G;
  randbelow : nat → G → nat * G
}.

(** The documented contract of [_randbelow]: "Return a random int in the
    range [0,n).  Defined for n > 0." *)
Definition randbelow_in_range {G : Type} (gen : RandomGen G) : Prop :=
  ∀ (n : nat) (g : G), (0 < n)%nat → ((randbelow n g).1 < n)%nat.

(** * Python lists *)

(** [x[i], x[j] = x[j], x[i]]: both reads happen first and raise IndexError
    ([None]) out of range. *)
Definition swap {A} (i j : nat) (x : list A) : option (list A) :=
  match x !! j, x !! i with
  | Some xj, Some xi => Some (<[j:=xi]> (<[i:=xj]> x))
  | _, _ => None
  end.

(** [l[skip::step]] for a positive [step]: drop [skip] elements, then keep
    one element in every [step]. *)
Fixpoint slice_step {A} (skip step : nat) (l : list A) : list A :=
  match l with
  | [] => []
  | x :: t =>
      match skip with
      | O => x :: slice_step (step - 1) step t
      | S k => slice_step k step t
      end
  end.

Section Partitioner.
Context {G : Type} {gen : RandomGen G}.

(** The loop of [random.shuffle]:
    [for i in reversed(range(1, len(x))): j = randbelow(i + 1); swap]. *)
Fixpoint shuffle_loop {A} (i : nat) (x : list A) (g : G) : option (list A * G) :=
  match i with
  | O => Some (x, g)
  | S i' =>
      let '(j, g') := randbelow (i + 1) g in
      match swap i j x with
      | Some x' => shuffle_loop i' x' g'
      | None => None
      end
  end.

Definition shuffle {A} (x : list A) (g : G) : option (list A * G) :=
  shuffle_loop (length x - 1) x g.

(** What a call of [split_files] leaves behind: the dict it returns, in
    insertion order, the caller's list object after the call, and the state
    of the process-wide generator. *)
Record split_outcome := SplitOutcome {
  buckets : list (string * list string);
  files_after : list string;
  rng_after : G
}.

(** [range(nclients)]: empty for a client count below one. *)
Definition client_range (nclients : Z) : list nat := seq 0 (Z.to_nat nclients).

Definition client_key (i : nat) : string := "client" +:+ pretty (i + 1)%nat.

(** [split_files(files, nclients)], entered with generator state [g0]. *)
Definition split_files (files : list string) (nclients : Z) (g0 : G)
  : option split_outcome :=
  let g1 := seed 42 in
  match shuffle files g1 with
  | None => None
  | Some (files', g2) =>
      Some {| buckets :=
                map (λ i, (client_key i, slice_step i (Z.to_nat nclients) files'))
                    (client_range nclients);
              files_after := files';
              rng_after := g2 |}
  end.

(** Line 42 of [process_split]: the split map of a subset. In validation
    mode the single bucket is the caller's list itself. *)
Definition split_map (img_files : list string) (nclients : Z) (is_train : bool)
    (g0 : G) : option split_outcome :=
  if is_train then split_files img_files nclients g0
  else Some {| buckets := [("server", img_files)];
               files_after := img_files;
               rng_after := g0 |}.
End Partitioner.

Arguments split_outcome : clear implicits.

(** * MT19937, the generator of CPython's [random] module *)

Module MT19937.

Definition N : nat := 624.
Definition M : nat := 397.
Definition MATRIX_A : Z := 0x9908b0df.
Definition UPPER_MASK : Z := 0x80000000.
Definition LOWER_MASK : Z := 0x7fffffff.

Definition u32 (z : Z) : Z := Z.land z 0xffffffff.

(** [starved] records that the rejection loop of [randbelow] hit the bound
    this model puts on it; CPython has no such bound. *)
Record state := State { mt : list Z; index : nat; starved : bool }.

Definition word (mt : list Z) (i : nat) : Z := default 0 (mt !! i).

Fixpoint init_genrand_loop (n mti : nat) (mt : list Z) : list Z :=
  match n with
  | O => mt
  | S n' =>
      let p := word mt (mti - 1) in
      init_genrand_loop n' (S mti)
        (<[mti := u32 (1812433253 * Z.lxor p (Z.shiftr p 30) + Z.of_nat mti)]> mt)
  end.

Definition init_genrand (s : Z) : list Z :=
  init_genrand_loop (N - 1) 1 (<[O := u32 s]> (replicate N 0)).

(** First loop of [init_by_array]: [k] rounds over [mt[i]] and [key[j]]. *)
Fixpoint init_key_loop (k i j : nat) (key mt : list Z) : nat * list Z :=
  match k with
  | O => (i, mt)
  | S k' =>
      let p := word mt (i - 1) in
      let v := u32 (Z.lxor (word mt i) (u32 (Z.lxor p (Z.shiftr p 30) * 1664525))
                    + word key j + Z.of_nat j) in
      let mt := <[i := v]> mt in
      let i := S i in
      let j := S j in
      let '(i, mt) := if (N <=? i)%nat then (1%nat, <[O := word mt (N - 1)]> mt)
                      else (i, mt) in
      let j := if (length key <=? j)%nat then O else j in
      init_key_loop k' i j key mt
  end.

(** Second loop of [init_by_array]. *)
Fixpoint init_mix_loop (k i : nat) (mt : list Z) : list Z :=
  match k with
  | O => mt
  | S k' =>
      let p := word mt (i - 1) in
      let v := u32 (Z.lxor (word mt i) (u32 (Z.lxor p (Z.shiftr p 30) * 1566083941))
                    - Z.of_nat i) in
      let mt := <[i := v]> mt in
      let i := S i in
      let '(i, mt) := if (N <=? i)%nat then (1%nat, <[O := word mt (N - 1)]> mt)
                      else (i, mt) in
      init_mix_loop k' i mt
  end.

Definition init_by_array (key : list Z) : state :=
  let mt := init_genrand 19650218 in
  let '(i, mt) := init_key_loop (N `max` length key) 1 0 key mt in
  let mt := init_mix_loop (N - 1) i mt in
  {| mt := <[O := 0x80000000]> mt; index := N; starved := false |}.

(** The 32-bit digits of [abs(a)], least significant first; one zero digit
    for zero. *)
Fixpoint key_words (fuel : nat) (a : Z) : list Z :=
  match fuel with
  | O => []
  | S f => u32 a :: (if Z.shiftr a 32 =? 0 then [] else key_words f (Z.shiftr a 32))
  end.

Definition random_seed (a : Z) : state :=
  let a := Z.abs a in
  init_by_array (key_words (S (Z.to_nat (Z.log2 a))) a).

Definition twist (mt : list Z) (kk next far : nat) : list Z :=
  let y := Z.lor (Z.land (word mt kk) UPPER_MASK) (Z.land (word mt next) LOWER_MASK) in
  <[kk := Z.lxor (Z.lxor (word mt far) (Z.shiftr y 1))
                 (if Z.testbit y 0 then MATRIX_A else 0)]> mt.

Fixpoint twist_low (n kk : nat) (mt : list Z) : list Z :=
  match n with
  | O => mt
  | S n' => twist_low n' (S kk) (twist mt kk (kk + 1) (kk + M))
  end.

Fixpoint twist_high (n kk : nat) (mt : list Z) : list Z :=
  match n with
  | O => mt
  | S n' => twist_high n' (S kk) (twist mt kk (kk + 1) (kk + M - N))
  end.

Definition regenerate (mt : list Z) : list Z :=
  let mt := twist_low (N - M) 0 mt in
  let mt := twist_high (M - 1) (N - M) mt in
  twist mt (N - 1) 0 (M - 1).

Definition temper (y : Z) : Z :=
  let y := Z.lxor y (Z.shiftr y 11) in
  let y := Z.lxor y (Z.land (u32 (Z.shiftl y 7)) 0x9d2c5680) in
  let y := Z.lxor y (Z.land (u32 (Z.shiftl y 15)) 0xefc60000) in
  Z.lxor y (Z.shiftr y 18).

Definition genrand_uint32 (g : state) : Z * state :=
  let '(mt, i) := if (N <=? index g)%nat then (regenerate (mt g), O)
                  else (mt g, index g) in
  (temper (word mt i), {| mt := mt; index := S i; starved := starved g |}).

(** [getrandbits(k)]: 32-bit words, least significant first, the last one
    cut to the bits that remain. *)
Fixpoint getrandbits_words (words : nat) (k : Z) (g : state) : Z * state :=
  match words with
  | O => (0, g)
  | S w =>
      let '(r, g) := genrand_uint32 g in
      let r := if k <? 32 then Z.shiftr r (32 - k) else r in
      let '(hi, g) := getrandbits_words w (k - 32) g in
      (r + Z.shiftl hi 32, g)
  end.

Definition getrandbits (k : Z) (g : state) : Z * state :=
  if k <=? 0 then (0, g)
  else getrandbits_words (Z.to_nat ((k - 1) / 32 + 1)) k g.

(** [_randbelow_with_getrandbits]: draw [k = n.bit_length()] bits until the
    draw is below [n]. *)
Fixpoint randbelow_loop (fuel : nat) (n k : Z) (g : state) : Z * state :=
  match fuel with
  | O => (0, {| mt := mt g; index := index g; starved := true |})
  | S f =>
      let '(r, g') := getrandbits k g in
      if r <? n then (r, g') else randbelow_loop f n k g'
  end.

Definition reject_bound : nat := 128.

Definition bit_length (n : Z) : Z := if n =? 0 then 0 else Z.log2 n + 1.

Definition mt_randbelow (n : nat) (g : state) : nat * state :=
  let '(r, g') := randbelow_loop reject_bound (Z.of_nat n) (bit_length (Z.of_nat n)) g in
  (Z.to_nat r, g').

#[global] Instance mt_gen : RandomGen state :=
  {| seed := random_seed; randbelow := mt_randbelow |}.

End MT19937.

(** * Python strings and POSIX paths *)

Definition chars : string → list ascii := String.list_ascii_of_string.
Definition text : list ascii → string := String.string_of_list_ascii.

(** [str.isspace] on the characters below 128. *)
Definition isspace (c : ascii) : bool :=
  let n := nat_of_ascii c in
  ((9 <=? n) && (n <=? 13) || (28 <=? n) && (n <=? 32))%nat.

Fixpoint lstrip (s : list ascii) : list ascii :=
  match s with
  | c :: t => if isspace c then lstrip t else s
  | [] => []
  end.

(** [s.strip()] *)
Definition strip (s : string) : string :=
  text (rev (lstrip (rev (lstrip (chars s))))).

(** [s.split(sep)] for a one-character separator: never an empty list. *)
Fixpoint split_chars (sep : ascii) (cur : list ascii) (s : list ascii) : list string :=
  match s with
  | [] => [text (rev cur)]
  | c :: t =>
      if decide (c = sep) then text (rev cur) :: split_chars sep [] t
      else split_chars sep (c :: cur) t
  end.

Definition split (sep : ascii) (s : string) : list string :=
  split_chars sep [] (chars s).

Fixpoint starts_with (p s : list ascii) : bool :=
  match p, s with
  | [], _ => true
  | a :: p', b :: s' => bool_decide (a = b) && starts_with p' s'
  | _ :: _, [] => false
  end.

(** [s.endswith(suffix)] *)
Definition endswith (s suffix : string) : bool :=
  starts_with (rev (chars suffix)) (rev (chars s)).

(** [s.replace(old, new)] for a non-empty [old]: every occurrence, left to
    right, not overlapping.  [skip] counts the characters of a match that are
    still to be dropped. *)
Fixpoint replace_chars (old new : list ascii) (skip : nat) (s : list ascii) : list ascii :=
  match s with
  | [] => []
  | c :: t =>
      match skip with
      | S k => replace_chars old new k t
      | O =>
          if starts_with old s then new ++ replace_chars old new (length old - 1) t
          else c :: replace_chars old new 0 t
      end
  end.

Definition replace (old new s : string) : string :=
  text (replace_chars (chars old) (chars new) 0 (chars s)).

(** One step of [posixpath.join]. *)
Definition path_join (a b : string) : string :=
  if starts_with (chars "/") (chars b) then b
  else if bool_decide (a = "") || endswith a "/" then a +:+ b
  else a +:+ "/" +:+ b.

Definition path_join3 (a b c : string) : string := path_join (path_join a b) c.
Definition path_join4 (a b c d : string) : string := path_join (path_join3 a b c) d.

Fixpoint drop_slashes (s : list ascii) : list ascii :=
  match s with
  | c :: t => if bool_decide (c = "/"%char) then drop_slashes t else s
  | [] => []
  end.

(** The reversed characters of a path from its last ["/"] on. *)
Fixpoint from_slash (s : list ascii) : list ascii :=
  match s with
  | c :: t => if bool_decide (c = "/"%char) then s else from_slash t
  | [] => []
  end.

(** [posixpath.dirname]: the head up to the last slash, its trailing slashes
    removed unless it consists of slashes only. *)
Definition dirname (p : string) : string :=
  let head := from_slash (rev (chars p)) in
  match drop_slashes head with
  | [] => text (rev head)
  | stripped => text (rev stripped)
  end.

(** [posixpath.basename] *)
Fixpoint until_slash (s : list ascii) : list ascii :=
  match s with
  | c :: t => if bool_decide (c = "/"%char) then [] else c :: until_slash t
  | [] => []
  end.

Definition basename (p : string) : string := text (rev (until_slash (rev (chars p)))).

(** The heads [os.makedirs] climbs through from a path: [dirname] applied
    again and again, nearest first, until the head is empty (a relative
    path has no directory part left) or is the path itself (a root).  Every
    head is shorter than the path before it, so the length of the path is
    fuel enough. *)
Fixpoint ancestors_upto (fuel : nat) (p : string) : list string :=
  match fuel with
  | O => []
  | S fuel' =>
      let head := dirname p in
      if bool_decide (head = "") || bool_decide (head = p) then []
      else head :: ancestors_upto fuel' head
  end.

Definition ancestors (p : string) : list string :=
  ancestors_upto (String.length p) p.

(** * Python numbers

    A Python [float] is an IEEE 754 binary64 number, which is what the
    primitive [float] of the kernel is; a Python [int] is a [Z]. *)

(** Conversion of an [int] operand of a float operation, rounding to nearest
    even. *)
Definition float_of_int (z : Z) : float :=
  SF2Prim (binary_normalize prec emax z 0 false).

(** [str(n)] for an [int]. *)
Definition str_int (n : Z) : string := pretty n.

Definition sign_text (neg : bool) : string := if neg then "-" else "".

(** [s.rjust(width, "0")] *)
Definition zero_pad (width : nat) (s : string) : string :=
  text (replicate (width - String.length s) "0"%char) +:+ s.

(** The nearest integer to [num / den], ties to even, for [0 <= num] and
    [0 < den]. *)
Definition round_half_even (num den : Z) : Z :=
  let q := num / den in
  match 2 * (num mod den) ?= den with
  | Lt => q
  | Gt => q + 1
  | Eq => if Z.even q then q else q + 1
  end.

(** [format(f, ".6f")]: the exact binary value, rounded half-even to six
    decimals. *)
Definition format_6f (f : float) : string :=
  match Prim2SF f with
  | S754_nan => "nan"
  | S754_infinity s => sign_text s +:+ "inf"
  | S754_zero s => sign_text s +:+ "0.000000"
  | S754_finite s m e =>
      let n := if 0 <=? e then Z.pos m * 2 ^ e * 1000000
               else round_half_even (Z.pos m * 1000000) (2 ^ (- e)) in
      sign_text s +:+ pretty (n / 1000000) +:+ "."
        +:+ zero_pad 6 (pretty (n mod 1000000))
  end.

(** The builtins [float(s)] and [int(s)] on a [str]; [None] is ValueError. *)
Class Numerals := {
  py_float : string → option float;
  py_int : string → option Z
}.

(** The numerals of [float] and [int] written with characters below 128. *)
Module Numeral.

Definition is_digit (c : ascii) : bool := bool_decide (is_Some (Ascii.is_nat c)).

Definition in_group (c : ascii) : bool := is_digit c || bool_decide (c = "_"%char).

(** The longest prefix of digits and underscores, and what follows it. *)
Fixpoint take_group (s : list ascii) : list ascii * list ascii :=
  match s with
  | c :: t => if in_group c then let '(g, r) := take_group t in (c :: g, r)
              else ([], s)
  | [] => ([], [])
  end.

(** Underscores stand between two digits only. *)
Fixpoint group_ok (prev_digit : bool) (g : list ascii) : bool :=
  match g with
  | [] => prev_digit
  | c :: t => if is_digit c then group_ok true t
              else prev_digit && group_ok false t
  end.

Definition group_value (g : list ascii) : Z :=
  foldl (λ acc c, match Ascii.is_nat c with
                  | Some d => 10 * acc + Z.of_nat d
                  | None => acc
                  end) 0 g.

Definition group_digits (g : list ascii) : nat := length (filter (λ c, is_digit c = true) g).

(** The white space [int()] and [float()] skip around a numeral: tab to
    carriage return and the blank; unlike [str.strip], not the separators
    0x1C to 0x1F. *)
Definition is_blank (c : ascii) : bool :=
  let n := nat_of_ascii c in
  ((9 <=? n) && (n <=? 13) || (n =? 32))%nat.

Fixpoint ltrim (s : list ascii) : list ascii :=
  match s with
  | c :: t => if is_blank c then ltrim t else s
  | [] => []
  end.

Definition trim (s : string) : list ascii := rev (ltrim (rev (ltrim (chars s)))).

Definition take_sign (s : list ascii) : bool * list ascii :=
  match s with
  | "-"%char :: t => (true, t)
  | "+"%char :: t => (false, t)
  | _ => (false, s)
  end.

Definition int_numeral (s : string) : option Z :=
  let '(neg, body) := take_sign (trim s) in
  let '(g, rest) := take_group body in
  if group_ok false g && bool_decide (rest = []) then
    Some (if neg then - group_value g else group_value g)
  else None.

(** [d * 10 ^ p], rounded to nearest even. *)
Definition decimal_to_float (neg : bool) (d p : Z) : float :=
  SF2Prim
    (if d =? 0 then S754_zero neg
     else if 0 <=? p then
       binary_normalize prec emax ((if neg then - d else d) * 10 ^ p) 0 false
     else
       SFdiv prec emax (S754_finite neg (Z.to_pos d) 0)
                       (S754_finite false (Z.to_pos (10 ^ (- p))) 0)).

Definition lower (c : ascii) : ascii :=
  let n := nat_of_ascii c in
  if ((65 <=? n) && (n <=? 90))%nat then ascii_of_nat (n + 32) else c.

Definition exponent (s : list ascii) : option Z :=
  match s with
  | [] => Some 0
  | c :: t =>
      if bool_decide (lower c = "e"%char) then
        let '(neg, body) := take_sign t in
        let '(g, rest) := take_group body in
        if group_ok false g && bool_decide (rest = []) then
          Some (if neg then - group_value g else group_value g)
        else None
      else None
  end.

Definition float_numeral (s : string) : option float :=
  let '(neg, body) := take_sign (trim s) in
  let word := text (map lower body) in
  if bool_decide (word = "inf") || bool_decide (word = "infinity") then
    Some (if neg then neg_infinity else infinity)
  else if bool_decide (word = "nan") then Some nan
  else
    let '(ipart, rest) := take_group body in
    let '(fpart, rest) :=
      match rest with
      | "."%char :: t => take_group t
      | _ => ([], rest)
      end in
    let ok_i := bool_decide (ipart = []) || group_ok false ipart in
    let ok_f := bool_decide (fpart = []) || group_ok false fpart in
    if ok_i && ok_f && negb (bool_decide (ipart ++ fpart = [])) then
      match exponent rest with
      | Some x =>
          Some (decimal_to_float neg (group_value (ipart ++ fpart))
                                 (x - Z.of_nat (group_digits fpart)))
      | None => None
      end
    else None.

#[global] Instance ascii_numerals : Numerals :=
  {| py_float := float_numeral; py_int := int_numeral |}.

End Numeral.

(** * Bounding boxes *)

(** [convert_bbox] of [datasets_utils.py]. *)
Definition convert_bbox (bbox_left bbox_top bbox_right bbox_bottom : float)
    (img_width img_height : Z) : float * float * float * float :=
  let x := ((bbox_left + bbox_right) / float_of_int 2 / float_of_int img_width)%float in
  let y := ((bbox_top + bbox_bottom) / float_of_int 2 / float_of_int img_height)%float in
  let w := ((bbox_right - bbox_left) / float_of_int img_width)%float in
  let h := ((bbox_bottom - bbox_top) / float_of_int img_height)%float in
  (x, y, w, h).

(** * The distribution table

    The [pandas.DataFrame] of [get_distribution_dataframe]: row labels and
    column labels in order, and one integer cell per pair of labels. *)

Record dataframe := DataFrame {
  index : list string;
  columns : list string;
  cells : gmap (string * string) Z
}.

Definition empty_frame : dataframe := {| index := []; columns := []; cells := ∅ |}.

(** The frame [get_distribution_dataframe] builds from the class names of the
    YAML document: columns ["server"], ["client1"], ..., a row ["Samples"]
    before the class rows, [fillna(0)] everywhere. *)
Definition distribution_frame (names : list string) (nclients : Z) : dataframe :=
  let columns := "server" :: map (λ k : nat, "client" +:+ pretty k) (seq 1 (Z.to_nat nclients)) in
  let index := "Samples" :: names in
  {| index := index;
     columns := columns;
     cells := list_to_map (map (λ rc, (rc, 0)) (list_prod index columns)) |}.

(** [df.loc[row, col]], zero where the frame has no such cell. *)
Definition cell (df : dataframe) (row col : string) : Z :=
  default 0 (cells df !! (row, col)).

(** * The process state *)

Inductive exn :=
| FileNotFoundError (path : string)
| FileExistsError (path : string)
| IsADirectoryError (path : string)
| NotADirectoryError (path : string)
| SameFileError (path : string)
| IndexError
| KeyError (row col : string)
| YamlError
| RuntimeError (msg : string).

(** What the program prints, in order. *)
Inductive message :=
| Processing (subset : string)
| FileFailed (img_file : string) (e : exn).

Inductive result (A : Type) :=
| Ok (a : A)
| Raise (e : exn).
Arguments Ok {A} a.
Arguments Raise {A} e.

Section Pipeline.
Context {G : Type} {gen : RandomGen G} {num : Numerals}.

(** [yaml.load(f)['names']] for the lines of a YAML file; [None] when the
    load or the lookup raises. *)
Variable yaml_names : list string → option (list string).

(** Files as the lines a text-mode iteration yields; directories as the
    entries [os.listdir] reports, in its order; the output printed so far;
    the count of the progress bar; the frame bound to [dist_df]; the
    process-wide generator. *)
Record state := State {
  files : gmap string (list string);
  dirs : gmap string (list string);
  stdout : list message;
  progress : nat;
  dist_df : dataframe;
  rng : G
}.

Definition IO (A : Type) : Type := state → result A * state.

Definition ret {A} (a : A) : IO A := λ s, (Ok a, s).

Definition bind {A B} (m : IO A) (k : A → IO B) : IO B :=
  λ s, match m s with
       | (Ok a, s') => k a s'
       | (Raise e, s') => (Raise e, s')
       end.

Definition raise {A} (e : exn) : IO A := λ s, (Raise e, s).

(** [try: m except Exception as e: handler(e)] *)
Definition try_except {A} (m : IO A) (handler : exn → IO A) : IO A :=
  λ s, match m s with
       | (Ok a, s') => (Ok a, s')
       | (Raise e, s') => handler e s'
       end.

Notation "x <- m ;; k" := (bind m (λ x, k))
  (at level 100, m at next level, right associativity).
Notation "m ;;; k" := (bind m (λ _, k))
  (at level 100, right associativity).

Definition set_files (f : gmap string (list string)) (s : state) : state :=
  {| files := f; dirs := dirs s; stdout := stdout s; progress := progress s;
     dist_df := dist_df s; rng := rng s |}.
Definition set_dirs (d : gmap string (list string)) (s : state) : state :=
  {| files := files s; dirs := d; stdout := stdout s; progress := progress s;
     dist_df := dist_df s; rng := rng s |}.
Definition set_df (df : dataframe) (s : state) : state :=
  {| files := files s; dirs := dirs s; stdout := stdout s; progress := progress s;
     dist_df := df; rng := rng s |}.

Definition print (m : message) : IO unit :=
  λ s, (Ok (), {| files := files s; dirs := dirs s; stdout := stdout s ++ [m];
                  progress := progress s; dist_df := dist_df s; rng := rng s |}).

(** [pbar.update(1)] *)
Definition pbar_update : IO unit :=
  λ s, (Ok (), {| files := files s; dirs := dirs s; stdout := stdout s;
                  progress := S (progress s); dist_df := dist_df s; rng := rng s |}).

(** [os.path.exists] *)
Definition path_exists (p : string) : IO bool :=
  λ s, (Ok (bool_decide (is_Some (files s !! p)) || bool_decide (is_Some (dirs s !! p))), s).

(** [os.listdir] *)
Definition listdir (p : string) : IO (list string) :=
  λ s, match dirs s !! p with
       | Some entries => (Ok entries, s)
       | None => (Raise (if bool_decide (is_Some (files s !! p))
                         then NotADirectoryError p else FileNotFoundError p), s)
       end.

(** Where [os.makedirs] fails with NotADirectoryError on its way to a
    missing path: it climbs from [child] through the heads [above] while
    they do not exist, and the [os.mkdir] of the path right below a head that
    is a regular file fails. *)
Fixpoint below_file (s : state) (child : string) (above : list string)
  : option string :=
  match above with
  | [] => None
  | head :: above' =>
      if bool_decide (is_Some (files s !! head)) then Some child
      else if bool_decide (is_Some (dirs s !! head)) then None
      else below_file s head above'
  end.

(** [os.makedirs(p, exist_ok=True)], for a path without a trailing slash, as
    [dirname] gives it.  A path that is a regular file raises
    FileExistsError; a directory that is there is left alone; a missing path
    under a regular file raises NotADirectoryError for the path right below
    that file.  A new directory starts empty; the missing heads made on the
    way and the entries of the parents are not recorded: the pipeline lists
    the source directories only, and before it writes. *)
Definition makedirs (p : string) : IO unit :=
  λ s, if bool_decide (is_Some (files s !! p)) then (Raise (FileExistsError p), s)
       else match dirs s !! p with
            | Some _ => (Ok (), s)
            | None =>
                match below_file s p (ancestors p) with
                | Some q => (Raise (NotADirectoryError q), s)
                | None => (Ok (), set_dirs (<[p := []]> (dirs s)) s)
                end
            end.

(** [shutil.copy(src, dst)] *)
Definition copy (src dst : string) : IO unit :=
  λ s, let dst := if bool_decide (is_Some (dirs s !! dst))
                  then path_join dst (basename src) else dst in
       match files s !! src with
       | None => (Raise (if bool_decide (is_Some (dirs s !! src))
                         then IsADirectoryError src else FileNotFoundError src), s)
       | Some data =>
           if bool_decide (src = dst) then (Raise (SameFileError src), s)
           else (Ok (), set_files (<[dst := data]> (files s)) s)
       end.

(** [open(p, 'r')] *)
Definition open_read (p : string) : IO unit :=
  λ s, match files s !! p with
       | Some _ => (Ok (), s)
       | None => (Raise (if bool_decide (is_Some (dirs s !! p))
                         then IsADirectoryError p else FileNotFoundError p), s)
       end.

(** [open(p, 'w')]: the file is created or emptied. *)
Definition open_write (p : string) : IO unit :=
  λ s, if bool_decide (is_Some (dirs s !! p)) then (Raise (IsADirectoryError p), s)
       else (Ok (), set_files (<[p := []]> (files s)) s).

(** The lines of an open file, for a file that holds text: what the
    platform's encoding does not decode raises UnicodeDecodeError in the real
    iteration, inside the [try] of the file, and is left out here. *)
Definition read_lines (p : string) : IO (list string) :=
  λ s, (Ok (default [] (files s !! p)), s).

(** [dst.write(line)] on the file opened at [p]. *)
Definition write (p line : string) : IO unit :=
  λ s, (Ok (), set_files (<[p := default [] (files s !! p) ++ [line]]> (files s)) s).

(** [dist_df.index[i]]: a position, counted from the end when negative. *)
Definition index_at (i : Z) : IO string :=
  λ s, let labels := index (dist_df s) in
       let k := if 0 <=? i then i else Z.of_nat (length labels) + i in
       match (if 0 <=? k then labels !! Z.to_nat k else None) with
       | Some name => (Ok name, s)
       | None => (Raise IndexError, s)
       end.

(** [dist_df.loc[row, col] += 1] *)
Definition loc_incr (row col : string) : IO unit :=
  λ s, let df := dist_df s in
       match cells df !! (row, col) with
       | Some v =>
           (Ok (), set_df {| index := index df; columns := columns df;
                             cells := <[(row, col) := v + 1]> (cells df) |} s)
       | None => (Raise (KeyError row col), s)
       end.

Fixpoint for_each {A} (l : list A) (body : A → IO unit) : IO unit :=
  match l with
  | [] => ret ()
  | x :: t => body x ;;; for_each t body
  end.

(** [get_distribution_dataframe(data, nclients)] *)
Definition get_distribution_dataframe (data : string) (nclients : Z) : IO dataframe :=
  open_read data ;;;
  lines <- read_lines data ;;
  match yaml_names lines with
  | Some names => ret (distribution_frame names nclients)
  | None => raise YamlError
  end.

(** The numbers lines 70 to 83 of [process_split] read from a line; [None]
    where the loop goes on to the next line. *)
Definition parse_line (line : string) : option (float * float * float * float * Z * Z) :=
  let parts := split "," (strip line) in
  if (length parts <? 8)%nat then None
  else
    x_min ← parts !! 0%nat ≫= py_float;
    y_min ← parts !! 1%nat ≫= py_float;
    w ← parts !! 2%nat ≫= py_float;
    h ← parts !! 3%nat ≫= py_float;
    cls_id ← parts !! 5%nat ≫= py_int;
    status ← parts !! 6%nat ≫= py_int;
    Some (x_min, y_min, w, h, cls_id, status).

(** The test of line 86. *)
Definition filtered (cls_id status : Z) : bool :=
  (status =? 0) || negb ((1 <=? cls_id) && (cls_id <=? 10)).

(** The line of line 100. *)
Definition yolo_line (cls_id : Z) (x y bw bh : float) : string :=
  str_int (cls_id - 1) +:+ " " +:+ format_6f x +:+ " " +:+ format_6f y +:+ " "
    +:+ format_6f bw +:+ " " +:+ format_6f bh +:+ "
".

(** The body of the loop over the lines of an annotation file. *)
Definition process_line (destination label_dst line : string) : IO unit :=
  match parse_line line with
  | None => ret ()
  | Some (x_min, y_min, w, h, cls_id, status) =>
      if filtered cls_id status then ret ()
      else
        let '(x, y, bw, bh) :=
          convert_bbox x_min y_min (x_min + w)%float (y_min + h)%float 1920 1080 in
        write label_dst (yolo_line cls_id x y bw bh) ;;;
        class_name <- index_at cls_id ;;
        loc_incr class_name destination ;;;
        loc_incr "Samples" destination
  end.

(** The body of the loop over the files of a bucket. *)
Definition process_file (img_dir ann_dir dst_dir destination img_file : string)
  : IO unit :=
  let img_src := path_join img_dir img_file in
  let ann_src := path_join ann_dir (replace ".jpg" ".txt" img_file) in
  let img_dst := path_join4 dst_dir destination "images" img_file in
  let label_dst :=
    path_join4 dst_dir destination "labels" (replace ".jpg" ".txt" img_file) in
  makedirs (dirname img_dst) ;;;
  makedirs (dirname label_dst) ;;;
  try_except
    (copy img_src img_dst ;;;
     open_read ann_src ;;;
     open_write label_dst ;;;
     lines <- read_lines ann_src ;;
     for_each lines (process_line destination label_dst) ;;;
     pbar_update)
    (λ e, print (FileFailed img_file e)).

(** Line 42, on the generator of the state. *)
Definition assign_files (img_files : list string) (nclients : Z) (is_train : bool)
  : IO (list (string * list string)) :=
  λ s, match split_map img_files nclients is_train (rng s) with
       | Some o =>
           (Ok (buckets o),
            {| files := files s; dirs := dirs s; stdout := stdout s;
               progress := progress s; dist_df := dist_df s; rng := rng_after o |})
       | None => (Raise IndexError, s)
       end.

Definition process_split (src_dir dst_dir subset : string) (nclients : Z)
    (yaml_path : string) (is_train : bool) : IO dataframe :=
  print (Processing subset) ;;;
  df <- try_except (get_distribution_dataframe yaml_path nclients)
                   (λ e, raise (RuntimeError "yaml")) ;;
  (λ s, (Ok (), set_df df s)) ;;;
  let img_dir := path_join3 src_dir "images" subset in
  let ann_dir := path_join3 src_dir "annotations" subset in
  img_ok <- path_exists img_dir ;;
  if negb img_ok then raise (FileNotFoundError img_dir)
  else
    ann_ok <- path_exists ann_dir ;;
    if negb ann_ok then raise (FileNotFoundError ann_dir)
    else
      entries <- listdir img_dir ;;
      let img_files := filter (λ f, endswith f ".jpg" = true) entries in
      if bool_decide (img_files = []) then raise (RuntimeError subset)
      else
        split_map <- assign_files img_files nclients is_train ;;
        for_each split_map (λ '(destination, files),
          for_each files (process_file img_dir ann_dir dst_dir destination)) ;;;
        (λ s, (Ok (dist_df s), s)).
End Pipeline.

Arguments state : clear implicits.
Arguments IO : clear implicits.

(** * The notions the properties are stated with *)

(** [ceil(m / n)] *)
Definition ceil_div (m n : nat) : nat :=
  if (m mod n =? 0)%nat then (m / n)%nat else (m / n + 1)%nat.

(** A line survives when it parses and passes the test of line 86. *)
Definition survives {num : Numerals} (line : string) : bool :=
  match parse_line line with
  | Some (_, _, _, _, cls_id, status) => negb (filtered cls_id status)
  | None => false
  end.

(** The class id of a surviving line. *)
Definition line_class {num : Numerals} (line : string) : option Z :=
  match parse_line line with
  | Some (_, _, _, _, cls_id, status) =>
      if filtered cls_id status then None else Some cls_id
  | None => None
  end.

(** The class id and the status flag a line carries, where the field is
    there and is an integer. *)
Definition class_field {num : Numerals} (line : string) : option Z :=
  split "," (strip line) !! 5%nat ≫= py_int.

Definition status_field {num : Numerals} (line : string) : option Z :=
  split "," (strip line) !! 6%nat ≫= py_int.

(** The sum of the cells of a column over the class rows, the rows after
    ["Samples"]. *)
Definition class_sum (df : dataframe) (col : string) : Z :=
  foldr Z.add 0 (map (λ row, cell df row col) (tail (index df))).

Definition balanced (df : dataframe) : Prop :=
  ∀ col, cell df "Samples" col = class_sum df col.

(** The frame has exactly the cells of its row and column labels, the rows
    start with ["Samples"], and no label names two rows. *)
Definition well_shaped (df : dataframe) : Prop :=
  head (index df) = Some "Samples" ∧ NoDup (index df) ∧
  ∀ row col, is_Some (cells df !! (row, col)) ↔ row ∈ index df ∧ col ∈ columns df.

(** The invariant of the table during a pass. *)
Definition table_inv (df : dataframe) : Prop := well_shaped df ∧ balanced df.

(** Computations that leave the table alone. *)
Definition keeps_table {G A : Type} (m : IO G A) : Prop :=
  ∀ s, dist_df (m s).2 = dist_df s.

(** Computations that keep a property of the table. *)
Definition preserves {G A : Type} (P : dataframe → Prop) (m : IO G A) : Prop :=
  ∀ s, P (dist_df s) → P (dist_df (m s).2).

(** The exact value of a finite float. *)
Definition float_to_Q (f : float) : option Q :=
  match Prim2SF f with
  | S754_zero _ => Some 0%Q
  | S754_finite s m e =>
      Some ((if s then -1 else 1) * inject_Z (Z.pos m) * Qpower 2 e)%Q
  | _ => None
  end.

(** [|f - target| <= tol], exactly. *)
Definition close_to (f : float) (target tol : Q) : Prop :=
  match float_to_Q f with
  | Some v => (Qabs (v - target) <= tol)%Q
  | None => False
  end.

(** The two ways a field can be read as a number. *)
Inductive numeral_kind := AsFloat | AsInt.

Definition unreadable {num : Numerals} (kind : numeral_kind) (field : option string) : Prop :=
  match kind with
  | AsFloat => field ≫= py_float = None
  | AsInt => field ≫= py_int = None
  end.

(** The spec's words for a malformed line, for a choice [required] of the
    positions of the numeric fields and of the way each is read: fewer than
    eight fields, or a required field that does not parse as a number. *)
Definition spec_malformed {num : Numerals} (required : list (nat * numeral_kind))
    (line : string) : Prop :=
  let parts := split "," (strip line) in
  (length parts < 8)%nat ∨
  ∃ i kind, (i, kind) ∈ required ∧ unreadable kind (parts !! i).

(** What the code asks of a line: eight fields, floats at positions 0 to 3,
    integers at positions 5 and 6. *)
Definition malformed {num : Numerals} (line : string) : Prop :=
  let parts := split "," (strip line) in
  (length parts < 8)%nat ∨
  (∃ i, i ∈ [0; 1; 2; 3]%nat ∧ parts !! i ≫= py_float = None) ∨
  (∃ i, i ∈ [5; 6]%nat ∧ parts !! i ≫= py_int = None).

(** The surviving lines that count for a class row: those whose class id
    selects the row label [row] in the index of the frame. *)
Definition has_class {num : Numerals} (df : dataframe) (row : string) (line : string) : bool :=
  match line_class line with
  | Some cls_id => bool_decide (index df !! Z.to_nat cls_id = Some row)
  | None => false
  end.

(** The number of elements of a list that pass a test. *)
Definition count_of {A} (test : A → bool) (l : list A) : Z :=
  Z.of_nat (length (filter (λ a, test a = true) l)).

(** Ten class names, those of the VisDrone data set. *)
Definition visdrone_names : list string :=
  ["pedestrian"; "people"; "bicycle"; "car"; "van"; "truck"; "tricycle";
   "awning-tricycle"; "bus"; "motor"].

(** A small training subset: two images, the first with an annotation file
    of five lines (two of them survive), the second without one.  The table
    is the empty table for the ten class names and two clients. *)
Definition example_state : state MT19937.state :=
  {| files :=
       list_to_map
         [("src/images/train/a.jpg", ["<jpeg a>"]);
          ("src/images/train/b.jpg", ["<jpeg b>"]);
          ("src/annotations/train/a.txt",
           ["100,200,300,150,1,4,1,0"; "1,2,3,4,0,0,1,0"; "corrupt";
            "10,20,30,40,1,10,2,0"; "1,1,1,1,1,1,0,0"]);
          ("data/VisDrone.yaml", ["names: [pedestrian, people, ...]"])];
     dirs :=
       list_to_map
         [("src/images/train", ["a.jpg"; "b.jpg"]);
          ("src/annotations/train", ["a.txt"])];
     stdout := [];
     progress := 0;
     dist_df := distribution_frame visdrone_names 2;
     rng := seed 0 |}.

(** A line of eight fields, all ["1"] but the one at position [i]. *)
Definition probe_line (i : nat) : string :=
  text (tail (mjoin (map (λ k, [","%char; if decide (k = i) then "x"%char else "1"%char])
                         (seq 0 8)))).

(** * The directory tree of the buckets *)

Section Directories.
Context {G : Type}.

(** What the operating system refuses: [os_error p s] is the error of making
    the directory [p] in the state [s] for a reason other than [p] being
    there already (a parent that is a regular file, a missing permission). *)
Variable os_error : string → state G → option exn.

(** [os.makedirs(p)], without [exist_ok]: the path must be new.  As for
    [makedirs], the new directory starts empty and the entries of its parents
    are not kept up to date. *)
Definition makedirs_new (p : string) : IO G unit :=
  λ s, if bool_decide (is_Some (files s !! p)) || bool_decide (is_Some (dirs s !! p))
       then (Raise (FileExistsError p), s)
       else match os_error p s with
            | Some e => (Raise e, s)
            | None => (Ok (), set_dirs (<[p := []]> (dirs s)) s)
            end.

(** [if not os.path.exists(p): os.makedirs(p)] *)
Definition ensure_dir (p : string) : IO G unit :=
  bind (path_exists p) (λ there, if there then ret () else makedirs_new p).

(** [['', '/images', '/labels']] *)
Definition subdicts : list string := [""; "/images"; "/labels"].

(** [create_directories] of [datasets_utils.py]. *)
Definition create_directories (target_path : string) (nclients : Z) : IO G unit :=
  bind (ensure_dir target_path) (λ _,
  bind (for_each subdicts
          (λ subdict, ensure_dir (target_path +:+ "/server" +:+ subdict))) (λ _,
  for_each (seq 1 (Z.to_nat nclients)) (λ k,
    for_each subdicts
      (λ subdict, ensure_dir (target_path +:+ "/client" +:+ pretty k +:+ subdict))))).
End Directories.

(** [os.path.exists(p)] holds in the state [s]. *)
Definition present {G : Type} (s : state G) (p : string) : Prop :=
  is_Some (files s !! p) ∨ is_Some (dirs s !! p).

(** From [s] to [s'] directories were made and nothing else was done: the
    regular files, the output, the progress count, the table and the
    generator are the same, and what was there is still there. *)
Definition only_new_dirs {G : Type} (s s' : state G) : Prop :=
  files s' = files s ∧ stdout s' = stdout s ∧ progress s' = progress s ∧
  dist_df s' = dist_df s ∧ rng s' = rng s ∧ ∀ q, present s q → present s' q.

(** An operating system that refuses nothing. *)
Definition willing {G : Type} : string → state G → option exn := λ _ _, None.

(** An operating system that makes no directory under a regular file. *)
Definition parent_is_file {G : Type} : string → state G → option exn :=
  λ p s, if bool_decide (is_Some (files s !! dirname p))
         then Some (NotADirectoryError p) else None.

(** The paths [create_directories] visits, in its order. *)
Definition bucket_dirs (target_path : string) (nclients : Z) : list string :=
  target_path
  :: map (λ subdict, target_path +:+ "/server" +:+ subdict) subdicts
  ++ mjoin (map (λ k : nat,
                   map (λ subdict, target_path +:+ "/client" +:+ pretty k +:+ subdict)
                       subdicts)
                (seq 1 (Z.to_nat nclients))).

(** * What a line becomes *)

(** The text lines 70 to 100 of [process_split] write for a line; [None] for
    a line that is dropped. *)
Definition render_line {num : Numerals} (line : string) : option string :=
  match parse_line line with
  | None => None
  | Some (x_min, y_min, w, h, cls_id, status) =>
      if filtered cls_id status then None
      else
        let '(x, y, bw, bh) :=
          convert_bbox x_min y_min (x_min + w)%float (y_min + h)%float 1920 1080 in
        Some (yolo_line cls_id x y bw bh)
  end.

(** The exceptions of the file system calls. *)
Definition io_error (e : exn) : Prop :=
  match e with
  | FileNotFoundError _ | IsADirectoryError _ | NotADirectoryError _
  | SameFileError _ | FileExistsError _ => True
  | _ => False
  end.

(** The table [df'] is [df] with some cells of the column [dest] counted
    up: same labels, no cell lower, the other columns as they were. *)
Definition grows (dest : string) (df df' : dataframe) : Prop :=
  index df' = index df ∧ columns df' = columns df ∧
  (∀ row col, cell df row col ≤ cell df' row col) ∧
  (∀ row col, col ≠ dest → cell df' row col = cell df row col).

(** Everything of the state but the files and the table. *)
Definition same_outside {G : Type} (s s' : state G) : Prop :=
  dirs s' = dirs s ∧ stdout s' = stdout s ∧ progress s' = progress s ∧ rng s' = rng s.

(** A triple for the computations of the pipeline: from a state that meets
    [P], the result and the state after meet [Q]. *)
Definition hoare {G A : Type} (P : state G → Prop) (m : IO G A)
    (Q : result A → state G → Prop) : Prop :=
  ∀ s, P s → Q (m s).1 (m s).2.

(** What a file adds to the progress count and to the output together. *)
Definition accounted {G : Type} (s : state G) : nat :=
  (progress s + length (stdout s))%nat.

(** Computations that touch the files and the directories only. *)
Definition calm {G A : Type} (m : IO G A) : Prop :=
  ∀ s, stdout (m s).2 = stdout s ∧ progress (m s).2 = progress s ∧
       dist_df (m s).2 = dist_df s ∧ rng (m s).2 = rng s.

(** The exception [e] is one [os.makedirs(d, exist_ok=True)] raises in the
    state [s]: the FileExistsError of [d], which is a regular file, or the
    NotADirectoryError of [d] or of one of the heads above it, which is right
    below a regular file. *)
Definition makedirs_refused {G : Type} (s : state G) (d : string) (e : exn) : Prop :=
  (e = FileExistsError d ∧ is_Some (files s !! d)) ∨
  (∃ q, e = NotADirectoryError q ∧ q ∈ d :: ancestors d ∧
        is_Some (files s !! dirname q)).

(** How one file can end, from the state [s] before it: counted, or reported
    as failed, or stopped by [os.makedirs] at one of the two bucket
    directories [d1], [d2]. *)
Definition file_outcome {G : Type} (img_file d1 d2 : string) (s : state G)
    (r : result ()) (s' : state G) : Prop :=
  match r with
  | Ok _ =>
      (progress s' = S (progress s) ∧ stdout s' = stdout s) ∨
      (progress s' = progress s ∧
       ∃ e, stdout s' = stdout s ++ [FileFailed img_file e])
  | Raise e =>
      (makedirs_refused s d1 e ∨ makedirs_refused s d2 e) ∧
      files s' = files s ∧ stdout s' = stdout s ∧
      progress s' = progress s ∧ dist_df s' = dist_df s
  end.

(** The loop of [process_split] over the buckets and their files. *)
Definition bucket_loop {G : Type} {num : Numerals} (img_dir ann_dir dst_dir : string)
    (assignment : list (string * list string)) : IO G unit :=
  for_each assignment (λ '(destination, files),
    for_each files (process_file img_dir ann_dir dst_dir destination)).

(** The state in which [process_split] enters its loop: the subset
    announced, the fresh table bound, the generator as the split left it. *)
Definition loop_entry {G : Type} (subset : string) (df : dataframe) (g : G)
    (s : state G) : state G :=
  {| files := files s; dirs := dirs s; stdout := stdout s ++ [Processing subset];
     progress := progress s; dist_df := df; rng := g |}.

(** The table [df'] is [df] with cells of the columns [keys] counted up. *)
Definition grows_in (keys : list string) (df df' : dataframe) : Prop :=
  index df' = index df ∧ columns df' = columns df ∧
  (∀ row col, cell df row col ≤ cell df' row col) ∧
  (∀ row col, col ∉ keys → cell df' row col = cell df row col).

(** The exceptions of the checks [process_split] makes before its loop. *)
Definition config_failure (img_dir ann_dir subset : string) (e : exn) : Prop :=
  e = RuntimeError "yaml" ∨ e = FileNotFoundError img_dir ∨
  e = FileNotFoundError ann_dir ∨ e = NotADirectoryError img_dir ∨
  e = RuntimeError subset ∨ e = IndexError.

(** The training pass over [example_state] and the table it returns. *)
Definition example_pass : result dataframe * state MT19937.state :=
  process_split (λ _, Some visdrone_names) "src" "dst" "train" 2
    "data/VisDrone.yaml" true example_state.

Definition example_table : dataframe :=
  match example_pass.1 with
  | Ok df => df
  | Raise _ => empty_frame
  end.

(** The exception [e] is one [os.makedirs] raises, in the state [s], at
    the image or the label directory of a file of a bucket of the
    assignment. *)
Definition bucket_dir_taken {G : Type} (dst_dir : string)
    (assignment : list (string * list string)) (s : state G) (e : exn) : Prop :=
  ∃ destination files img_file,
    (destination, files) ∈ assignment ∧ img_file ∈ files ∧
    (makedirs_refused s
       (dirname (path_join4 dst_dir destination "images" img_file)) e ∨
     makedirs_refused s
       (dirname (path_join4 dst_dir destination "labels"
                   (replace ".jpg" ".txt" img_file))) e).

(** A table on which no update of the loop can fail: well shaped, with at
    least ten class rows, and with a column for every bucket of [keys]. *)
Definition table_ready (keys : list string) (df : dataframe) : Prop :=
  well_shaped df ∧ (10 < length (index df))%nat ∧ ∀ key, key ∈ keys → key ∈ columns df.

(** The output since [out0] consists of failures of files, each with an
    exception of a file system call. *)
Definition io_failures_since {G : Type} (out0 : list message) (s : state G) : Prop :=
  ∃ failures,
    stdout s = out0 ++ failures ∧
    Forall (λ m, ∃ f e, m = FileFailed f e ∧ io_error e) failures.

(** The exceptions of the table updates of lines 103 to 105. *)
Definition table_error (e : exn) : Prop :=
  e = IndexError ∨ ∃ row col, e = KeyError row col.

(** [example_state] with a regular file in the place of the directory of
    the first client. *)
Definition blocked_state : state MT19937.state :=
  set_files (<["dst/client1" := ["not a directory"]]> (files example_state))
    example_state.

(** The class names of the VisDrone data set with ["car"] in the place of
    ["van"]: a class list that names a class twice. *)
Definition repeated_names : list string :=
  ["pedestrian"; "people"; "bicycle"; "car"; "car"; "truck"; "tricycle";
   "awning-tricycle"; "bus"; "motor"].

(** [example_state] with a table for a class list of two names only. *)
Definition short_list_state : state MT19937.state :=
  set_df (distribution_frame ["pedestrian"; "people"] 2) example_state.

(** A name without a slash, as [os.listdir] gives them. *)
Definition plain (name : string) : Prop := Forall (λ c, c ≠ "/"%char) (chars name).

(** The number of slashes of a path. *)
Definition slashes (p : string) : nat :=
  length (filter (λ c, c = "/"%char) (chars p)).

(** A path that is not empty and does not end in a slash. *)
Definition ends_plain (p : string) : Prop :=
  ∃ l c, chars p = l ++ [c] ∧ c ≠ "/"%char.

(** The computation [m] writes regular files at the paths [ps] only, and
    leaves the directories as they are. *)
Definition writes_only {G A : Type} (ps : list string) (m : IO G A) : Prop :=
  ∀ s, dirs (m s).2 = dirs s ∧ ∀ q, q ∉ ps → files (m s).2 !! q = files s !! q.

(** The names of the buckets of [nclients] clients. *)
Definition bucket_name (nclients : Z) (dest : string) : Prop :=
  dest = "server" ∨ ∃ i : nat, (i < Z.to_nat nclients)%nat ∧ dest = client_key i.

(** The tree of [create_directories] stands in the state [s]: every path
    of it is a directory, and none is a regular file. *)
Definition tree_stands {G : Type} (target_path : string) (nclients : Z)
    (s : state G) : Prop :=
  ∀ p, p ∈ bucket_dirs target_path nclients →
       is_Some (dirs s !! p) ∧ files s !! p = None.

(** A string of white space only. *)
Definition blank (pad : string) : Prop := Forall (λ c, isspace c = true) (chars pad).

(** * The shuffle *)

Section ShuffleFacts.
Context {G : Type} {gen : RandomGen G}.
Hypothesis in_range : randbelow_in_range gen.

Lemma swap_in_range {A} (i j : nat) (x : list A) :
  (i < length x)%nat → (j < length x)%nat →
  ∃ x', swap i j x = Some x' ∧ x' ≡ₚ x ∧ length x' = length x.
Proof.
  intros Hi Hj.
  destruct (lookup_lt_is_Some_2 x i Hi) as [xi Exi].
  destruct (lookup_lt_is_Some_2 x j Hj) as [xj Exj].
  exists (<[j:=xi]> (<[i:=xj]> x)). unfold swap. rewrite Exi, Exj.
  split; [done|]. split.
  - by apply Permutation_insert_swap.
  - by rewrite !length_insert.
Qed.

Lemma shuffle_loop_total {A} (i : nat) (x : list A) (g : G) :
  (i < length x)%nat →
  ∃ x' g', shuffle_loop i x g = Some (x', g') ∧ x' ≡ₚ x.
Proof.
  revert x g. induction i as [|i IH]; intros x g Hi; cbn [shuffle_loop].
  - by exists x, g.
  - pose proof (in_range (S i + 1)%nat g ltac:(lia)) as Hj.
    destruct (randbelow (S i + 1)%nat g) as [j g'] eqn:Er. simpl in Hj.
    destruct (swap_in_range (S i) j x Hi ltac:(lia)) as (x' & -> & Hp & Hl).
    destruct (IH x' g' ltac:(lia)) as (x'' & g'' & -> & Hp').
    exists x'', g''. split; [done|]. by rewrite Hp'.
Qed.

Lemma shuffle_total {A} (x : list A) (g : G) :
  ∃ x' g', shuffle x g = Some (x', g') ∧ x' ≡ₚ x.
Proof.
  unfold shuffle. destruct x as [|a x].
  - by exists [], g.
  - apply shuffle_loop_total. simpl. lia.
Qed.
End ShuffleFacts.

(** * Round-robin slices *)

Lemma slice_step_zero {A} (n : nat) (x : A) (t : list A) :
  slice_step 0 (S n) (x :: t) = x :: slice_step n (S n) t.
Proof. simpl. by rewrite Nat.sub_0_r. Qed.

Lemma slices_cons {A} (n : nat) (x : A) (t : list A) :
  mjoin (map (λ i, slice_step i (S n) (x :: t)) (seq 0 (S n)))
  ≡ₚ x :: mjoin (map (λ i, slice_step i (S n) t) (seq 0 (S n))).
Proof.
  change (seq 0 (S n)) with (0%nat :: seq 1 n) at 1.
  rewrite (seq_S n 0), map_app, join_app. simpl map at 1.
  rewrite <- fmap_S_seq.
  change (map ?f (S <$> ?l)) with (map f (map S l)). rewrite map_map.
  simpl mjoin at 1. rewrite Nat.sub_0_r. simpl.
  rewrite app_nil_r. f_equiv. apply Permutation_app_comm.
Qed.

Lemma slices_permutation {A} (n : nat) (l : list A) :
  (0 < n)%nat → mjoin (map (λ i, slice_step i n l) (seq 0 n)) ≡ₚ l.
Proof.
  intros Hn. destruct n as [|n]; [lia|]. clear Hn.
  induction l as [|x t IH].
  - apply Permutation_nil_r, join_nil_2, Forall_forall.
    intros b Hb. apply list_elem_of_In in Hb. apply in_map_iff in Hb as (i & <- & _). done.
  - rewrite slices_cons. by f_equiv.
Qed.

Lemma slice_step_length {A} (n c : nat) (l : list A) :
  (c < n)%nat → length (slice_step c n l) = ((length l + n - 1 - c) / n)%nat.
Proof.
  intros Hc. revert c Hc.
  induction l as [|x t IH]; intros c Hc; cbn [slice_step length].
  - symmetry. apply Nat.div_small. lia.
  - destruct c as [|c]; cbn [length].
    + rewrite IH by lia.
      rewrite <- Nat.add_1_r, <- (Nat.div_add _ 1 n) by lia. f_equal. lia.
    + rewrite IH by lia. f_equal. lia.
Qed.

Lemma slice_size_floor_or_ceil (m n c : nat) :
  (c < n)%nat →
  let k := ((m + n - 1 - c) / n)%nat in
  (m / n ≤ k ≤ m / n + 1)%nat ∧ (k = (m / n)%nat ∨ k = ceil_div m n).
Proof.
  intros Hc k.
  assert (Hm := Nat.div_mod_eq m n).
  assert (Hr := Nat.mod_upper_bound m n ltac:(lia)).
  assert (Hk : k = (m / n + (m mod n + n - 1 - c) / n)%nat).
  { unfold k. rewrite Hm at 1.
    replace (n * (m / n) + m mod n + n - 1 - c)%nat
      with ((m mod n + n - 1 - c) + (m / n) * n)%nat by lia.
    rewrite Nat.div_add by lia. lia. }
  assert (Hq : ((m mod n + n - 1 - c) / n < 2)%nat).
  { apply Nat.Div0.div_lt_upper_bound. lia. }
  unfold ceil_div. destruct (Nat.eqb_spec (m mod n) 0) as [E|E].
  - assert ((m mod n + n - 1 - c) / n = 0)%nat by (apply Nat.div_small; lia). lia.
  - lia.
Qed.

Global Instance client_key_inj : Inj (=) (=) client_key.
Proof.
  intros i j E. unfold client_key in E.
  apply (inj (String.app "client")) in E. apply (inj pretty) in E. lia.
Qed.

(** A list of lists whose concatenation has no duplicates: no duplicates
    inside a list, and no element in two of them. *)
Lemma NoDup_join_inv {A} (ls : list (list A)) :
  NoDup (mjoin ls) →
  Forall NoDup ls ∧
  ∀ i j a b, ls !! i = Some a → ls !! j = Some b → i ≠ j → ∀ x, x ∈ a → x ∉ b.
Proof.
  induction ls as [|l ls IH]; simpl.
  - intros _. split; [constructor|]. intros i j a b Hi. by rewrite lookup_nil in Hi.
  - intros (Hl & Hd & Hls)%NoDup_app. destruct (IH Hls) as [IH1 IH2].
    split; [by constructor|].
    intros [|i] [|j] a b Hi Hj Hij x Ha Hb; simplify_eq/=.
    + eapply Hd; [done|]. apply list_elem_of_join. exists b. split; [done|].
      by eapply list_elem_of_lookup_2.
    + eapply Hd; [done|]. apply list_elem_of_join. exists a. split; [done|].
      by eapply list_elem_of_lookup_2.
    + eapply (IH2 i j); eauto.
Qed.

(** * The partitioner *)

Section PartitionerFacts.
Context {G : Type} {gen : RandomGen G}.
Hypothesis in_range : randbelow_in_range gen.

Lemma split_files_total (files : list string) (nclients : Z) (g : G) :
  ∃ o, split_files files nclients g = Some o ∧
       files_after o ≡ₚ files ∧
       (buckets o).*1 = map client_key (client_range nclients) ∧
       (buckets o).*2 =
         map (λ i, slice_step i (Z.to_nat nclients) (files_after o))
             (client_range nclients).
Proof.
  unfold split_files.
  destruct (shuffle_total in_range files (seed 42)) as (files' & g' & -> & Hp).
  eexists. split; [done|]. simpl. split; [done|].
  split; (generalize (client_range nclients); intros l;
          induction l as [|a l IH]; simpl; [done|by f_equal]).
Qed.

Lemma split_files_partition (files : list string) (nclients : Z) (g : G) :
  1 ≤ nclients →
  ∃ o, split_files files nclients g = Some o ∧
       mjoin (buckets o).*2 ≡ₚ files ∧ NoDup (buckets o).*1.
Proof.
  intros Hn. destruct (split_files_total files nclients g) as (o & Ho & Hp & Hk & Hb).
  exists o. split; [done|]. split.
  - rewrite Hb. unfold client_range. rewrite slices_permutation by lia. done.
  - rewrite Hk. apply (NoDup_fmap_2 client_key), NoDup_seq.
Qed.
End PartitionerFacts.

Lemma partition_membership {A} (bs : list (list A)) (l : list A) :
  mjoin bs ≡ₚ l → ∀ x, x ∈ l ↔ ∃ b, b ∈ bs ∧ x ∈ b.
Proof.
  intros Hp x. rewrite <- Hp, list_elem_of_join.
  split; intros (b & ? & ?); exists b; done.
Qed.

(** C1 (as amended): for a client count of at least one in training mode,
    and for any client count in validation mode, the split map is produced,
    the concatenation of its buckets is a permutation of the input file list,
    its keys are distinct, every input file is in some bucket and every file
    of a bucket is an input file; in validation mode the one bucket is
    ["server"] with the input list; when the input files are distinct, no
    bucket holds a file twice and no two buckets share a file. *)
Theorem partition_complete {G : Type} (gen : RandomGen G)
    (files : list string) (nclients : Z) (is_train : bool) (g : G) :
  randbelow_in_range gen →
  (is_train = true → 1 ≤ nclients) →
  ∃ o, split_map files nclients is_train g = Some o ∧
       mjoin (buckets o).*2 ≡ₚ files ∧
       NoDup (buckets o).*1 ∧
       (∀ f, f ∈ files ↔ ∃ b, b ∈ (buckets o).*2 ∧ f ∈ b) ∧
       (is_train = false → buckets o = [("server", files)]) ∧
       (NoDup files →
        Forall NoDup (buckets o).*2 ∧
        ∀ i j a b, (buckets o).*2 !! i = Some a → (buckets o).*2 !! j = Some b →
                   i ≠ j → ∀ f, f ∈ a → f ∉ b).
Proof.
  intros Hr Hn.
  assert (∃ o, split_map files nclients is_train g = Some o ∧
               mjoin (buckets o).*2 ≡ₚ files ∧ NoDup (buckets o).*1)
    as (o & Ho & Hp & Hk).
  { destruct is_train; simpl.
    - apply split_files_partition; auto.
    - eexists. split; [done|]. simpl. rewrite app_nil_r. split; [done|].
      apply NoDup_singleton. }
  exists o. split; [done|]. split; [done|]. split; [done|].
  split; [by apply partition_membership|]. split.
  { intros ->. simpl in Ho. by injection Ho as <-. }
  intros Hd. apply NoDup_join_inv. by rewrite Hp.
Qed.

(** C6: for a client count [N >= 1] and a file list of size [M], split_files
    returns [N] buckets, each of size [floor(M/N)] or [ceil(M/N)]; two bucket
    sizes differ by at most one; an empty list gives [N] empty buckets. *)
Theorem balance_bound {G : Type} (gen : RandomGen G)
    (files : list string) (nclients : Z) (g : G) :
  randbelow_in_range gen →
  1 ≤ nclients →
  let m := length files in
  let n := Z.to_nat nclients in
  ∃ o, split_files files nclients g = Some o ∧
       length (buckets o) = n ∧
       (∀ b, b ∈ (buckets o).*2 →
             length b = (m / n)%nat ∨ length b = ceil_div m n) ∧
       (∀ a b, a ∈ (buckets o).*2 → b ∈ (buckets o).*2 →
               (length a ≤ length b + 1)%nat) ∧
       (files = [] → (buckets o).*2 = replicate n []).
Proof.
  intros Hr Hn m n.
  destruct (split_files_total Hr files nclients g) as (o & Ho & Hp & Hk & Hb).
  assert (Hlen : length (files_after o) = m) by by rewrite Hp.
  assert (Hsize : ∀ b, b ∈ (buckets o).*2 →
            ∃ c, (c < n)%nat ∧ length b = ((m + n - 1 - c) / n)%nat).
  { intros b Hin. rewrite Hb in Hin. apply list_elem_of_In, in_map_iff in Hin as (c & <- & Hc).
    apply in_seq in Hc. exists c. split; [unfold n; lia|].
    rewrite slice_step_length by lia. by rewrite Hlen. }
  exists o. split; [done|]. split.
  { rewrite <- (length_fmap fst), Hk, length_map. apply length_seq. }
  split; [|split].
  - intros b (c & Hc & ->)%Hsize. by apply slice_size_floor_or_ceil.
  - intros a b (c & Hc & ->)%Hsize (d & Hd & ->)%Hsize.
    pose proof (slice_size_floor_or_ceil m n c Hc) as [? _].
    pose proof (slice_size_floor_or_ceil m n d Hd) as [? _]. simpl in *. lia.
  - intros ->. apply Permutation_nil_r in Hp. rewrite Hb, Hp.
    unfold client_range. fold n. clear. generalize 0%nat.
    induction n as [|k IH]; intros s; simpl; [done|]. by rewrite IH.
Qed.

(** C7: two runs of split_files on the same file list and the same client
    count give the same outcome, buckets and order inside the buckets
    included, whatever the state of the generator before each run: the seed
    is fixed by the function.  So does a second run that starts from the
    generator state the first run left, and so does the training split map. *)
Theorem split_files_deterministic {G : Type} (gen : RandomGen G)
    (files : list string) (nclients : Z) (g1 g2 : G) :
  split_files files nclients g1 = split_files files nclients g2 ∧
  (∀ o, split_files files nclients g1 = Some o →
        split_files files nclients (rng_after o) = Some o) ∧
  split_map files nclients true g1 = split_map files nclients true g2.
Proof.
  split; [reflexivity|]. split; [|reflexivity].
  intros o Ho. exact Ho.
Qed.

(** C8 (as amended): split_files is not free of effects.  It returns; the
    caller's list holds the same files afterwards, in the shuffled order; the
    buckets are the slices [i::N] of that shuffled list; the outcome,
    generator state included, does not depend on the generator state before
    the call.  In validation mode the list and the generator are unchanged. *)
Theorem split_files_effects {G : Type} (gen : RandomGen G)
    (files : list string) (nclients : Z) (g : G) :
  randbelow_in_range gen →
  ∃ o, split_files files nclients g = Some o ∧
       files_after o ≡ₚ files ∧
       buckets o =
         map (λ i, (client_key i,
                    slice_step i (Z.to_nat nclients) (files_after o)))
             (client_range nclients) ∧
       (∀ g', split_files files nclients g' = Some o) ∧
       split_map files nclients false g =
         Some {| buckets := [("server", files)]; files_after := files;
                 rng_after := g |}.
Proof.
  intros Hr. unfold split_files.
  destruct (shuffle_total Hr files (seed 42)) as (files' & g' & E & Hp).
  rewrite E. eexists. split; [done|]. simpl. done.
Qed.

(** * The generator of CPython meets the contract *)

Lemma mt_randbelow_loop_below (fuel : nat) (n k : Z) (g : MT19937.state) :
  0 < n → (MT19937.randbelow_loop fuel n k g).1 < n.
Proof.
  intros Hn. revert g. induction fuel as [|f IH]; intros g; simpl; [done|].
  destruct (MT19937.getrandbits k g) as [r g'].
  destruct (Z.ltb_spec r n); [done|]. apply IH.
Qed.

Lemma mt_randbelow_in_range : randbelow_in_range MT19937.mt_gen.
Proof.
  intros n g Hn. simpl. unfold MT19937.mt_randbelow.
  pose proof (mt_randbelow_loop_below MT19937.reject_bound (Z.of_nat n)
                (MT19937.bit_length (Z.of_nat n)) g ltac:(lia)) as Hb.
  destruct (MT19937.randbelow_loop _ _ _ g) as [r g']. simpl in *. lia.
Qed.

Lemma partition_complete_witness :
  ∃ o, split_map (gen := MT19937.mt_gen) ["a.jpg"; "b.jpg"; "c.jpg"] 2 true (seed 0) = Some o ∧
       mjoin (buckets o).*2 ≡ₚ ["a.jpg"; "b.jpg"; "c.jpg"].
Proof.
  destruct (partition_complete MT19937.mt_gen ["a.jpg"; "b.jpg"; "c.jpg"] 2 true (seed 0)
              mt_randbelow_in_range ltac:(lia)) as (o & Ho & Hp & _).
  exists o. split; assumption.
Defined.

Lemma balance_bound_witness :
  ∃ o, split_files (gen := MT19937.mt_gen) ["a.jpg"; "b.jpg"; "c.jpg"] 2 (seed 0) = Some o ∧
       length (buckets o) = 2%nat.
Proof.
  destruct (balance_bound MT19937.mt_gen ["a.jpg"; "b.jpg"; "c.jpg"] 2 (seed 0)
              mt_randbelow_in_range ltac:(lia)) as (o & Ho & Hl & _).
  exists o. split; assumption.
Defined.

Lemma split_files_effects_witness :
  ∃ o, split_files (gen := MT19937.mt_gen) ["a.jpg"; "b.jpg"] 2 (seed 0) = Some o ∧
       files_after o ≡ₚ ["a.jpg"; "b.jpg"].
Proof.
  destruct (split_files_effects MT19937.mt_gen ["a.jpg"; "b.jpg"] 2 (seed 0)
              mt_randbelow_in_range) as (o & Ho & Hp & _).
  exists o. split; assumption.
Defined.

(** C1, as stated, fails for a client count of zero: the file of a training
    subset is in no bucket. *)
Lemma partition_empty_without_clients :
  ∃ o, split_map (gen := MT19937.mt_gen) ["a.jpg"] 0 true (seed 0) = Some o ∧
       buckets o = [] ∧
       ¬ (mjoin (buckets o).*2 ≡ₚ ["a.jpg"]).
Proof.
  eexists. split; [reflexivity|]. split; [reflexivity|].
  simpl. intros Hp. by apply Permutation_nil_cons in Hp.
Qed.

(** C8, as stated, fails: with CPython's generator, split_files leaves the
    caller's two-file list reversed and the generator in a new state (two
    words drawn after the reseed, no draw cut short by the bound of the
    model). *)
Lemma split_files_reorders_caller_list :
  let g0 : MT19937.state := seed 0 in
  let run := split_files (gen := MT19937.mt_gen) ["a.jpg"; "b.jpg"] 2 g0 in
  files_after <$> run = Some ["b.jpg"; "a.jpg"] ∧
  (λ o, MT19937.index (rng_after o)) <$> run = Some 2%nat ∧
  MT19937.index g0 = 624%nat ∧
  (λ o, MT19937.starved (rng_after o)) <$> run = Some false ∧
  ¬ (∃ o, run = Some o ∧ files_after o = ["a.jpg"; "b.jpg"] ∧ rng_after o = g0).
Proof.
  intros g0 run.
  assert (E1 : files_after <$> run = Some ["b.jpg"; "a.jpg"]) by (vm_compute; reflexivity).
  split; [exact E1|]. split; [vm_compute; reflexivity|].
  split; [vm_compute; reflexivity|]. split; [vm_compute; reflexivity|].
  intros (o & Ho & Hf & _). rewrite Ho in E1. simpl in E1. congruence.
Qed.

(** * Bounding-box conversion *)

(** C3: for the box left=100, top=200, width=300, height=150, with
    right = left + width and bottom = top + height, convert_bbox at 1920 by
    1080 returns binary64 values whose exact values are within 1e-5 of
    0.130208, 0.254630, 0.156250 and 0.138889. *)
Theorem convert_bbox_example :
  let '(x, y, w, h) :=
    convert_bbox 100 200 (100 + 300) (200 + 150) 1920 1080 in
  close_to x (130208 # 1000000) (1 # 100000) ∧
  close_to y (254630 # 1000000) (1 # 100000) ∧
  close_to w (156250 # 1000000) (1 # 100000) ∧
  close_to h (138889 # 1000000) (1 # 100000).
Proof. vm_compute. repeat split; discriminate. Qed.

(** The same box as the transformer writes it. *)
Example convert_bbox_example_text :
  let '(x, y, w, h) :=
    convert_bbox 100 200 (100 + 300) (200 + 150) 1920 1080 in
  yolo_line 4 x y w h = "3 0.130208 0.254630 0.156250 0.138889
".
Proof. vm_compute. reflexivity. Qed.

(** * Lines of an annotation file *)

Section LineFacts.
Context {G : Type} {num : Numerals}.
Implicit Types (s : state G) (line destination label_dst : string).

Lemma parse_line_None_iff line : parse_line line = None ↔ malformed line.
Proof.
  unfold parse_line, malformed.
  set (parts := split "," (strip line)).
  destruct (Nat.ltb_spec (length parts) 8) as [Hlt|Hge].
  { split; [by left|done]. }
  destruct (parts !! 0%nat ≫= py_float) as [x0|] eqn:E0; simpl;
    [|split; [intros _; right; left; exists 0%nat; split; [set_solver|done]|done]].
  destruct (parts !! 1%nat ≫= py_float) as [x1|] eqn:E1; simpl;
    [|split; [intros _; right; left; exists 1%nat; split; [set_solver|done]|done]].
  destruct (parts !! 2%nat ≫= py_float) as [x2|] eqn:E2; simpl;
    [|split; [intros _; right; left; exists 2%nat; split; [set_solver|done]|done]].
  destruct (parts !! 3%nat ≫= py_float) as [x3|] eqn:E3; simpl;
    [|split; [intros _; right; left; exists 3%nat; split; [set_solver|done]|done]].
  destruct (parts !! 5%nat ≫= py_int) as [x5|] eqn:E5; simpl;
    [|split; [intros _; right; right; exists 5%nat; split; [set_solver|done]|done]].
  destruct (parts !! 6%nat ≫= py_int) as [x6|] eqn:E6; simpl;
    [|split; [intros _; right; right; exists 6%nat; split; [set_solver|done]|done]].
  split; [done|].
  intros [?|[(i & Hi & E)|(i & Hi & E)]]; [lia| |];
    repeat (apply elem_of_cons in Hi as [->|Hi]; [congruence|]);
    by apply elem_of_nil in Hi.
Qed.

Lemma process_line_parsed destination label_dst line s x y w h cls_id status :
  parse_line line = Some (x, y, w, h, cls_id, status) →
  process_line destination label_dst line s =
    if filtered cls_id status then (Ok (), s)
    else
      let '(cx, cy, bw, bh) :=
        convert_bbox x y (x + w)%float (y + h)%float 1920 1080 in
      bind (write label_dst (yolo_line cls_id cx cy bw bh))
           (λ _, bind (index_at cls_id)
              (λ class_name, bind (loc_incr class_name destination)
                 (λ _, loc_incr "Samples" destination))) s.
Proof.
  intros E. unfold process_line. rewrite E. by destruct (filtered cls_id status).
Qed.

Lemma parse_line_fields line x y w h cls_id status :
  parse_line line = Some (x, y, w, h, cls_id, status) →
  class_field line = Some cls_id ∧ status_field line = Some status.
Proof.
  unfold parse_line, class_field, status_field.
  set (parts := split "," (strip line)).
  destruct (length parts <? 8)%nat; [done|].
  destruct (parts !! 0%nat ≫= py_float); [|done].
  destruct (parts !! 1%nat ≫= py_float); [|done].
  destruct (parts !! 2%nat ≫= py_float); [|done].
  destruct (parts !! 3%nat ≫= py_float); [|done].
  destruct (parts !! 5%nat ≫= py_int); [|done].
  destruct (parts !! 6%nat ≫= py_int); [|done].
  simpl. intros [= -> -> -> -> -> ->]. done.
Qed.

Lemma filtered_iff cls_id status :
  filtered cls_id status = true ↔ status = 0 ∨ cls_id < 1 ∨ 10 < cls_id.
Proof. unfold filtered. lia. Qed.
End LineFacts.

(** C2: a line whose status flag is 0, or whose class id is below 1 or above
    10, is skipped whatever its other fields are, parsed or not: the loop goes
    on with the state it had, so nothing is written to the label file and no
    cell of the table changes. *)
Theorem filtered_line_is_skipped {G : Type} (num : Numerals)
    (destination label_dst line : string) (s : state G) :
  status_field line = Some 0 ∨
  (∃ cls_id, class_field line = Some cls_id ∧ (cls_id < 1 ∨ 10 < cls_id)) →
  process_line destination label_dst line s = (Ok (), s) ∧
  ∀ rest : list string,
    for_each (line :: rest) (process_line destination label_dst) s =
    for_each rest (process_line destination label_dst) s.
Proof.
  intros Hf.
  assert (Hs : process_line destination label_dst line s = (Ok (), s)).
  { destruct (parse_line line) as [[[[[[x y] w] h] c] st]|] eqn:E;
      [|unfold process_line; by rewrite E].
    destruct (parse_line_fields _ _ _ _ _ _ _ E) as [Hc Hst].
    rewrite (process_line_parsed _ _ _ _ _ _ _ _ _ _ E).
    assert (filtered c st = true) as ->; [|done].
    apply filtered_iff. destruct Hf as [Hz|(c' & Hc' & Hout)].
    - left. congruence.
    - right. congruence. }
  split; [done|]. intros rest. simpl. unfold bind at 1. by rewrite Hs.
Qed.

(** C5 (as amended): a line is dropped as malformed exactly when it has
    fewer than eight comma-separated fields, or one of the four box fields
    (positions 0 to 3) fails to parse as a float, or the class id or the
    status flag (positions 5 and 6) fails to parse as an integer: six numeric
    fields.  A dropped line raises nothing and leaves the state as it was;
    every other line goes on to the test of status and class id. *)
Theorem malformed_line_is_dropped {G : Type} (num : Numerals)
    (destination label_dst line : string) (s : state G) :
  (parse_line line = None ↔ malformed line) ∧
  (malformed line → process_line destination label_dst line s = (Ok (), s)) ∧
  (¬ malformed line →
   ∃ x y w h cls_id status,
     parse_line line = Some (x, y, w, h, cls_id, status) ∧
     (filtered cls_id status = true →
      process_line destination label_dst line s = (Ok (), s)) ∧
     (filtered cls_id status = false → survives line = true)).
Proof.
  split; [apply parse_line_None_iff|]. split.
  - intros Hm%parse_line_None_iff. unfold process_line. by rewrite Hm.
  - intros Hm. rewrite <- parse_line_None_iff in Hm.
    destruct (parse_line line) as [[[[[[x y] w] h] c] st]|] eqn:E; [|done].
    exists x, y, w, h, c, st. split; [done|]. split.
    + intros Hf. rewrite (process_line_parsed _ _ _ _ _ _ _ _ _ _ E). by rewrite Hf.
    + intros Hf. unfold survives. rewrite E. by rewrite Hf.
Qed.

Lemma filtered_line_is_skipped_witness :
  process_line (num := Numeral.ascii_numerals)
    "client1" "dst/client1/labels/a.txt" "1,2,3,4,1,11,0,0" example_state
  = (Ok (), example_state).
Proof.
  apply (filtered_line_is_skipped Numeral.ascii_numerals
           "client1" "dst/client1/labels/a.txt" "1,2,3,4,1,11,0,0" example_state).
  left. vm_compute. reflexivity.
Defined.

(** C5, as stated, fails: whichever five of the eight field positions are
    taken as the required numeric fields, and whether each is read as a float
    or as an integer, some line of eight fields has numbers at all five and
    is dropped by the code all the same, because the code needs six fields to
    parse. *)
Lemma five_fields_do_not_decide :
  ¬ ∃ required : list (nat * numeral_kind),
      length required = 5%nat ∧ Forall (λ i, (i < 8)%nat) required.*1 ∧
      ∀ line, parse_line (num := Numeral.ascii_numerals) line = None
              ↔ spec_malformed (num := Numeral.ascii_numerals) required line.
Proof.
  intros (required & Hlen & Hlt & Hiff).
  assert (Hprobe : ∀ i0, i0 ∈ [0; 1; 2; 3; 5; 6]%nat → i0 ∈ required.*1).
  { intros i0 Hi0. destruct (decide (i0 ∈ required.*1)) as [|Hout]; [done|]. exfalso.
    assert (Hdrop : parse_line (num := Numeral.ascii_numerals) (probe_line i0) = None).
    { repeat (apply elem_of_cons in Hi0 as [->|Hi0]; [vm_compute; reflexivity|]).
      by apply elem_of_nil in Hi0. }
    apply Hiff in Hdrop as [Hfew|(i & kind & Hi & Hnum)].
    - repeat (apply elem_of_cons in Hi0 as [->|Hi0]; [vm_compute in Hfew; lia|]).
      by apply elem_of_nil in Hi0.
    - assert (Hin : i ∈ required.*1).
      { apply list_elem_of_fmap. by exists (i, kind). }
      assert (i ≠ i0) by congruence.
      assert (Hi8 : (i < 8)%nat) by (by eapply Forall_forall in Hlt).
      repeat (apply elem_of_cons in Hi0 as [->|Hi0];
              [do 8 (destruct i as [|i];
                     [try done; destruct kind; vm_compute in Hnum; discriminate|]);
               lia|]).
      by apply elem_of_nil in Hi0. }
  assert (Hsub : [0; 1; 2; 3; 5; 6]%nat ⊆+ required.*1).
  { apply NoDup_submseteq; [|done]. by apply NoDup_ListNoDup; repeat constructor; simpl; lia. }
  apply submseteq_length in Hsub. rewrite length_fmap in Hsub. simpl in Hsub. lia.
Qed.

(** * The table during a pass *)

Lemma sum_with_one_more (f f' : string → Z) (name : string) (rows : list string) :
  NoDup rows → name ∈ rows →
  (∀ row, row ∈ rows → f' row = f row + (if decide (row = name) then 1 else 0)) →
  foldr Z.add 0 (map f' rows) = foldr Z.add 0 (map f rows) + 1.
Proof.
  induction rows as [|r rows IH]; intros Hd Hin Hf.
  { by apply elem_of_nil in Hin. }
  apply NoDup_cons in Hd as [Hr Hd]. simpl.
  rewrite (Hf r) by left. destruct (decide (r = name)) as [->|Hne].
  - assert (E : map f' rows = map f rows).
    { apply map_ext_in. intros a Ha%list_elem_of_In. rewrite Hf by by right.
      destruct (decide (a = name)) as [->|]; [done|lia]. }
    rewrite E. lia.
  - apply elem_of_cons in Hin as [->|Hin]; [done|].
    rewrite IH; [lia|done|done|]. intros row Hrow. apply Hf. by right.
Qed.

Lemma sum_unchanged (f f' : string → Z) (rows : list string) :
  (∀ row, row ∈ rows → f' row = f row) →
  foldr Z.add 0 (map f' rows) = foldr Z.add 0 (map f rows).
Proof.
  intros Hf. f_equal. apply map_ext_in. intros a Ha%list_elem_of_In. by apply Hf.
Qed.

Lemma well_shaped_index (df : dataframe) :
  well_shaped df → index df = "Samples" :: tail (index df).
Proof.
  intros (Hh & _ & _). destruct (index df) as [|r rows]; [done|]. simpl in *. congruence.
Qed.

Lemma distribution_frame_cell (names : list string) (nclients : Z) (row col : string) :
  cell (distribution_frame names nclients) row col = 0.
Proof.
  unfold cell, distribution_frame. cbn [cells].
  destruct (list_to_map _ !! (row, col)) as [v|] eqn:E; [|done].
  apply elem_of_list_to_map_2, list_elem_of_In, in_map_iff in E as (rc & E & _).
  simpl. congruence.
Qed.

Lemma distribution_frame_well_shaped (names : list string) (nclients : Z) :
  NoDup ("Samples" :: names) → well_shaped (distribution_frame names nclients).
Proof.
  intros Hd. split; [done|]. split; [done|]. intros row col.
  unfold distribution_frame. cbn [cells index columns].
  set (rows := "Samples" :: names). set (cols := "server" :: _).
  split.
  - intros [v Hv]. apply elem_of_list_to_map_2, list_elem_of_In, in_map_iff in Hv
      as (rc & E & Hin). injection E as -> _.
    apply in_prod_iff in Hin as [? ?]. by rewrite !list_elem_of_In.
  - intros [Hr Hc]. apply not_eq_None_Some. intros Hn.
    apply not_elem_of_list_to_map_2 in Hn. apply Hn.
    apply list_elem_of_fmap. exists ((row, col), 0). split; [done|].
    apply list_elem_of_In, in_map_iff. exists (row, col). split; [done|].
    apply in_prod_iff. by rewrite <- !list_elem_of_In.
Qed.

Lemma distribution_frame_balanced (names : list string) (nclients : Z) :
  balanced (distribution_frame names nclients).
Proof.
  intros col. rewrite distribution_frame_cell. unfold class_sum.
  induction (tail (index (distribution_frame names nclients))) as [|r rows IH]; [done|].
  simpl. rewrite distribution_frame_cell. by rewrite <- IH.
Qed.

Lemma insert_keeps_domain {K : Type} `{Countable K} {A : Type} (m : gmap K A) (k : K) (x v : A) (k' : K) :
  m !! k = Some v → is_Some (<[k := x]> m !! k') ↔ is_Some (m !! k').
Proof.
  intros Hk. destruct (decide (k = k')) as [->|Hne].
  - rewrite lookup_insert_eq, Hk. split; eauto.
  - by rewrite lookup_insert_ne.
Qed.

Section TableFacts.
Context {G : Type} {num : Numerals}.
Implicit Types (s : state G) (line destination label_dst : string).

Lemma line_class_Some line cls_id :
  line_class line = Some cls_id →
  ∃ x y w h status,
    parse_line line = Some (x, y, w, h, cls_id, status) ∧
    filtered cls_id status = false ∧ 1 ≤ cls_id ≤ 10.
Proof.
  unfold line_class.
  destruct (parse_line line) as [[[[[[x y] w] h] c] st]|]; [|done].
  destruct (filtered c st) eqn:E; [done|]. intros [= ->].
  exists x, y, w, h, st. split; [done|]. split; [done|]. unfold filtered in E. lia.
Qed.

Lemma line_class_None line destination label_dst s :
  line_class line = None → process_line destination label_dst line s = (Ok (), s).
Proof.
  unfold line_class, process_line.
  destruct (parse_line line) as [[[[[[x y] w] h] c] st]|]; [|done].
  by destruct (filtered c st).
Qed.

Lemma survives_line_class line : survives line = bool_decide (is_Some (line_class line)).
Proof.
  unfold survives, line_class.
  destruct (parse_line line) as [[[[[[x y] w] h] c] st]|]; [|done].
  by destruct (filtered c st).
Qed.

(** A surviving line whose class row and destination column exist: the line
    is written, and the cell of the class row and the cell of the
    ["Samples"] row go up by one each. *)
Lemma process_line_counts destination label_dst line s cls_id name :
  well_shaped (dist_df s) →
  line_class line = Some cls_id →
  index (dist_df s) !! Z.to_nat cls_id = Some name →
  destination ∈ columns (dist_df s) →
  ∃ s', process_line destination label_dst line s = (Ok (), s') ∧
        index (dist_df s') = index (dist_df s) ∧
        columns (dist_df s') = columns (dist_df s) ∧
        well_shaped (dist_df s') ∧
        name ≠ "Samples" ∧
        ∀ row col,
          cell (dist_df s') row col =
          cell (dist_df s) row col
          + (if decide (row = name ∧ col = destination) then 1 else 0)
          + (if decide (row = "Samples" ∧ col = destination) then 1 else 0).
Proof.
  intros Hws Hc Hname Hcol.
  destruct (line_class_Some _ _ Hc) as (x & y & w & h & st & E & Ef & Hrange).
  assert (Hne : name ≠ "Samples").
  { intros ->. destruct Hws as (Hh & Hd & _). rewrite head_lookup in Hh.
    pose proof (NoDup_lookup _ _ _ _ Hd Hh Hname). lia. }
  destruct Hws as (Hh & Hd & Hdom).
  assert (is_Some (cells (dist_df s) !! (name, destination))) as [v1 Hv1].
  { apply Hdom. split; [|done]. by eapply list_elem_of_lookup_2. }
  assert (is_Some (cells (dist_df s) !! ("Samples", destination))) as [v2 Hv2].
  { apply Hdom. split; [|done]. rewrite head_lookup in Hh. by eapply list_elem_of_lookup_2. }
  rewrite (process_line_parsed _ _ _ _ _ _ _ _ _ _ E), Ef.
  unfold convert_bbox. cbv beta iota zeta.
  unfold bind at 1. unfold write at 1. cbv beta iota.
  unfold bind at 1. unfold index_at at 1. cbn [dist_df set_files]. cbv zeta.
  assert (Hpos : (0 <=? cls_id) = true) by lia.
  rewrite Hpos. cbv beta iota. rewrite Hpos, Hname. cbv beta iota.
  unfold bind at 1. unfold loc_incr at 1. cbn [dist_df set_files]. rewrite Hv1.
  unfold loc_incr. cbn [dist_df set_df cells].
  rewrite lookup_insert_ne by congruence. rewrite Hv2.
  eexists. split; [reflexivity|]. cbn [dist_df set_df index columns cells].
  split; [done|]. split; [done|]. split; [|split; [done|]].
  - split; [done|]. split; [done|]. cbn [index columns cells]. intros row col.
    rewrite <- Hdom.
    rewrite (insert_keeps_domain _ _ _ v2) by (by rewrite lookup_insert_ne by congruence).
    by rewrite (insert_keeps_domain _ _ _ v1).
  - intros row col. unfold cell. cbn [cells].
    destruct (decide (row = "Samples" ∧ col = destination)) as [[-> ->]|H1].
    + rewrite lookup_insert_eq, Hv2.
      rewrite decide_False by (intros [? _]; congruence). simpl. lia.
    + rewrite lookup_insert_ne by (intros [= <- <-]; by apply H1).
      destruct (decide (row = name ∧ col = destination)) as [[-> ->]|H2].
      * rewrite lookup_insert_eq, Hv1. simpl. lia.
      * rewrite lookup_insert_ne by (intros [= <- <-]; by apply H2). lia.
Qed.
End TableFacts.

Section PassFacts.
Context {G : Type} {num : Numerals}.
Implicit Types (s : state G) (line destination label_dst : string).

(** A surviving line whose class row or destination column is missing: the
    update raises before any cell has changed. *)
Lemma process_line_raises destination label_dst line s cls_id :
  well_shaped (dist_df s) →
  line_class line = Some cls_id →
  index (dist_df s) !! Z.to_nat cls_id = None ∨ destination ∉ columns (dist_df s) →
  ∃ e s', process_line destination label_dst line s = (Raise e, s') ∧
          dist_df s' = dist_df s.
Proof.
  intros Hws Hc Hmiss.
  destruct (line_class_Some _ _ Hc) as (x & y & w & h & st & E & Ef & Hrange).
  rewrite (process_line_parsed _ _ _ _ _ _ _ _ _ _ E), Ef.
  unfold convert_bbox. cbv beta iota zeta.
  unfold bind at 1. unfold write at 1. cbv beta iota.
  unfold bind at 1. unfold index_at at 1. cbn [dist_df set_files]. cbv zeta.
  assert (Hpos : (0 <=? cls_id) = true) by lia.
  rewrite Hpos. cbv beta iota. rewrite Hpos.
  destruct (index (dist_df s) !! Z.to_nat cls_id) as [name|] eqn:Hname;
    [|by eexists _, _].
  destruct Hmiss as [?|Hcol]; [done|].
  unfold bind at 1. unfold loc_incr at 1. cbn [dist_df set_files].
  destruct (cells (dist_df s) !! (name, destination)) as [v|] eqn:Hv;
    [|by eexists _, _].
  destruct Hws as (_ & _ & Hdom). exfalso. apply Hcol.
  by apply (Hdom name destination).
Qed.

Lemma process_line_table destination label_dst line s :
  table_inv (dist_df s) →
  table_inv (dist_df (process_line destination label_dst line s).2).
Proof.
  intros [Hws Hbal].
  destruct (line_class line) as [cls_id|] eqn:Hc;
    [|by rewrite line_class_None].
  destruct (index (dist_df s) !! Z.to_nat cls_id) as [name|] eqn:Hname;
    [destruct (decide (destination ∈ columns (dist_df s))) as [Hcol|Hcol]|].
  - destruct (process_line_counts destination label_dst line s cls_id name
                Hws Hc Hname Hcol) as (s' & -> & Hi & _ & Hws' & Hne & Hcell).
    split; [done|]. cbn [snd]. intros col. unfold class_sum. rewrite Hi.
    pose proof (well_shaped_index _ Hws) as Hidx.
    assert (Hrows : NoDup (tail (index (dist_df s))) ∧ "Samples" ∉ tail (index (dist_df s))).
    { destruct Hws as (_ & Hd & _). rewrite Hidx in Hd.
      by apply NoDup_cons in Hd as [? ?]. }
    destruct Hrows as [Hd Hout].
    assert (Hin : name ∈ tail (index (dist_df s))).
    { apply list_elem_of_lookup_2 in Hname. rewrite Hidx in Hname.
      by apply elem_of_cons in Hname as [?|?]. }
    rewrite Hcell. rewrite decide_False by (intros [? _]; congruence).
    destruct (decide (col = destination)) as [->|Hcd].
    + rewrite decide_True by done.
      rewrite (sum_with_one_more (λ row, cell (dist_df s) row destination) _ name);
        [rewrite (Hbal destination); unfold class_sum; lia|done|done|].
      intros row Hrow. rewrite Hcell.
      rewrite (decide_False (P := row = "Samples" ∧ _)) by (intros [-> _]; done).
      destruct (decide (row = name)) as [->|?].
      * rewrite decide_True by done. lia.
      * rewrite decide_False by (intros [? _]; done). lia.
    + rewrite decide_False by (intros [_ ?]; done).
      rewrite (sum_unchanged (λ row, cell (dist_df s) row col));
        [rewrite (Hbal col); unfold class_sum; lia|].
      intros row Hrow. rewrite Hcell.
      rewrite !decide_False by (intros [_ ?]; done). lia.
  - destruct (process_line_raises destination label_dst line s cls_id Hws Hc
                (or_intror Hcol)) as (e & s' & -> & Heq).
    cbn [snd]. by rewrite Heq.
  - destruct (process_line_raises destination label_dst line s cls_id Hws Hc
                (or_introl Hname)) as (e & s' & -> & Heq).
    cbn [snd]. by rewrite Heq.
Qed.

Lemma keeps_preserves {A} (P : dataframe → Prop) (m : IO G A) :
  keeps_table m → preserves P m.
Proof. intros Hk s Hs. by rewrite Hk. Qed.

Lemma bind_preserves {A B} (P : dataframe → Prop) (m : IO G A) (k : A → IO G B) :
  preserves P m → (∀ a, preserves P (k a)) → preserves P (bind m k).
Proof.
  intros Hm Hk s Hs. unfold bind. specialize (Hm s Hs).
  destruct (m s) as [[a|e] s1]; [by apply Hk|done].
Qed.

Lemma try_except_preserves {A} (P : dataframe → Prop) (m : IO G A) (h : exn → IO G A) :
  preserves P m → (∀ e, preserves P (h e)) → preserves P (try_except m h).
Proof.
  intros Hm Hh s Hs. unfold try_except. specialize (Hm s Hs).
  destruct (m s) as [[a|e] s1]; [done|by apply Hh].
Qed.

Lemma for_each_preserves {A} (P : dataframe → Prop) (l : list A) (body : A → IO G unit) :
  (∀ a, preserves P (body a)) → preserves P (for_each l body).
Proof.
  intros Hb. induction l as [|a l IH]; simpl.
  - by intros s Hs.
  - apply bind_preserves; [apply Hb|by intros _].
Qed.

Lemma keeps_makedirs p : keeps_table (makedirs (G := G) p).
Proof.
  intros s. unfold makedirs. destruct (bool_decide _); [done|].
  destruct (dirs s !! p); [done|]. by destruct (below_file s p (ancestors p)).
Qed.

Lemma keeps_copy src dst : keeps_table (copy (G := G) src dst).
Proof.
  intros s. unfold copy. destruct (files s !! src); [|done].
  by destruct (bool_decide _).
Qed.

Lemma keeps_open_read p : keeps_table (open_read (G := G) p).
Proof. intros s. unfold open_read. by destruct (files s !! p). Qed.

Lemma keeps_open_write p : keeps_table (open_write (G := G) p).
Proof. intros s. unfold open_write. by destruct (bool_decide _). Qed.

Lemma keeps_listdir p : keeps_table (listdir (G := G) p).
Proof. intros s. unfold listdir. by destruct (dirs s !! p). Qed.

Lemma process_file_preserves img_dir ann_dir dst_dir destination img_file :
  preserves table_inv
    (process_file (G := G) img_dir ann_dir dst_dir destination img_file).
Proof.
  unfold process_file.
  apply bind_preserves; [apply keeps_preserves, keeps_makedirs|intros _].
  apply bind_preserves; [apply keeps_preserves, keeps_makedirs|intros _].
  apply try_except_preserves; [|by intros e s Hs].
  apply bind_preserves; [apply keeps_preserves, keeps_copy|intros _].
  apply bind_preserves; [apply keeps_preserves, keeps_open_read|intros _].
  apply bind_preserves; [apply keeps_preserves, keeps_open_write|intros _].
  apply bind_preserves; [by intros s Hs|intros lines].
  apply bind_preserves; [|by intros _ s Hs].
  apply for_each_preserves. intros line s Hs. by apply process_line_table.
Qed.
End PassFacts.

Section SplitFacts.
Context {G : Type} {gen : RandomGen G} {num : Numerals}.
Variable yaml_names : list string → option (list string).
Implicit Types (s : state G).

Lemma bind_Ok {A B} (m : IO G A) (k : A → IO G B) s b s' :
  bind m k s = (Ok b, s') → ∃ a s1, m s = (Ok a, s1) ∧ k a s1 = (Ok b, s').
Proof.
  unfold bind. destruct (m s) as [[a|e] s1]; [|done]. intros Hk. by exists a, s1.
Qed.

Lemma get_distribution_dataframe_Ok data nclients s df s' :
  get_distribution_dataframe yaml_names data nclients s = (Ok df, s') →
  dist_df s' = dist_df s ∧
  ∃ lines names, yaml_names lines = Some names ∧ df = distribution_frame names nclients.
Proof.
  unfold get_distribution_dataframe.
  intros Hrun. apply bind_Ok in Hrun as (u & s1 & Ho & Hrun).
  apply bind_Ok in Hrun as (lines & s2 & Hr & Hy).
  unfold open_read in Ho. destruct (files s !! data); [|done]. simplify_eq.
  unfold read_lines in Hr. simplify_eq.
  destruct (yaml_names _) as [names|] eqn:E; [|done].
  unfold ret in Hy. simplify_eq. split; [done|]. by eexists _, _.
Qed.

Lemma process_split_table src_dir dst_dir subset nclients yaml_path is_train s df s' :
  (∀ lines names, yaml_names lines = Some names → NoDup ("Samples" :: names)) →
  process_split yaml_names src_dir dst_dir subset nclients yaml_path is_train s
    = (Ok df, s') →
  df = dist_df s' ∧ table_inv df.
Proof.
  intros Hnames. unfold process_split.
  intros Hrun. apply bind_Ok in Hrun as (u & s1 & _ & Hrun).
  apply bind_Ok in Hrun as (df0 & s2 & Hload & Hrun).
  assert (Hdf0 : table_inv df0).
  { unfold try_except in Hload.
    destruct (get_distribution_dataframe _ _ _ s1) as [[d|e] s1'] eqn:E; [|done].
    simplify_eq. apply get_distribution_dataframe_Ok in E as (_ & lines & names & Hy & ->).
    split; [by eapply distribution_frame_well_shaped, Hnames|
            apply distribution_frame_balanced]. }
  apply bind_Ok in Hrun as (u3 & s3 & Hset & Hrun).
  assert (Hs3 : table_inv (dist_df s3)) by (by simplify_eq).
  clear Hset Hload.
  apply bind_Ok in Hrun as (img_ok & s4 & Hex & Hrun).
  unfold path_exists in Hex. injection Hex as _ <-.
  destruct (negb img_ok); [done|].
  apply bind_Ok in Hrun as (ann_ok & s5 & Hex & Hrun).
  unfold path_exists in Hex. injection Hex as _ <-.
  destruct (negb ann_ok); [done|].
  apply bind_Ok in Hrun as (entries & s6 & Hls & Hrun).
  assert (Hs6 : table_inv (dist_df s6)).
  { match type of Hls with
    | listdir ?p ?s0 = _ => pose proof (keeps_listdir (G := G) p s0) as Hk
    end.
    rewrite Hls in Hk. simpl in Hk. by rewrite Hk. }
  destruct (bool_decide _); [done|].
  apply bind_Ok in Hrun as (assignment & s7 & Hsplit & Hrun).
  assert (Hs7 : table_inv (dist_df s7)).
  { unfold assign_files in Hsplit.
    destruct (split_map _ _ _ _) as [o|]; [|done]. by simplify_eq. }
  apply bind_Ok in Hrun as (u8 & s8 & Hloop & Hrun).
  simplify_eq. split; [done|].
  assert (Hp : preserves (G := G) table_inv
            (for_each assignment (λ '(destination, files),
               for_each files
                 (process_file (path_join3 src_dir "images" subset)
                    (path_join3 src_dir "annotations" subset) dst_dir destination)))).
  { apply for_each_preserves. intros [destination files].
    apply for_each_preserves. intros img_file. apply process_file_preserves. }
  specialize (Hp s7 Hs7). by rewrite Hloop in Hp.
Qed.
End SplitFacts.

(** C9: with distinct row labels, the all-zero table of
    get_distribution_dataframe has its ["Samples"] cell equal to the sum of
    the class cells in every column; every annotation line and every file
    processed keeps it so; and so has the table process_split returns. *)
Theorem samples_equal_class_sums {G : Type} (gen : RandomGen G) (num : Numerals)
    (yaml_names : list string → option (list string)) :
  (∀ lines names, yaml_names lines = Some names → NoDup ("Samples" :: names)) →
  (∀ lines names nclients,
     yaml_names lines = Some names → table_inv (distribution_frame names nclients)) ∧
  (∀ destination label_dst line (s : state G),
     table_inv (dist_df s) →
     table_inv (dist_df (process_line destination label_dst line s).2)) ∧
  (∀ img_dir ann_dir dst_dir destination img_file (s : state G),
     table_inv (dist_df s) →
     table_inv (dist_df (process_file img_dir ann_dir dst_dir destination img_file s).2)) ∧
  (∀ src_dir dst_dir subset nclients yaml_path is_train (s s' : state G) df,
     process_split yaml_names src_dir dst_dir subset nclients yaml_path is_train s
       = (Ok df, s') →
     df = dist_df s' ∧
     ∀ col, cell df "Samples" col = class_sum df col).
Proof.
  intros Hnames. split; [|split; [|split]].
  - intros lines names nclients Hy.
    split; [by eapply distribution_frame_well_shaped, Hnames|
            apply distribution_frame_balanced].
  - intros. by apply process_line_table.
  - intros. by apply process_file_preserves.
  - intros * Hrun.
    destruct (process_split_table yaml_names _ _ _ _ _ _ _ _ _ Hnames Hrun) as [? [_ ?]].
    done.
Qed.

Lemma visdrone_labels_distinct : NoDup ("Samples" :: visdrone_names).
Proof. apply (bool_decide_unpack _). vm_compute. reflexivity. Qed.

Lemma samples_equal_class_sums_witness :
  table_inv (distribution_frame visdrone_names 2) ∧
  cell example_table "Samples" "client2" = class_sum example_table "client2".
Proof.
  destruct (samples_equal_class_sums MT19937.mt_gen Numeral.ascii_numerals
              (λ _, Some visdrone_names)) as (Hinit & _ & _ & Hpass).
  - intros lines names [= <-]. apply visdrone_labels_distinct.
  - split; [apply (Hinit [] visdrone_names 2); reflexivity|].
    assert (Hrun : example_pass = (Ok example_table, example_pass.2)).
    { transitivity (example_pass.1, example_pass.2); [by destruct example_pass|].
      f_equal; vm_compute; reflexivity. }
    destruct (Hpass "src" "dst" "train" 2 "data/VisDrone.yaml" true example_state
                example_pass.2 example_table Hrun) as [_ Hbal].
    exact (Hbal "client2").
Defined.

(** C9, as stated, fails for a class list that names a class twice: the
    row label of a surviving line then stands for two rows of the table, both
    are counted up, and the class cells of the column add up to more than
    its ["Samples"] cell.  In the training pass over [example_state] the two
    surviving lines of [a.txt] (classes 4 and 10) leave 2 in the ["Samples"]
    cell of client2 and 3 as the sum of its class cells. *)
Lemma samples_differ_for_repeated_class :
  let run :=
    process_split (gen := MT19937.mt_gen) (num := Numeral.ascii_numerals)
      (λ _, Some repeated_names) "src" "dst" "train" 2 "data/VisDrone.yaml" true
      example_state in
  ∃ df, run.1 = Ok df ∧
        cell df "Samples" "client2" = 2 ∧ class_sum df "client2" = 3 ∧
        cell df "Samples" "client2" ≠ class_sum df "client2".
Proof.
  intros run.
  exists (match run.1 with Ok df => df | Raise _ => empty_frame end).
  split; [vm_compute; reflexivity|].
  assert (H2 : cell (match run.1 with Ok df => df | Raise _ => empty_frame end)
                 "Samples" "client2" = 2) by (vm_compute; reflexivity).
  assert (H3 : class_sum (match run.1 with Ok df => df | Raise _ => empty_frame end)
                 "client2" = 3) by (vm_compute; reflexivity).
  split; [exact H2|]. split; [exact H3|]. rewrite H2, H3. discriminate.
Qed.

(** * Counting the lines of a file *)

Lemma count_of_cons {A} (test : A → bool) (a : A) (l : list A) :
  count_of test (a :: l) = (if test a then 1 else 0) + count_of test l.
Proof.
  unfold count_of. rewrite filter_cons. destruct (test a).
  - rewrite decide_True by done. simpl length. lia.
  - rewrite decide_False by done. lia.
Qed.

Section CountFacts.
Context {G : Type} {num : Numerals}.
Implicit Types (s : state G) (line destination label_dst : string).

Lemma has_class_index (df df' : dataframe) (row line : string) :
  index df' = index df → has_class df' row line = has_class df row line.
Proof. intros E. unfold has_class. by rewrite E. Qed.

Lemma lines_accumulate destination label_dst (lines : list string) s :
  well_shaped (dist_df s) →
  (10 < length (index (dist_df s)))%nat →
  destination ∈ columns (dist_df s) →
  ∃ s', for_each lines (process_line destination label_dst) s = (Ok (), s') ∧
        ∀ row col,
          cell (dist_df s') row col =
          cell (dist_df s) row col
          + (if decide (col = destination) then
               if decide (row = "Samples") then count_of survives lines
               else count_of (has_class (dist_df s) row) lines
             else 0).
Proof.
  revert s. induction lines as [|line rest IH]; intros s Hws Hlen Hcol.
  { exists s. split; [done|]. intros row col. unfold count_of. simpl.
    repeat case_decide; lia. }
  cbn [for_each]. unfold bind at 1.
  destruct (line_class line) as [cls_id|] eqn:Hc.
  - destruct (line_class_Some _ _ Hc) as (_ & _ & _ & _ & _ & _ & _ & Hrange).
    assert (Hlt : (Z.to_nat cls_id < length (index (dist_df s)))%nat) by lia.
    destruct (lookup_lt_is_Some_2 _ _ Hlt) as [name Hname].
    destruct (process_line_counts destination label_dst line s cls_id name
                Hws Hc Hname Hcol) as (s1 & -> & Hi & Hco & Hws1 & Hne & Hcell).
    destruct (IH s1 Hws1 ltac:(by rewrite Hi) ltac:(by rewrite Hco))
      as (s' & -> & Hacc).
    exists s'. split; [done|]. intros row col. rewrite Hacc, Hcell.
    rewrite !count_of_cons. rewrite survives_line_class, Hc.
    rewrite (bool_decide_eq_true_2 _ (mk_is_Some _ _ eq_refl)).
    assert (Hhc : count_of (has_class (dist_df s1) row) rest
                  = count_of (has_class (dist_df s) row) rest).
    { unfold count_of. do 2 f_equal. apply list_filter_iff. intros l.
      by rewrite (has_class_index _ _ _ _ Hi). }
    rewrite Hhc. unfold has_class at 2. rewrite Hc, Hname.
    destruct (decide (col = destination)) as [->|Hcd].
    + destruct (decide (row = "Samples")) as [->|Hrs].
      * rewrite decide_False by (intros [? _]; congruence).
        rewrite decide_True by done. lia.
      * rewrite (decide_False (P := row = "Samples" ∧ _)) by (intros [? _]; done).
        destruct (decide (row = name)) as [->|Hrn].
        -- rewrite decide_True by done. rewrite bool_decide_eq_true_2 by done. lia.
        -- rewrite decide_False by (intros [? _]; done).
           rewrite bool_decide_eq_false_2 by congruence. lia.
    + rewrite !decide_False by (intros [_ ?]; done). lia.
  - rewrite (line_class_None _ _ _ _ Hc).
    destruct (IH s Hws Hlen Hcol) as (s' & -> & Hacc).
    exists s'. split; [done|]. intros row col. rewrite Hacc.
    rewrite !count_of_cons. rewrite survives_line_class, Hc.
    rewrite bool_decide_eq_false_2 by (by intros [? ?]).
    assert (Hno : has_class (dist_df s) row line = false)
      by (unfold has_class; by rewrite Hc).
    rewrite Hno. repeat case_decide; lia.
Qed.
End CountFacts.

(** C4 (as amended): on a table with its ten class rows and the column of
    the destination bucket, the lines of a file are processed without error,
    and afterwards the ["Samples"] cell of the bucket has gone up by the
    number of surviving lines of the file, once for every surviving line and
    not once for the file; it has not moved for a file without surviving
    lines.  The cell of a class row has gone up by the number of surviving
    lines of that class, and the other columns are as before. *)
Theorem samples_row_counts_lines {G : Type} (num : Numerals)
    (destination label_dst : string) (lines : list string) (s : state G) :
  well_shaped (dist_df s) →
  (10 < length (index (dist_df s)))%nat →
  destination ∈ columns (dist_df s) →
  ∃ s', for_each lines (process_line destination label_dst) s = (Ok (), s') ∧
        cell (dist_df s') "Samples" destination =
          cell (dist_df s) "Samples" destination + count_of survives lines ∧
        (count_of survives lines = 0 →
         cell (dist_df s') "Samples" destination
           = cell (dist_df s) "Samples" destination) ∧
        (∀ row, row ≠ "Samples" →
           cell (dist_df s') row destination =
             cell (dist_df s) row destination
             + count_of (has_class (dist_df s) row) lines) ∧
        (∀ row col, col ≠ destination →
           cell (dist_df s') row col = cell (dist_df s) row col).
Proof.
  intros Hws Hlen Hcol.
  destruct (lines_accumulate destination label_dst lines s Hws Hlen Hcol)
    as (s' & Hrun & Hacc).
  exists s'. split; [done|].
  assert (Hs : cell (dist_df s') "Samples" destination =
               cell (dist_df s) "Samples" destination + count_of survives lines).
  { rewrite Hacc. by rewrite !decide_True by done. }
  split; [done|]. split; [intros Hz; rewrite Hs; lia|]. split.
  - intros row Hrow. rewrite Hacc. rewrite decide_True by done.
    by rewrite decide_False by done.
  - intros row col Hne. rewrite Hacc. rewrite decide_False by done. lia.
Qed.

Lemma samples_row_counts_lines_witness :
  ∃ s', for_each ["100,200,300,150,1,4,1,0"; "corrupt"; "10,20,30,40,1,10,2,0"]
          (process_line (num := Numeral.ascii_numerals) "client1" "dst/client1/labels/a.txt")
          example_state = (Ok (), s') ∧
        cell (dist_df s') "Samples" "client1" =
          cell (dist_df example_state) "Samples" "client1"
          + count_of (survives (num := Numeral.ascii_numerals))
              ["100,200,300,150,1,4,1,0"; "corrupt"; "10,20,30,40,1,10,2,0"].
Proof.
  destruct (samples_row_counts_lines Numeral.ascii_numerals
              "client1" "dst/client1/labels/a.txt"
              ["100,200,300,150,1,4,1,0"; "corrupt"; "10,20,30,40,1,10,2,0"]
              example_state) as (s' & Hrun & Hs & _).
  - apply distribution_frame_well_shaped, visdrone_labels_distinct.
  - simpl. lia.
  - apply (bool_decide_unpack _). vm_compute. reflexivity.
  - exists s'. split; assumption.
Defined.

(** C4, as stated, fails: one file with two surviving lines is processed
    without error, and the ["Samples"] cell of its bucket goes from 0 to 2,
    not to 1. *)
Lemma samples_row_counts_each_line :
  let run :=
    process_file (num := Numeral.ascii_numerals)
      "src/images/train" "src/annotations/train" "dst" "client1" "a.jpg"
      example_state in
  run.1 = Ok () ∧
  stdout run.2 = [] ∧
  progress run.2 = 1%nat ∧
  cell (dist_df example_state) "Samples" "client1" = 0 ∧
  cell (dist_df run.2) "Samples" "client1" = 2.
Proof. vm_compute. done. Qed.

(** * A file that fails after its image was copied *)

Section FileFacts.
Context {G : Type} {num : Numerals}.
Implicit Types (s : state G).

(** Where [below_file] finds a path, the path is on the way up and its
    head is a regular file. *)
Lemma below_file_upto (fuel : nat) (p q : string) s :
  below_file s p (ancestors_upto fuel p) = Some q →
  q ∈ p :: ancestors_upto fuel p ∧ is_Some (files s !! dirname q).
Proof.
  revert p. induction fuel as [|fuel IH]; intros p; cbn [ancestors_upto]; [done|].
  cbv zeta. destruct (bool_decide (dirname p = "") || bool_decide (dirname p = p));
    [done|].
  cbn [below_file].
  destruct (bool_decide (is_Some (files s !! dirname p))) eqn:Hf.
  { apply bool_decide_eq_true in Hf. intros [= <-]. split; [by left|done]. }
  destruct (bool_decide (is_Some (dirs s !! dirname p))); [done|].
  intros [Hin Hfile]%IH. split; [by right|done].
Qed.

Lemma below_file_spec (p q : string) s :
  below_file s p (ancestors p) = Some q →
  q ∈ p :: ancestors p ∧ is_Some (files s !! dirname q).
Proof. apply below_file_upto. Qed.


End FileFacts.



(** * A whole pass

    The training subset of [example_state], two clients, CPython's generator:
    the shuffle puts [b.jpg] first, so [b.jpg] goes to client1 and [a.jpg] to
    client2.  [b.jpg] has no annotation file: its image stays in client1
    without a label file.  The two surviving lines of [a.txt] are written and
    counted. *)
Example pipeline_run :
  let run :=
    process_split (gen := MT19937.mt_gen) (num := Numeral.ascii_numerals)
      (λ _, Some visdrone_names) "src" "dst" "train" 2 "data/VisDrone.yaml" true
      example_state in
  stdout run.2 =
    [Processing "train";
     FileFailed "b.jpg" (FileNotFoundError "src/annotations/train/b.txt")] ∧
  progress run.2 = 1%nat ∧
  files run.2 !! "dst/client1/images/b.jpg" = Some ["<jpeg b>"] ∧
  files run.2 !! "dst/client1/labels/b.txt" = None ∧
  files run.2 !! "dst/client2/images/a.jpg" = Some ["<jpeg a>"] ∧
  files run.2 !! "dst/client2/labels/a.txt" =
    Some ["3 0.130208 0.254630 0.156250 0.138889
"; "9 0.013021 0.037037 0.015625 0.037037
"] ∧
  (match run.1 with
   | Ok df => Some (cell df "Samples" "client2", cell df "car" "client2",
                    cell df "motor" "client2", cell df "Samples" "client1")
   | Raise _ => None
   end) = Some (2, 1, 1, 0) ∧
  MT19937.starved (rng run.2) = false.
Proof. vm_compute. done. Qed.

(** * What a line changes *)

Lemma grows_refl (dest : string) (df : dataframe) : grows dest df df.
Proof. repeat split; intros; lia || done. Qed.

Lemma grows_trans (dest : string) (df1 df2 df3 : dataframe) :
  grows dest df1 df2 → grows dest df2 df3 → grows dest df1 df3.
Proof.
  intros (Hi & Hc & Hm & Ho) (Hi' & Hc' & Hm' & Ho').
  split; [congruence|]. split; [congruence|]. split.
  - intros row col. specialize (Hm row col). specialize (Hm' row col). lia.
  - intros row col Hne. rewrite Ho' by done. by apply Ho.
Qed.

Lemma same_outside_trans {G : Type} (s1 s2 s3 : state G) :
  same_outside s1 s2 → same_outside s2 s3 → same_outside s1 s3.
Proof.
  unfold same_outside. intros (?&?&?&?) (?&?&?&?).
  repeat split; etrans; eauto.
Qed.

Section LineEffects.
Context {G : Type} {num : Numerals}.
Implicit Types (s : state G) (line destination label_dst : string).

Lemma loc_incr_grows (row col : string) s :
  grows col (dist_df s) (dist_df (loc_incr row col s).2) ∧
  files (loc_incr row col s).2 = files s ∧
  same_outside s (loc_incr row col s).2.
Proof.
  unfold loc_incr. destruct (cells (dist_df s) !! (row, col)) as [v|] eqn:Hv.
  - cbn. split; [|done]. split; [done|]. split; [done|]. split.
    + intros r c. unfold cell. cbn [cells].
      destruct (decide ((row, col) = (r, c))) as [[= <- <-]|Hne].
      * rewrite lookup_insert_eq, Hv. simpl. lia.
      * rewrite lookup_insert_ne by done. lia.
    + intros r c Hne. unfold cell. cbn [cells].
      rewrite lookup_insert_ne by congruence. done.
  - cbn. split; [apply grows_refl|done].
Qed.

Lemma render_line_survives line : is_Some (render_line line) ↔ survives line = true.
Proof.
  unfold render_line, survives.
  destruct (parse_line line) as [[[[[[x y] w] h] c] st]|]; [|by split; [intros [? ?]|]].
  destruct (filtered c st); simpl.
  - split; [by intros [? ?]|done].
  - split; [done|]. intros _. unfold convert_bbox. by eexists.
Qed.

(** The files after a line, whatever becomes of the table update. *)
Lemma process_line_files destination label_dst line s :
  files (process_line destination label_dst line s).2 =
  match render_line line with
  | Some out => <[label_dst := default [] (files s !! label_dst) ++ [out]]> (files s)
  | None => files s
  end.
Proof.
  unfold process_line, render_line.
  destruct (parse_line line) as [[[[[[x y] w] h] c] st]|]; [|done].
  destruct (filtered c st); [done|].
  unfold convert_bbox. cbv beta iota zeta.
  unfold bind at 1. unfold write at 1. cbv beta iota.
  set (s1 := set_files _ s).
  unfold bind at 1. destruct (index_at c s1) as [[name|e] s2] eqn:E1.
  - assert (s2 = s1) as ->.
    { unfold index_at in E1. cbv zeta in E1.
      destruct (if 0 <=? _ then _ else _); by simplify_eq. }
    unfold bind. destruct (loc_incr name destination s1) as [[u|e] s3] eqn:E2.
    + pose proof (loc_incr_grows name destination s1) as (_ & Hf1 & _).
      pose proof (loc_incr_grows "Samples" destination s3) as (_ & Hf2 & _).
      rewrite E2 in Hf1. cbn [snd] in Hf1. by rewrite Hf2, Hf1.
    + pose proof (loc_incr_grows name destination s1) as (_ & Hf1 & _).
      rewrite E2 in Hf1. cbn [snd] in *. by rewrite Hf1.
  - unfold index_at in E1. cbv zeta in E1.
    destruct (if 0 <=? _ then _ else _); by simplify_eq.
Qed.

Lemma process_line_grows destination label_dst line s :
  grows destination (dist_df s) (dist_df (process_line destination label_dst line s).2) ∧
  same_outside s (process_line destination label_dst line s).2.
Proof.
  unfold process_line.
  destruct (parse_line line) as [[[[[[x y] w] h] c] st]|];
    [|split; [apply grows_refl|done]].
  destruct (filtered c st); [split; [apply grows_refl|done]|].
  unfold convert_bbox. cbv beta iota zeta.
  unfold bind, write. cbv beta iota.
  set (s1 := set_files _ s).
  assert (Hs1 : dist_df s1 = dist_df s ∧ same_outside s s1) by done.
  destruct Hs1 as [Hd1 Ho1].
  destruct (index_at c s1) as [[name|e] s2] eqn:E1.
  - assert (s2 = s1) as ->.
    { unfold index_at in E1. cbv zeta in E1.
      destruct (if 0 <=? _ then _ else _); by simplify_eq. }
    pose proof (loc_incr_grows name destination s1) as (Hg1 & _ & Hq1).
    destruct (loc_incr name destination s1) as [[u|e] s3] eqn:E2; cbn [snd] in *.
    + pose proof (loc_incr_grows "Samples" destination s3) as (Hg2 & _ & Hq2).
      split.
      * rewrite <- Hd1. by eapply grows_trans.
      * eapply same_outside_trans; [exact Ho1|].
        eapply same_outside_trans; [exact Hq1|exact Hq2].
    + split; [by rewrite <- Hd1|].
      eapply same_outside_trans; [exact Ho1|exact Hq1].
  - assert (s2 = s1) as ->.
    { unfold index_at in E1. cbv zeta in E1.
      destruct (if 0 <=? _ then _ else _); by simplify_eq. }
    cbn [snd]. split; [rewrite Hd1; apply grows_refl|done].
Qed.
End LineEffects.

(** X1: a line of an annotation file changes nothing but the label file
    and the column of its bucket.  The label file gains the rendered line when
    the line survives and the files are as before when it does not; the
    directories, the output, the progress count and the generator are
    untouched; the table keeps its labels, no cell goes down, and the cells of
    every other column are as before.  This holds also when the table update
    raises. *)
Theorem line_changes_label_and_column {G : Type} (num : Numerals)
    (destination label_dst line : string) (s : state G) :
  let s' := (process_line destination label_dst line s).2 in
  files s' =
    match render_line line with
    | Some out => <[label_dst := default [] (files s !! label_dst) ++ [out]]> (files s)
    | None => files s
    end ∧
  (∀ p, p ≠ label_dst → files s' !! p = files s !! p) ∧
  same_outside s s' ∧
  grows destination (dist_df s) (dist_df s').
Proof.
  intros s'. pose proof (process_line_files destination label_dst line s) as Hf.
  pose proof (process_line_grows destination label_dst line s) as [Hg Ho].
  split; [done|]. split; [|done].
  intros p Hp. unfold s'. rewrite Hf. destruct (render_line line); [|done].
  by rewrite lookup_insert_ne.
Qed.

(** * Triples *)

Section Triples.
Context {G : Type}.
Implicit Types (P : state G → Prop).

Lemma hoare_bind {A B} P (m : IO G A) (k : A → IO G B)
    (R : A → state G → Prop) (Q : result B → state G → Prop) :
  hoare P m (λ r s, match r with Ok a => R a s | Raise e => Q (Raise e) s end) →
  (∀ a, hoare (R a) (k a) Q) →
  hoare P (bind m k) Q.
Proof.
  intros Hm Hk s Hs. specialize (Hm s Hs). unfold bind.
  destruct (m s) as [[a|e] s1]; cbn [fst snd] in *; [by apply Hk|done].
Qed.

Lemma hoare_try {A} P (m : IO G A) (h : exn → IO G A)
    (R : exn → state G → Prop) (Q : result A → state G → Prop) :
  hoare P m (λ r s, match r with Ok a => Q (Ok a) s | Raise e => R e s end) →
  (∀ e, hoare (R e) (h e) Q) →
  hoare P (try_except m h) Q.
Proof.
  intros Hm Hh s Hs. specialize (Hm s Hs). unfold try_except.
  destruct (m s) as [[a|e] s1]; cbn [fst snd] in *; [done|by apply Hh].
Qed.

Lemma hoare_for_each {A} (I : state G → Prop) (l : list A) (body : A → IO G unit)
    (E : exn → state G → Prop) :
  (∀ a, a ∈ l →
        hoare I (body a) (λ r s, match r with Ok _ => I s | Raise e => E e s end)) →
  hoare I (for_each l body) (λ r s, match r with Ok _ => I s | Raise e => E e s end).
Proof.
  induction l as [|a l IH]; intros Hb; cbn [for_each].
  - by intros s Hs.
  - eapply hoare_bind with (R := λ _, I).
    + apply Hb. by left.
    + intros _. apply IH. intros b Hin. apply Hb. by right.
Qed.

Lemma hoare_weaken {A} P P' (m : IO G A) (Q Q' : result A → state G → Prop) :
  hoare P m Q → (∀ s, P' s → P s) → (∀ r s, Q r s → Q' r s) → hoare P' m Q'.
Proof. intros Hm HP HQ s Hs. apply HQ, Hm, HP, Hs. Qed.
End Triples.

(** * The outcome of one file *)

Section FileOutcome.
Context {G : Type} {num : Numerals}.
Implicit Types (s : state G).

Lemma calm_makedirs p : calm (makedirs (G := G) p).
Proof.
  intros s. unfold makedirs. destruct (bool_decide _); [done|].
  destruct (dirs s !! p); [done|]. by destruct (below_file s p (ancestors p)).
Qed.

Lemma calm_copy src dst : calm (copy (G := G) src dst).
Proof.
  intros s. unfold copy. destruct (files s !! src); [|done].
  by destruct (bool_decide _).
Qed.

Lemma calm_open_read p : calm (open_read (G := G) p).
Proof. intros s. unfold open_read. by destruct (files s !! p). Qed.

Lemma calm_open_write p : calm (open_write (G := G) p).
Proof. intros s. unfold open_write. by destruct (bool_decide _). Qed.

Lemma calm_read_lines p : calm (read_lines (G := G) p).
Proof. by intros s. Qed.

Lemma hoare_calm {A} (I : state G → Prop) (m : IO G A) :
  calm m →
  (∀ s s', stdout s' = stdout s → progress s' = progress s → I s → I s') →
  hoare I m (λ _ s, I s).
Proof.
  intros Hc HI s Hs. destruct (Hc s) as (Ho & Hp & _). by eapply HI.
Qed.

Lemma hoare_step {A B} (I : state G → Prop) (m : IO G A) (k : A → IO G B)
    (Q : result B → state G → Prop) :
  hoare I m (λ _ s, I s) →
  (∀ e s, I s → Q (Raise e) s) →
  (∀ a, hoare I (k a) Q) →
  hoare I (bind m k) Q.
Proof.
  intros Hm HQ Hk. eapply hoare_bind with (R := λ _, I); [|done].
  intros s Hs. specialize (Hm s Hs). destruct (m s).1; eauto.
Qed.

Lemma makedirs_raises p s e s' :
  makedirs p s = (Raise e, s') → s' = s ∧ makedirs_refused s p e.
Proof.
  unfold makedirs. destruct (bool_decide (is_Some (files s !! p))) eqn:Hb.
  - intros [= <- <-]. apply bool_decide_eq_true in Hb. split; [done|by left].
  - destruct (dirs s !! p); [done|].
    destruct (below_file s p (ancestors p)) as [q|] eqn:Hq; [|done].
    intros [= <- <-]. split; [done|]. right. exists q. split; [done|].
    by eapply below_file_spec.
Qed.

Lemma makedirs_refused_files s1 s d e :
  files s1 = files s → makedirs_refused s1 d e → makedirs_refused s d e.
Proof. unfold makedirs_refused. by intros ->. Qed.

Lemma makedirs_files p s : files (makedirs p s).2 = files s.
Proof.
  unfold makedirs. destruct (bool_decide _); [done|].
  destruct (dirs s !! p); [done|]. by destruct (below_file s p (ancestors p)).
Qed.

(** The lines of a file leave the output and the progress count alone. *)
Lemma lines_quiet destination label_dst (lines : list string) (I : state G → Prop) :
  (∀ s s', stdout s' = stdout s → progress s' = progress s → I s → I s') →
  hoare I (for_each lines (process_line destination label_dst)) (λ _ s, I s).
Proof.
  intros HI.
  assert (H : hoare I (for_each lines (process_line destination label_dst))
                (λ r s, match r with Ok _ => I s | Raise e => (λ _, I) e s end)).
  { apply hoare_for_each. intros line _ s Hs.
    destruct (process_line_grows destination label_dst line s) as [_ (_ & Ho & Hp & _)].
    assert (I (process_line destination label_dst line s).2) by (by eapply HI).
    by destruct (process_line destination label_dst line s).1. }
  intros s Hs. specialize (H s Hs). by destruct (for_each _ _ s).1.
Qed.
End FileOutcome.

Lemma process_file_outcome {G : Type} {num : Numerals}
    (img_dir ann_dir dst_dir destination img_file : string) (s : state G) :
  file_outcome img_file
    (dirname (path_join4 dst_dir destination "images" img_file))
    (dirname (path_join4 dst_dir destination "labels"
                (replace ".jpg" ".txt" img_file)))
    s
    (process_file img_dir ann_dir dst_dir destination img_file s).1
    (process_file img_dir ann_dir dst_dir destination img_file s).2.
Proof.
  set (img_dst := path_join4 dst_dir destination "images" img_file).
  set (label_dst :=
         path_join4 dst_dir destination "labels" (replace ".jpg" ".txt" img_file)).
  set (I := λ s1 : state G, stdout s1 = stdout s ∧ progress s1 = progress s).
  set (I0 := λ s1 : state G, I s1 ∧ files s1 = files s ∧ dist_df s1 = dist_df s).
  assert (HI : ∀ s1 s2 : state G,
            stdout s2 = stdout s1 → progress s2 = progress s1 → I s1 → I s2).
  { intros s1 s2 Ho Hp [? ?]. split; congruence. }
  set (Q := file_outcome img_file (dirname img_dst) (dirname label_dst) s).
  assert (Hmk : ∀ p,
    (p = dirname img_dst ∨ p = dirname label_dst) →
    hoare I0 (makedirs p)
      (λ r s1, match r with Ok _ => I0 s1 | Raise e => Q (Raise e) s1 end)).
  { intros p Hp s1 (Hi & Hf & Hd).
    destruct (makedirs p s1) as [[u|e] s2] eqn:E; cbn [fst snd].
    - destruct (calm_makedirs p s1) as (Ho & Hpr & Hdf & _).
      pose proof (makedirs_files p s1) as Hfs. rewrite E in Ho, Hpr, Hdf, Hfs.
      cbn [snd] in *. split; [by eapply HI|]. split; congruence.
    - apply makedirs_raises in E as (-> & Href).
      apply (makedirs_refused_files s1 s) in Href; [|done].
      destruct Hi as [? ?]. split; [|done].
      destruct Hp as [->| ->]; [left|right]; done. }
  assert (Hrun : hoare I0
            (process_file img_dir ann_dir dst_dir destination img_file) Q).
  { unfold process_file. fold img_dst label_dst.
    eapply hoare_bind with (R := λ _, I0); [apply Hmk; by left|intros _].
    eapply hoare_bind with (R := λ _, I0); [apply Hmk; by right|intros _].
    eapply hoare_weaken with (P := I) (Q := Q); [|by intros s1 [? _]|done].
    eapply hoare_try with (R := λ _, I).
    - apply hoare_step; [by apply hoare_calm; [apply calm_copy|]|done|intros _].
      apply hoare_step; [by apply hoare_calm; [apply calm_open_read|]|done|intros _].
      apply hoare_step; [by apply hoare_calm; [apply calm_open_write|]|done|intros _].
      apply hoare_step; [by apply hoare_calm; [apply calm_read_lines|]|done|intros lines].
      apply hoare_step; [by apply lines_quiet|done|intros _].
      intros s1 [Ho Hp]. cbn. left. split; congruence.
    - intros e s1 [Ho Hp]. cbn. right. split; [done|]. exists e. by rewrite Ho. }
  apply (Hrun s). by repeat split.
Qed.

(** X2: errors of one file are contained.  [process_file] either counts the
    file on the progress bar and prints nothing, or prints one failure for
    the file and leaves the count, and in both cases returns normally; the
    only exceptions that escape it are those of the two [os.makedirs] calls
    before the [try]: the FileExistsError of a bucket directory whose path is
    a regular file, and the NotADirectoryError of a bucket directory that
    lies under a regular file.  They are raised before any file, output,
    count or table cell has changed. *)
Theorem file_errors_are_contained {G : Type} (num : Numerals)
    (img_dir ann_dir dst_dir destination img_file : string) (s : state G) :
  let img_dst := path_join4 dst_dir destination "images" img_file in
  let label_dst :=
    path_join4 dst_dir destination "labels" (replace ".jpg" ".txt" img_file) in
  let run := process_file img_dir ann_dir dst_dir destination img_file s in
  match run.1 with
  | Ok _ =>
      (progress run.2 = S (progress s) ∧ stdout run.2 = stdout s) ∨
      (progress run.2 = progress s ∧
       ∃ e, stdout run.2 = stdout s ++ [FileFailed img_file e])
  | Raise e =>
      (makedirs_refused s (dirname img_dst) e ∨
       makedirs_refused s (dirname label_dst) e) ∧
      files run.2 = files s ∧ stdout run.2 = stdout s ∧
      progress run.2 = progress s ∧ dist_df run.2 = dist_df s
  end.
Proof.
  intros img_dst label_dst run.
  pose proof (process_file_outcome img_dir ann_dir dst_dir destination img_file s) as H.
  unfold file_outcome in H. exact H.
Qed.

Lemma bucket_accounting {G : Type} {num : Numerals}
    (img_dir ann_dir dst_dir destination : string)
    (bucket : list string) (s s' : state G) :
  for_each bucket (process_file img_dir ann_dir dst_dir destination) s = (Ok (), s') →
  ∃ failures,
    stdout s' = stdout s ++ failures ∧
    (progress s' + length failures = progress s + length bucket)%nat ∧
    Forall (λ m, ∃ f e, m = FileFailed f e ∧ f ∈ bucket) failures.
Proof.
  revert s. induction bucket as [|f bucket IH]; intros s Hrun.
  - injection Hrun as <-. exists []. rewrite app_nil_r. by repeat split.
  - cbn [for_each] in Hrun. unfold bind at 1 in Hrun.
    pose proof (process_file_outcome img_dir ann_dir dst_dir destination f s) as Hf.
    destruct (process_file img_dir ann_dir dst_dir destination f s) as [[u|e] s1];
      [|done].
    cbn [fst snd file_outcome] in Hf.
    destruct (IH s1 Hrun) as (rest & Hout & Hcount & Hall).
    assert (Hall' : Forall (λ m, ∃ f0 e, m = FileFailed f0 e ∧ f0 ∈ f :: bucket) rest).
    { eapply Forall_impl; [exact Hall|]. intros m (f0 & e & -> & Hin).
      exists f0, e. split; [done|by right]. }
    destruct Hf as [[Hp Ho]|[Hp (e & Ho)]].
    + exists rest. rewrite Hout, Ho. split; [done|]. split; [|done].
      rewrite Hp in Hcount. simpl. lia.
    + exists (FileFailed f e :: rest). rewrite Hout, Ho, <- app_assoc.
      split; [done|]. split; [rewrite Hp in Hcount; simpl; lia|].
      constructor; [|done]. exists f, e. split; [done|by left].
Qed.

(** X3: a bucket that is processed to its end accounts for every file
    once: each file is either counted by the progress bar or reported by one
    printed failure that names it.  The failures printed and the files
    counted add up to the number of files of the bucket. *)
Theorem batch_accounts_for_every_file {G : Type} (num : Numerals)
    (img_dir ann_dir dst_dir destination : string)
    (bucket : list string) (s s' : state G) :
  for_each bucket (process_file img_dir ann_dir dst_dir destination) s = (Ok (), s') →
  ∃ failures,
    stdout s' = stdout s ++ failures ∧
    (progress s' + length failures = progress s + length bucket)%nat ∧
    Forall (λ m, ∃ f e, m = FileFailed f e ∧ f ∈ bucket) failures.
Proof. apply bucket_accounting. Qed.

(** * The two halves of a pass *)

Section PassShape.
Context {G : Type} {gen : RandomGen G} {num : Numerals}.
Variable yaml_names : list string → option (list string).
Implicit Types (s : state G).

Lemma bind_inv {A B} (m : IO G A) (k : A → IO G B) s r s' :
  bind m k s = (r, s') →
  (∃ a s1, m s = (Ok a, s1) ∧ k a s1 = (r, s')) ∨
  (∃ e, m s = (Raise e, s') ∧ r = Raise e).
Proof.
  unfold bind. destruct (m s) as [[a|e] s1]; intros Hk.
  - left. by exists a, s1.
  - right. exists e. by simplify_eq.
Qed.

(** [process_split] either stops at a configuration check with the file
    system as it found it, or runs the loop over the buckets from
    [loop_entry] and returns the table the loop leaves. *)
Lemma process_split_shape src_dir dst_dir subset nclients yaml_path is_train s r s' :
  let img_dir := path_join3 src_dir "images" subset in
  let ann_dir := path_join3 src_dir "annotations" subset in
  process_split yaml_names src_dir dst_dir subset nclients yaml_path is_train s
    = (r, s') →
  (∃ e, r = Raise e ∧ config_failure img_dir ann_dir subset e ∧
        files s' = files s ∧ dirs s' = dirs s ∧
        progress s' = progress s ∧ rng s' = rng s ∧
        stdout s' = stdout s ++ [Processing subset]) ∨
  (∃ lines names entries o,
     files s !! yaml_path = Some lines ∧ yaml_names lines = Some names ∧
     dirs s !! img_dir = Some entries ∧
     split_map (filter (λ f, endswith f ".jpg" = true) entries) nclients is_train
       (rng s) = Some o ∧
     let s1 := loop_entry subset (distribution_frame names nclients) (rng_after o) s in
     let loop := bucket_loop img_dir ann_dir dst_dir (buckets o) s1 in
     s' = loop.2 ∧
     r = match loop.1 with
         | Ok _ => Ok (dist_df loop.2)
         | Raise e => Raise e
         end).
Proof.
  intros img_dir ann_dir Hrun. unfold process_split in Hrun.
  fold img_dir ann_dir in Hrun.
  apply bind_inv in Hrun as [(u & s0 & Hp & Hrun)|(e & Hp & _)]; [|done].
  unfold print in Hp. injection Hp as _ <-.
  apply bind_inv in Hrun as [(df & s1 & Hload & Hrun)|(e & Hload & ->)].
  2:{ left. exists e. unfold try_except in Hload.
      destruct (get_distribution_dataframe _ _ _ _) as [[d|e'] s1] eqn:E; [done|].
      unfold raise in Hload. injection Hload as <- <-.
      split; [done|]. split; [by left|].
      unfold get_distribution_dataframe in E.
      apply bind_inv in E as [(u1 & s2 & Ho & E)|(e1 & Ho & _)].
      - unfold open_read in Ho. cbn [files] in Ho.
        destruct (files s !! yaml_path); [|done]. injection Ho as _ <-.
        apply bind_inv in E as [(lines & s3 & Hr & E)|(e2 & Hr & _)]; [|done].
        unfold read_lines in Hr. injection Hr as _ <-.
        destruct (yaml_names lines); [done|]. unfold raise in E. by injection E as _ <-.
      - unfold open_read in Ho. cbn [files] in Ho.
        destruct (files s !! yaml_path); [done|]. by injection Ho as _ <-. }
  unfold try_except in Hload.
  destruct (get_distribution_dataframe _ _ _ _) as [[d|e'] s1'] eqn:E; [|done].
  injection Hload as -> ->.
  apply get_distribution_dataframe_Ok in E as E'.
  unfold get_distribution_dataframe in E.
  apply bind_inv in E as [(u1 & s2 & Ho & E)|(e1 & Ho & ?)]; [|done].
  unfold open_read in Ho. cbn [files] in Ho.
  destruct (files s !! yaml_path) as [lines|] eqn:Hy; [|done]. injection Ho as _ <-.
  apply bind_inv in E as [(lines' & s3 & Hr & E)|(e2 & Hr & _)]; [|done].
  unfold read_lines in Hr. cbn [files] in Hr. rewrite Hy in Hr. cbn [default] in Hr.
  injection Hr as <- <-.
  destruct (yaml_names lines) as [names|] eqn:Hn; [|done].
  unfold ret in E. injection E as <- <-. clear E'.
  apply bind_inv in Hrun as [(u2 & s2 & Hset & Hrun)|(e & Hset & _)]; [|done].
  injection Hset as _ <-.
  apply bind_inv in Hrun as [(img_ok & s3 & Hex & Hrun)|(e & Hex & _)]; [|done].
  unfold path_exists in Hex. injection Hex as _ <-.
  destruct (negb img_ok).
  { left. unfold raise in Hrun. injection Hrun as <- <-. eexists.
    split; [done|]. split; [by right; left|done]. }
  apply bind_inv in Hrun as [(ann_ok & s4 & Hex & Hrun)|(e & Hex & _)]; [|done].
  unfold path_exists in Hex. injection Hex as _ <-.
  destruct (negb ann_ok).
  { left. unfold raise in Hrun. injection Hrun as <- <-. eexists.
    split; [done|]. split; [by right; right; left|done]. }
  apply bind_inv in Hrun as [(entries & s5 & Hls & Hrun)|(e & Hls & ->)].
  2:{ left. unfold listdir in Hls. cbn [dirs files set_df] in Hls.
      destruct (dirs s !! img_dir); [done|]. injection Hls as <- <-.
      eexists. split; [done|]. split; [|done].
      destruct (bool_decide _); [by do 3 right; left|by right; left]. }
  unfold listdir in Hls. cbn [dirs files set_df] in Hls.
  destruct (dirs s !! img_dir) as [entries'|] eqn:Hd; [|done].
  injection Hls as <- <-.
  destruct (bool_decide (filter _ entries' = [])).
  { left. unfold raise in Hrun. injection Hrun as <- <-. eexists.
    split; [done|]. split; [by do 4 right; left|done]. }
  apply bind_inv in Hrun as [(assignment & s6 & Hsplit & Hrun)|(e & Hsplit & ->)].
  2:{ left. unfold assign_files in Hsplit. cbn [rng set_df] in Hsplit.
      destruct (split_map _ _ _ _); [done|]. injection Hsplit as <- <-.
      eexists. split; [done|]. split; [by do 5 right|done]. }
  unfold assign_files in Hsplit. cbn [rng set_df files dirs stdout progress dist_df] in Hsplit.
  destruct (split_map _ nclients is_train (rng s)) as [o|] eqn:Ho; [|done].
  injection Hsplit as <- <-.
  right. exists lines, names, entries', o.
  split; [done|]. split; [done|]. split; [done|]. split; [done|].
  cbv zeta. unfold bucket_loop, loop_entry.
  apply bind_inv in Hrun as [(u3 & s7 & Hloop & Hrun)|(e & Hloop & ->)].
  - injection Hrun as <- <-. by rewrite Hloop.
  - by rewrite Hloop.
Qed.
End PassShape.

(** * The table over the loop *)

Lemma grows_in_refl (keys : list string) (df : dataframe) : grows_in keys df df.
Proof. repeat split; intros; lia || done. Qed.

Lemma grows_in_step (keys : list string) (dest : string) (df0 df df' : dataframe) :
  dest ∈ keys → grows_in keys df0 df → grows dest df df' → grows_in keys df0 df'.
Proof.
  intros Hin (Hi & Hc & Hm & Ho) (Hi' & Hc' & Hm' & Ho').
  split; [congruence|]. split; [congruence|]. split.
  - intros row col. specialize (Hm row col). specialize (Hm' row col). lia.
  - intros row col Hout. rewrite Ho'; [by apply Ho|]. intros ->. done.
Qed.

Section LoopTable.
Context {G : Type} {num : Numerals}.
Implicit Types (s : state G).

Lemma for_each_preserves_in {A} (P : dataframe → Prop) (l : list A)
    (body : A → IO G unit) :
  (∀ a, a ∈ l → preserves P (body a)) → preserves P (for_each l body).
Proof.
  induction l as [|a l IH]; intros Hb; simpl.
  - by intros s Hs.
  - apply bind_preserves; [apply Hb; by left|].
    intros _. apply IH. intros b Hin. apply Hb. by right.
Qed.

Lemma process_file_preserves_lines (P : dataframe → Prop)
    img_dir ann_dir dst_dir destination img_file :
  (∀ label_dst line, preserves P (process_line (G := G) destination label_dst line)) →
  preserves P (process_file (G := G) img_dir ann_dir dst_dir destination img_file).
Proof.
  intros Hline. unfold process_file.
  apply bind_preserves; [apply keeps_preserves, keeps_makedirs|intros _].
  apply bind_preserves; [apply keeps_preserves, keeps_makedirs|intros _].
  apply try_except_preserves; [|by intros e s Hs].
  apply bind_preserves; [apply keeps_preserves, keeps_copy|intros _].
  apply bind_preserves; [apply keeps_preserves, keeps_open_read|intros _].
  apply bind_preserves; [apply keeps_preserves, keeps_open_write|intros _].
  apply bind_preserves; [by intros s Hs|intros lines].
  apply bind_preserves; [|by intros _ s Hs].
  apply for_each_preserves. intros line. apply Hline.
Qed.

(** The loop counts up cells of the columns of its buckets and nothing else
    of the table. *)
Lemma bucket_loop_grows img_dir ann_dir dst_dir
    (assignment : list (string * list string)) s :
  grows_in assignment.*1 (dist_df s)
    (dist_df (bucket_loop img_dir ann_dir dst_dir assignment s).2).
Proof.
  assert (Hp : preserves (G := G) (grows_in assignment.*1 (dist_df s))
                 (bucket_loop img_dir ann_dir dst_dir assignment)).
  { unfold bucket_loop. apply for_each_preserves_in.
    intros [destination files] Hin.
    assert (Hkey : destination ∈ assignment.*1).
    { apply list_elem_of_fmap. by exists (destination, files). }
    apply for_each_preserves. intros img_file.
    apply process_file_preserves_lines. intros label_dst line s1 Hs1.
    eapply grows_in_step; [exact Hkey|exact Hs1|].
    apply process_line_grows. }
  apply Hp, grows_in_refl.
Qed.
End LoopTable.

Lemma client_key_not_server (i : nat) : client_key i ≠ "server".
Proof.
  unfold client_key.
  change ("client" +:+ pretty (i + 1)%nat)
    with (String "c" ("lient" +:+ pretty (i + 1)%nat)).
  discriminate.
Qed.

Lemma split_map_keys {G : Type} {gen : RandomGen G}
    (img_files : list string) (nclients : Z) (is_train : bool) (g : G)
    (o : split_outcome G) :
  split_map img_files nclients is_train g = Some o →
  (buckets o).*1 =
    if is_train then map client_key (client_range nclients) else ["server"].
Proof.
  unfold split_map, split_files. destruct is_train.
  - destruct (shuffle img_files (seed 42)) as [[files' g']|]; [|done].
    intros [= <-]. cbn [buckets]. generalize (client_range nclients).
    intros l. induction l as [|a l IH]; simpl; [done|by f_equal].
  - by intros [= <-].
Qed.

(** X4: the table a pass returns.  It has the row ["Samples"] and
    the class names of the YAML list as rows and ["server"], ["client1"], ...
    as columns, and no cell is negative.  A training pass leaves the
    ["server"] column at zero, and a validation pass leaves every client
    column at zero: the two tables of a run never count in the same column. *)
Theorem pass_counts_in_its_own_columns {G : Type} (gen : RandomGen G)
    (num : Numerals) (yaml_names : list string → option (list string))
    (src_dir dst_dir subset : string) (nclients : Z) (yaml_path : string)
    (is_train : bool) (s s' : state G) (df : dataframe) :
  process_split yaml_names src_dir dst_dir subset nclients yaml_path is_train s
    = (Ok df, s') →
  ∃ lines names,
    files s !! yaml_path = Some lines ∧ yaml_names lines = Some names ∧
    index df = "Samples" :: names ∧
    columns df = columns (distribution_frame names nclients) ∧
    (∀ row col, 0 ≤ cell df row col) ∧
    (is_train = true → ∀ row, cell df row "server" = 0) ∧
    (is_train = false → ∀ row col, col ≠ "server" → cell df row col = 0).
Proof.
  intros Hrun.
  apply process_split_shape in Hrun
    as [(e & ? & _)|(lines & names & entries & o & Hy & Hn & _ & Ho & Hloop)]; [done|].
  cbv zeta in Hloop. destruct Hloop as [_ Hr].
  set (s1 := loop_entry subset (distribution_frame names nclients) (rng_after o) s) in *.
  pose proof (bucket_loop_grows (path_join3 src_dir "images" subset)
                (path_join3 src_dir "annotations" subset) dst_dir (buckets o) s1)
    as (Hi & Hc & Hm & Hout).
  destruct (bucket_loop _ _ _ _ s1) as [[u|e] s2]; [|done].
  cbn [fst snd] in *. injection Hr as ->.
  exists lines, names. split; [done|]. split; [done|].
  split; [by rewrite Hi|]. split; [by rewrite Hc|].
  assert (Hzero : ∀ row col, cell (dist_df s1) row col = 0).
  { intros. apply distribution_frame_cell. }
  split; [|split].
  - intros row col. specialize (Hm row col). rewrite Hzero in Hm. done.
  - intros -> row. rewrite Hout; [done|].
    rewrite (split_map_keys _ _ _ _ _ Ho).
    intros (i & Hi' & _)%list_elem_of_fmap. symmetry in Hi'.
    by apply client_key_not_server in Hi'.
  - intros -> row col Hcol. rewrite Hout; [done|].
    rewrite (split_map_keys _ _ _ _ _ Ho). by intros ->%list_elem_of_singleton.
Qed.

Lemma example_pass_returns : example_pass = (Ok example_table, example_pass.2).
Proof.
  transitivity (example_pass.1, example_pass.2); [by destruct example_pass|].
  f_equal; vm_compute; reflexivity.
Qed.

Lemma pass_counts_in_its_own_columns_witness :
  cell example_table "car" "server" = 0.
Proof.
  destruct (pass_counts_in_its_own_columns MT19937.mt_gen Numeral.ascii_numerals
              (λ _, Some visdrone_names) "src" "dst" "train" 2 "data/VisDrone.yaml"
              true example_state example_pass.2 example_table example_pass_returns)
    as (lines & names & _ & _ & _ & _ & _ & Hserver & _).
  by apply Hserver.
Defined.

(** * How a pass fails *)

Section LoopFailure.
Context {G : Type} {num : Numerals}.
Implicit Types (s : state G).

(** The loop raises only for a bucket directory that is a regular file. *)
Lemma bucket_loop_raises img_dir ann_dir dst_dir
    (assignment : list (string * list string)) s e s' :
  bucket_loop img_dir ann_dir dst_dir assignment s = (Raise e, s') →
  bucket_dir_taken dst_dir assignment s' e.
Proof.
  intros Hrun.
  assert (H : hoare (λ _ : state G, True)
                (bucket_loop img_dir ann_dir dst_dir assignment)
                (λ r s1, match r with
                         | Ok _ => True
                         | Raise e =>
                             (λ e s2, bucket_dir_taken dst_dir assignment s2 e) e s1
                         end)).
  { unfold bucket_loop. apply hoare_for_each. intros [destination files] Hin.
    apply hoare_for_each. intros img_file Hf s1 _.
    pose proof (process_file_outcome img_dir ann_dir dst_dir destination img_file s1)
      as Ho.
    destruct (process_file _ _ _ _ _ s1) as [[u|e1] s2]; [done|].
    cbn [fst snd file_outcome] in *.
    exists destination, files, img_file. split; [done|]. split; [done|].
    destruct Ho as [[Href|Href] [Hfiles _]]; [left|right];
      by apply (makedirs_refused_files s1 s2). }
  specialize (H s I). rewrite Hrun in H. exact H.
Qed.
End LoopFailure.

(** X5: how a pass fails.  When [process_split] raises, either one of its
    checks before the loop failed (the YAML file, the image directory, the
    annotation directory, an image directory without [.jpg] files, the split)
    and nothing but the announcement of the subset has happened: no file, no
    directory, no count has changed; or [os.makedirs] refused the image or
    the label directory of a file of a bucket of the split of this pass: the
    directory is a regular file (FileExistsError) or lies under one
    (NotADirectoryError), in the files as the pass leaves them.  No failure
    inside a file ever ends the pass. *)
Theorem pass_fails_early_or_on_bucket_dir {G : Type} (gen : RandomGen G)
    (num : Numerals) (yaml_names : list string → option (list string))
    (src_dir dst_dir subset : string) (nclients : Z) (yaml_path : string)
    (is_train : bool) (s s' : state G) (e : exn) :
  process_split yaml_names src_dir dst_dir subset nclients yaml_path is_train s
    = (Raise e, s') →
  (config_failure (path_join3 src_dir "images" subset)
     (path_join3 src_dir "annotations" subset) subset e ∧
   files s' = files s ∧ dirs s' = dirs s ∧ progress s' = progress s ∧
   rng s' = rng s ∧ stdout s' = stdout s ++ [Processing subset]) ∨
  (∃ entries o,
     dirs s !! path_join3 src_dir "images" subset = Some entries ∧
     split_map (filter (λ f, endswith f ".jpg" = true) entries) nclients is_train
       (rng s) = Some o ∧
     bucket_dir_taken dst_dir (buckets o) s' e).
Proof.
  intros Hrun.
  apply process_split_shape in Hrun
    as [(e' & [= <-] & Hc & Hrest)
       |(lines & names & entries & o & _ & _ & Hent & Ho & Hloop)].
  - left. by split.
  - right. cbv zeta in Hloop. destruct Hloop as [-> Hr]. exists entries, o.
    split; [done|]. split; [done|].
    destruct (bucket_loop _ _ _ _ _) as [[u|e1] s2] eqn:E; [done|].
    cbn [fst snd] in *. injection Hr as ->. by eapply bucket_loop_raises.
Qed.

Lemma pass_fails_early_or_on_bucket_dir_witness :
  let run := process_split (gen := MT19937.mt_gen) (num := Numeral.ascii_numerals)
               (λ _, Some visdrone_names) "src" "dst" "train" 2 "data/VisDrone.yaml"
               true blocked_state in
  ∃ entries o,
    dirs blocked_state !! path_join3 "src" "images" "train" = Some entries ∧
    split_map (filter (λ f, endswith f ".jpg" = true) entries) 2 true
      (rng blocked_state) = Some o ∧
    bucket_dir_taken "dst" (buckets o) run.2 (NotADirectoryError "dst/client1/images").
Proof.
  intros run.
  assert (Hrun : run = (Raise (NotADirectoryError "dst/client1/images"), run.2)).
  { transitivity (run.1, run.2); [by destruct run|].
    f_equal; vm_compute; reflexivity. }
  destruct (pass_fails_early_or_on_bucket_dir MT19937.mt_gen Numeral.ascii_numerals
              (λ _, Some visdrone_names) "src" "dst" "train" 2 "data/VisDrone.yaml"
              true blocked_state run.2 (NotADirectoryError "dst/client1/images") Hrun)
    as [(Hc & _)|Hloop].
  - destruct Hc as [Hc|[Hc|[Hc|[Hc|[Hc|Hc]]]]]; discriminate Hc.
  - exact Hloop.
Defined.

(** * Files that are skipped *)

Section SkippedFiles.
Context {G : Type} {num : Numerals}.
Implicit Types (s : state G).

Lemma copy_raises src dst s e s' :
  copy src dst s = (Raise e, s') → io_error e.
Proof.
  unfold copy. destruct (files s !! src).
  - destruct (bool_decide _); [|done]. by intros [= <- _].
  - destruct (bool_decide _); by intros [= <- _].
Qed.

Lemma open_read_raises p s e s' :
  open_read p s = (Raise e, s') → io_error e.
Proof.
  unfold open_read. destruct (files s !! p); [done|].
  destruct (bool_decide _); by intros [= <- _].
Qed.

Lemma open_write_raises p s e s' :
  open_write p s = (Raise e, s') → io_error e.
Proof.
  unfold open_write. destruct (bool_decide _); [|done]. by intros [= <- _].
Qed.

(** On a ready table the lines of a file are all processed, and the table
    stays ready. *)
Lemma lines_keep_ready (keys : list string) destination label_dst
    (lines : list string) s :
  destination ∈ keys →
  table_ready keys (dist_df s) →
  (for_each lines (process_line destination label_dst) s).1 = Ok () ∧
  table_ready keys (dist_df (for_each lines (process_line destination label_dst) s).2).
Proof.
  intros Hkey. revert s. induction lines as [|line rest IH]; intros s Hready.
  { done. }
  cbn [for_each]. unfold bind.
  destruct Hready as (Hws & Hlen & Hcols).
  destruct (line_class line) as [cls_id|] eqn:Hc.
  - destruct (line_class_Some _ _ Hc) as (_ & _ & _ & _ & _ & _ & _ & Hrange).
    assert (Hlt : (Z.to_nat cls_id < length (index (dist_df s)))%nat) by lia.
    destruct (lookup_lt_is_Some_2 _ _ Hlt) as [name Hname].
    destruct (process_line_counts destination label_dst line s cls_id name
                Hws Hc Hname (Hcols _ Hkey)) as (s1 & -> & Hi & Hco & Hws1 & _).
    apply IH. split; [done|]. split; [by rewrite Hi|]. by rewrite Hco.
  - rewrite (line_class_None _ _ _ _ Hc). by apply IH.
Qed.
End SkippedFiles.

Section ReadyLoop.
Context {G : Type} {num : Numerals}.
Implicit Types (s : state G).

Lemma ready_file (keys : list string) (out0 : list message)
    img_dir ann_dir dst_dir destination img_file :
  destination ∈ keys →
  hoare (λ s, table_ready keys (dist_df s) ∧ io_failures_since out0 s)
    (process_file (G := G) img_dir ann_dir dst_dir destination img_file)
    (λ _ s, table_ready keys (dist_df s) ∧ io_failures_since out0 s).
Proof.
  intros Hkey.
  set (I := λ s : state G, table_ready keys (dist_df s) ∧ io_failures_since out0 s).
  assert (HI : ∀ s1 s2 : state G,
            stdout s2 = stdout s1 → dist_df s2 = dist_df s1 → I s1 → I s2).
  { intros s1 s2 Ho Hd [Ht Hl]. split; [by rewrite Hd|].
    destruct Hl as (fs & Hfs & Hall). exists fs. by rewrite Ho. }
  assert (Hcalm : ∀ A (m : IO G A), calm m → hoare I m (λ _ s, I s)).
  { intros A m Hc s Hs. destruct (Hc s) as (Ho & _ & Hd & _). by eapply HI. }
  assert (Hio : ∀ A (m : IO G A),
            calm m → (∀ s e s', m s = (Raise e, s') → io_error e) →
            hoare I m (λ r s, match r with
                              | Ok _ => I s
                              | Raise e => I s ∧ io_error e
                              end)).
  { intros A m Hc Hr s Hs. pose proof (Hcalm A m Hc s Hs) as H.
    destruct (m s) as [[a|e] s1] eqn:E; cbn [fst snd] in *; [done|].
    split; [done|]. by eapply Hr. }
  set (Q := λ (r : result ()) (s : state G),
         match r with Ok _ => I s | Raise e => I s ∧ io_error e end).
  assert (Hbody : hoare I
    (bind (copy (path_join img_dir img_file)
             (path_join4 dst_dir destination "images" img_file)) (λ _,
     bind (open_read (path_join ann_dir (replace ".jpg" ".txt" img_file))) (λ _,
     bind (open_write (path_join4 dst_dir destination "labels"
                         (replace ".jpg" ".txt" img_file))) (λ _,
     bind (read_lines (path_join ann_dir (replace ".jpg" ".txt" img_file))) (λ lines,
     bind (for_each lines
             (process_line destination
                (path_join4 dst_dir destination "labels"
                   (replace ".jpg" ".txt" img_file)))) (λ _,
     pbar_update)))))) Q).
  { eapply hoare_bind with (R := λ _, I);
      [apply Hio; [apply calm_copy|apply copy_raises]|intros _].
    eapply hoare_bind with (R := λ _, I);
      [apply Hio; [apply calm_open_read|apply open_read_raises]|intros _].
    eapply hoare_bind with (R := λ _, I);
      [apply Hio; [apply calm_open_write|apply open_write_raises]|intros _].
    eapply hoare_bind with (R := λ _, I);
      [apply Hio; [apply calm_read_lines|done]|intros lines].
    eapply hoare_bind with (R := λ _, I).
    - intros s [Ht Hl].
      destruct (lines_keep_ready keys destination
                  (path_join4 dst_dir destination "labels"
                     (replace ".jpg" ".txt" img_file)) lines s Hkey Ht) as [Hok Ht'].
      pose proof (lines_quiet destination
                    (path_join4 dst_dir destination "labels"
                       (replace ".jpg" ".txt" img_file)) lines
                    (io_failures_since (G := G) out0)) as Hq.
      rewrite Hok. split; [done|]. apply Hq; [|done].
      intros s1 s2 Ho _ (fs & Hfs & Hall). exists fs. by rewrite Ho.
    - intros _ s Hs. cbn. by eapply HI. }
  unfold process_file.
  eapply hoare_bind with (R := λ _, I).
  { intros s Hs.
    match goal with
    | |- context [makedirs ?p s] =>
        pose proof (Hcalm _ _ (calm_makedirs p) s Hs) as H
    end.
    destruct (makedirs _ s).1; exact H. }
  intros _. eapply hoare_bind with (R := λ _, I).
  { intros s Hs.
    match goal with
    | |- context [makedirs ?p s] =>
        pose proof (Hcalm _ _ (calm_makedirs p) s Hs) as H
    end.
    destruct (makedirs _ s).1; exact H. }
  intros _. eapply hoare_try with (R := λ e s, I s ∧ io_error e).
  - intros s Hs. specialize (Hbody s Hs). unfold Q in Hbody.
    destruct (bind _ _ s).1; exact Hbody.
  - intros e s [[Ht (fs & Hfs & Hall)] He]. cbn. split; [done|].
    exists (fs ++ [FileFailed img_file e]). rewrite Hfs, app_assoc. split; [done|].
    apply Forall_app. split; [done|]. constructor; [|done]. by exists img_file, e.
Qed.

Lemma ready_loop (out0 : list message) img_dir ann_dir dst_dir
    (assignment : list (string * list string)) s :
  table_ready assignment.*1 (dist_df s) →
  io_failures_since out0 s →
  io_failures_since out0 (bucket_loop img_dir ann_dir dst_dir assignment s).2.
Proof.
  intros Ht Hl.
  set (I := λ s : state G,
         table_ready assignment.*1 (dist_df s) ∧ io_failures_since out0 s).
  assert (H : hoare I (bucket_loop img_dir ann_dir dst_dir assignment)
                (λ r s, match r with Ok _ => I s | Raise e => (λ _, I) e s end)).
  { unfold bucket_loop. apply hoare_for_each. intros [destination files] Hin.
    assert (Hkey : destination ∈ assignment.*1).
    { apply list_elem_of_fmap. by exists (destination, files). }
    apply hoare_for_each. intros img_file _ s1 Hs1.
    pose proof (ready_file assignment.*1 out0 img_dir ann_dir dst_dir destination
                  img_file Hkey s1 Hs1) as H.
    destruct (process_file _ _ _ _ _ s1).1; exact H. }
  specialize (H s (conj Ht Hl)).
  destruct (bucket_loop _ _ _ _ s).1; apply H.
Qed.
End ReadyLoop.

(** Every bucket of a split map has its column in the table made for the
    same client count. *)
Lemma split_map_keys_are_columns {G : Type} {gen : RandomGen G}
    (img_files names : list string) (nclients : Z) (is_train : bool) (g : G)
    (o : split_outcome G) :
  split_map img_files nclients is_train g = Some o →
  ∀ key, key ∈ (buckets o).*1 → key ∈ columns (distribution_frame names nclients).
Proof.
  intros Ho key. rewrite (split_map_keys _ _ _ _ _ Ho).
  unfold distribution_frame. cbn [columns]. destruct is_train.
  - intros (i & -> & Hi)%list_elem_of_fmap. right.
    apply list_elem_of_fmap. exists (i + 1)%nat. split; [done|].
    apply list_elem_of_In, in_seq. apply list_elem_of_In, in_seq in Hi. lia.
  - intros ->%list_elem_of_singleton. by left.
Qed.

Lemma io_error_not_table_error (e : exn) : io_error e → ¬ table_error e.
Proof. destruct e; intros Hio [Ht|(r & c & Ht)]; done. Qed.

(** X6: with a class list of at least ten distinct names, no update of the
    table ever fails.  Whatever a pass prints after the announcement of the
    subset is a failure of a file, and none of these failures carries an
    IndexError or a KeyError, the exceptions of the table updates: the table
    has a row for each of the ten classes, and the buckets of the split and
    the columns of the table are named alike. *)
Theorem table_updates_never_fail {G : Type} (gen : RandomGen G)
    (num : Numerals) (yaml_names : list string → option (list string))
    (src_dir dst_dir subset : string) (nclients : Z) (yaml_path : string)
    (is_train : bool) (s : state G) :
  (∀ lines names, yaml_names lines = Some names →
                  NoDup ("Samples" :: names) ∧ (10 ≤ length names)%nat) →
  let run := process_split yaml_names src_dir dst_dir subset nclients yaml_path
               is_train s in
  ∃ failures,
    stdout run.2 = stdout s ++ Processing subset :: failures ∧
    Forall (λ m, ∃ f e, m = FileFailed f e ∧ ¬ table_error e) failures.
Proof.
  intros Hnames run.
  destruct run as [r s'] eqn:Hrun. unfold run in Hrun. cbn [snd].
  apply process_split_shape in Hrun
    as [(e & _ & _ & _ & _ & _ & _ & Hout)
       |(lines & names & entries & o & _ & Hn & _ & Ho & Hloop)].
  - exists []. by rewrite Hout.
  - cbv zeta in Hloop. destruct Hloop as [-> _].
    destruct (Hnames _ _ Hn) as [Hd Hlen].
    set (s1 := loop_entry subset (distribution_frame names nclients) (rng_after o) s).
    destruct (ready_loop (stdout s1) (path_join3 src_dir "images" subset)
                (path_join3 src_dir "annotations" subset) dst_dir (buckets o) s1)
      as (failures & Hout & Hall).
    + split; [by apply distribution_frame_well_shaped|]. split.
      * cbn. lia.
      * by eapply split_map_keys_are_columns.
    + exists []. by rewrite app_nil_r.
    + exists failures. rewrite Hout. cbn [s1 loop_entry stdout].
      split; [by rewrite <- app_assoc|].
      eapply Forall_impl; [exact Hall|]. intros m (f & e & -> & He).
      exists f, e. split; [done|]. by apply io_error_not_table_error.
Qed.

Lemma visdrone_names_ready :
  ∀ lines names : list string,
    (λ _ : list string, Some visdrone_names) lines = Some names →
    NoDup ("Samples" :: names) ∧ (10 ≤ length names)%nat.
Proof.
  intros lines names [= <-]. split; [apply visdrone_labels_distinct|].
  simpl. lia.
Qed.

Lemma table_updates_never_fail_witness :
  ∃ failures,
    stdout example_pass.2 = stdout example_state ++ Processing "train" :: failures ∧
    Forall (λ m, ∃ f e, m = FileFailed f e ∧ ¬ table_error e) failures.
Proof.
  exact (table_updates_never_fail MT19937.mt_gen Numeral.ascii_numerals
           (λ _, Some visdrone_names) "src" "dst" "train" 2 "data/VisDrone.yaml"
           true example_state visdrone_names_ready).
Defined.

Lemma batch_accounts_for_every_file_witness :
  let run :=
    for_each ["a.jpg"; "b.jpg"]
      (process_file (num := Numeral.ascii_numerals)
         "src/images/train" "src/annotations/train" "dst" "client1")
      example_state in
  ∃ failures,
    stdout run.2 = stdout example_state ++ failures ∧
    (progress run.2 + length failures = progress example_state + 2)%nat.
Proof.
  intros run.
  assert (Hrun : run = (Ok (), run.2)).
  { transitivity (run.1, run.2); [by destruct run|].
    f_equal; vm_compute; reflexivity. }
  destruct (batch_accounts_for_every_file Numeral.ascii_numerals
              "src/images/train" "src/annotations/train" "dst" "client1"
              ["a.jpg"; "b.jpg"] example_state run.2 Hrun)
    as (failures & Hout & Hcount & _).
  exists failures. split; [exact Hout|exact Hcount].
Defined.

(** * A class list that is too short *)

(** X7: a surviving line whose class id has no row in the table (a class
    list of fewer names than the id) is written to the label file before the
    table is asked for the row: the update raises IndexError with the label
    line in place and the table untouched, and the rest of the annotation
    file is not read. *)
Theorem class_without_row_is_written_not_counted {G : Type} (num : Numerals)
    (destination label_dst line : string) (rest : list string)
    (cls_id : Z) (s : state G) :
  line_class line = Some cls_id →
  index (dist_df s) !! Z.to_nat cls_id = None →
  ∃ out s',
    render_line line = Some out ∧
    for_each (line :: rest) (process_line destination label_dst) s
      = (Raise IndexError, s') ∧
    files s' = <[label_dst := default [] (files s !! label_dst) ++ [out]]> (files s) ∧
    dist_df s' = dist_df s ∧ same_outside s s'.
Proof.
  intros Hc Hmiss.
  destruct (line_class_Some _ _ Hc) as (x & y & w & h & st & E & Ef & Hrange).
  pose proof (process_line_files destination label_dst line s) as Hfiles.
  pose proof (process_line_grows destination label_dst line s) as [_ Hout].
  assert (Hrun : ∃ s', process_line destination label_dst line s = (Raise IndexError, s')
                       ∧ dist_df s' = dist_df s).
  { rewrite (process_line_parsed _ _ _ _ _ _ _ _ _ _ E), Ef.
    unfold convert_bbox. cbv beta iota zeta.
    unfold bind at 1. unfold write at 1. cbv beta iota.
    unfold bind at 1. unfold index_at at 1. cbn [dist_df set_files]. cbv zeta.
    assert (Hpos : (0 <=? cls_id) = true) by lia.
    rewrite Hpos. cbv beta iota. rewrite Hpos, Hmiss. by eexists. }
  destruct Hrun as (s' & Hrun & Hdf).
  assert (Hr : is_Some (render_line line)).
  { apply render_line_survives. rewrite survives_line_class, Hc.
    by apply bool_decide_eq_true_2. }
  destruct Hr as [out Hr]. exists out, s'. split; [done|].
  rewrite Hrun in Hfiles, Hout. cbn [snd] in *. rewrite Hr in Hfiles.
  split; [|done]. cbn [for_each]. unfold bind. by rewrite Hrun.
Qed.

Lemma class_without_row_is_written_not_counted_witness :
  ∃ out s',
    render_line (num := Numeral.ascii_numerals) "100,200,300,150,1,4,1,0" = Some out ∧
    for_each ["100,200,300,150,1,4,1,0"; "10,20,30,40,1,1,2,0"]
      (process_line (num := Numeral.ascii_numerals) "client1" "dst/client1/labels/a.txt")
      short_list_state = (Raise IndexError, s') ∧
    dist_df s' = dist_df short_list_state.
Proof.
  destruct (class_without_row_is_written_not_counted Numeral.ascii_numerals
              "client1" "dst/client1/labels/a.txt" "100,200,300,150,1,4,1,0"
              ["10,20,30,40,1,1,2,0"] 4 short_list_state)
    as (out & s' & Hr & Hrun & _ & Hdf & _).
  - vm_compute. reflexivity.
  - vm_compute. reflexivity.
  - exists out, s'. split; [exact Hr|]. split; [exact Hrun|exact Hdf].
Defined.

(** * Round robin *)

Lemma slice_step_lookup {A} (n c j : nat) (l : list A) :
  (c < n)%nat → slice_step c n l !! j = l !! (c + j * n)%nat.
Proof.
  intros Hc. destruct n as [|m]; [lia|].
  revert c j Hc. induction l as [|x t IH]; intros c j Hc.
  { by rewrite !lookup_nil. }
  destruct c as [|c].
  - rewrite slice_step_zero. destruct j as [|j]; [done|].
    change ((x :: slice_step m (S m) t) !! S j) with (slice_step m (S m) t !! j).
    rewrite (IH m j) by lia.
    replace (0 + S j * S m)%nat with (S (m + j * S m)) by lia. done.
  - change (slice_step (S c) (S m) (x :: t)) with (slice_step c (S m) t).
    rewrite (IH c j) by lia. done.
Qed.

(** X8: the split is a round robin over the shuffled list.  With a generator
    that keeps its contract and at least one client, [split_files] returns,
    and the file at position [p] of the list as the call leaves it is in the
    bucket of client [(p mod N) + 1], at position [p div N] of that bucket;
    so every bucket keeps the order of the shuffled list. *)
Theorem split_is_round_robin {G : Type} (gen : RandomGen G)
    (files : list string) (nclients : Z) (g : G) :
  randbelow_in_range gen →
  1 ≤ nclients →
  let n := Z.to_nat nclients in
  ∃ o, split_files files nclients g = Some o ∧
       ∀ (p : nat) (f : string), files_after o !! p = Some f →
         ∃ bucket,
           buckets o !! (p mod n)%nat = Some (client_key (p mod n), bucket) ∧
           bucket !! (p / n)%nat = Some f.
Proof.
  intros Hr Hn n.
  destruct (split_files_total Hr files nclients g) as (o & Ho & _).
  exists o. split; [done|]. intros p f Hp.
  unfold split_files in Ho.
  destruct (shuffle files (seed 42)) as [[files' g']|]; [|done].
  injection Ho as <-. cbn [buckets files_after] in *.
  assert (Hpos : (0 < n)%nat) by (unfold n; lia).
  assert (Hmod : (p mod n < n)%nat) by (apply Nat.mod_upper_bound; lia).
  exists (slice_step (p mod n) n files'). split.
  - unfold client_range. fold n.
    change (map ?h ?l) with (h <$> l).
    rewrite list_lookup_fmap, lookup_seq_lt by done. done.
  - rewrite slice_step_lookup by done.
    replace (p mod n + p / n * n)%nat with p; [done|].
    pose proof (Nat.div_mod_eq p n). lia.
Qed.

Lemma split_is_round_robin_witness :
  ∃ o, split_files (gen := MT19937.mt_gen) ["a.jpg"; "b.jpg"; "c.jpg"] 2 (seed 0) = Some o ∧
       ∀ f, files_after o !! 2%nat = Some f →
         ∃ bucket, buckets o !! 0%nat = Some ("client1", bucket) ∧
                   bucket !! 1%nat = Some f.
Proof.
  destruct (split_is_round_robin MT19937.mt_gen ["a.jpg"; "b.jpg"; "c.jpg"] 2 (seed 0)
              mt_randbelow_in_range ltac:(lia)) as (o & Ho & Hp).
  exists o. split; [exact Ho|]. intros f Hf. exact (Hp 2%nat f Hf).
Defined.

(** * The directory tree *)

Section Loops.
Context {G : Type}.

Lemma for_each_ext {A} (l : list A) (body body' : A → IO G unit) s :
  (∀ x s, body x s = body' x s) → for_each l body s = for_each l body' s.
Proof.
  intros Hb. revert s. induction l as [|x t IH]; intros s; [done|].
  cbn [for_each]. unfold bind. rewrite Hb. by destruct (body' x s) as [[[]|e] s1].
Qed.

Lemma for_each_app {A} (l1 l2 : list A) (body : A → IO G unit) s :
  for_each (l1 ++ l2) body s = bind (for_each l1 body) (λ _, for_each l2 body) s.
Proof.
  revert s. induction l1 as [|x t IH]; intros s; [done|].
  cbn [app for_each]. unfold bind at 1 2 3.
  destruct (body x s) as [[[]|e] s1]; [|done]. rewrite IH. done.
Qed.

Lemma for_each_map {A B} (f : A → B) (l : list A) (body : B → IO G unit) s :
  for_each (map f l) body s = for_each l (λ x, body (f x)) s.
Proof.
  revert s. induction l as [|x t IH]; intros s; [done|].
  cbn [map for_each]. unfold bind. by destruct (body (f x) s) as [[[]|e] s1].
Qed.

Lemma for_each_join {A B} (h : A → list B) (l : list A) (body : B → IO G unit) s :
  for_each (mjoin (map h l)) body s = for_each l (λ k, for_each (h k) body) s.
Proof.
  revert s. induction l as [|x t IH]; intros s; [done|].
  cbn [map for_each]. change (mjoin (h x :: map h t)) with (h x ++ mjoin (map h t)).
  rewrite for_each_app. unfold bind.
  by destruct (for_each (h x) body s) as [[[]|e] s1].
Qed.
End Loops.

Section TreeFacts.
Context {G : Type}.
Variable os_error : string → state G → option exn.

Lemma only_new_dirs_refl (s : state G) : only_new_dirs s s.
Proof. by repeat split. Qed.

Lemma only_new_dirs_trans (s1 s2 s3 : state G) :
  only_new_dirs s1 s2 → only_new_dirs s2 s3 → only_new_dirs s1 s3.
Proof.
  intros (?&?&?&?&?&H12) (?&?&?&?&?&H23).
  repeat split; try congruence. intros q Hq. by apply H23, H12.
Qed.

Lemma create_directories_flat target_path nclients (s : state G) :
  create_directories os_error target_path nclients s
  = for_each (bucket_dirs target_path nclients) (ensure_dir os_error) s.
Proof.
  unfold create_directories, bucket_dirs. cbn [for_each]. unfold bind at 1 3.
  destruct (ensure_dir os_error target_path s) as [[[]|e] s1]; [|done].
  rewrite for_each_app. unfold bind. rewrite for_each_map.
  destruct (for_each subdicts _ s1) as [[[]|e] s2]; [|done].
  rewrite for_each_join. apply for_each_ext. intros k s3.
  by rewrite for_each_map.
Qed.

Lemma elem_of_bucket_dirs target_path nclients p :
  p ∈ bucket_dirs target_path nclients ↔
  p = target_path ∨
  ∃ subdict, subdict ∈ subdicts ∧
    (p = target_path +:+ "/server" +:+ subdict ∨
     ∃ k : nat, (1 ≤ k)%nat ∧ Z.of_nat k ≤ nclients ∧
                p = target_path +:+ "/client" +:+ pretty k +:+ subdict).
Proof.
  unfold bucket_dirs. rewrite elem_of_cons, elem_of_app.
  change (map ?h ?l) with (h <$> l). rewrite list_elem_of_fmap, list_elem_of_join.
  split.
  - intros [->|[(sd & -> & Hsd)|(l & Hp & Hl)]]; [by left| |].
    + right. exists sd. split; [done|by left].
    + apply list_elem_of_fmap in Hl as (k & -> & Hk).
      apply list_elem_of_fmap in Hp as (sd & -> & Hsd).
      apply elem_of_seq in Hk. right. exists sd. split; [done|].
      right. exists k. split; [lia|]. split; [lia|done].
  - intros [->|(sd & Hsd & [->|(k & Hk1 & Hk2 & ->)])]; [by left| |].
    + right. left. by exists sd.
    + right. right. eexists. split; [|apply list_elem_of_fmap; exists k; split; [done|]].
      * apply list_elem_of_fmap. by exists sd.
      * apply elem_of_seq. lia.
Qed.

Lemma ensure_dir_eq p (s : state G) :
  ensure_dir os_error p s
  = if bool_decide (is_Some (files s !! p)) || bool_decide (is_Some (dirs s !! p))
    then (Ok (), s)
    else match os_error p s with
         | Some e => (Raise e, s)
         | None => (Ok (), set_dirs (<[p := []]> (dirs s)) s)
         end.
Proof.
  unfold ensure_dir, bind, path_exists, makedirs_new, ret. cbv beta iota.
  destruct (bool_decide (is_Some (files s !! p)) || bool_decide (is_Some (dirs s !! p)))
    eqn:Hb; [done|].
  cbv beta. by rewrite Hb.
Qed.

Lemma present_decide p (s : state G) :
  bool_decide (is_Some (files s !! p)) || bool_decide (is_Some (dirs s !! p)) = true
  ↔ present s p.
Proof.
  unfold present. rewrite orb_true_iff, !bool_decide_eq_true. done.
Qed.

Lemma ensure_dir_spec p (s : state G) :
  only_new_dirs s (ensure_dir os_error p s).2 ∧
  match (ensure_dir os_error p s).1 with
  | Ok _ => present (ensure_dir os_error p s).2 p
  | Raise e => ¬ present s p ∧ os_error p s = Some e ∧ (ensure_dir os_error p s).2 = s
  end.
Proof.
  rewrite ensure_dir_eq. pose proof (present_decide p s) as Hdec.
  destruct (bool_decide (is_Some (files s !! p)) || bool_decide (is_Some (dirs s !! p))).
  { cbn. split; [apply only_new_dirs_refl|]. by apply Hdec. }
  assert (Hp : ¬ present s p) by (intros Hp; apply Hdec in Hp; done).
  destruct (os_error p s) as [e|]; cbn [fst snd].
  { split; [apply only_new_dirs_refl|done]. }
  split.
  - repeat split; try done. intros q [Hq|Hq]; [by left|right]. cbn.
    destruct (decide (p = q)) as [->|Hne].
    + rewrite lookup_insert_eq. by eexists.
    + by rewrite lookup_insert_ne.
  - right. cbn. rewrite lookup_insert_eq. by eexists.
Qed.

Lemma ensure_all_spec (ps : list string) (s : state G) :
  only_new_dirs s (for_each ps (ensure_dir os_error) s).2 ∧
  match (for_each ps (ensure_dir os_error) s).1 with
  | Ok _ => ∀ p, p ∈ ps → present (for_each ps (ensure_dir os_error) s).2 p
  | Raise e =>
      ∃ p, p ∈ ps ∧ ¬ present (for_each ps (ensure_dir os_error) s).2 p ∧
           os_error p (for_each ps (ensure_dir os_error) s).2 = Some e
  end.
Proof.
  revert s. induction ps as [|p t IH]; intros s.
  { cbn. split; [apply only_new_dirs_refl|]. intros p Hp. by apply elem_of_nil in Hp. }
  cbn [for_each]. unfold bind.
  pose proof (ensure_dir_spec p s) as [Hstep Hres].
  destruct (ensure_dir os_error p s) as [[[]|e] s1]; cbn [fst snd] in *.
  - specialize (IH s1) as [Hrest Hres'].
    split; [by eapply only_new_dirs_trans|].
    destruct (for_each t (ensure_dir os_error) s1) as [[[]|e] s2]; cbn [fst snd] in *.
    + intros q [->|Hq]%elem_of_cons; [|by apply Hres'].
      destruct Hrest as (_&_&_&_&_&Hkeep). by apply Hkeep.
    + destruct Hres' as (q & Hq & Hnot & He). exists q. split; [by right|done].
  - split; [done|]. destruct Hres as (Hnot & He & ->).
    exists p. split; [by left|done].
Qed.

Lemma ensure_all_noop (ps : list string) (s : state G) :
  (∀ p, p ∈ ps → present s p) → for_each ps (ensure_dir os_error) s = (Ok (), s).
Proof.
  induction ps as [|p t IH]; intros Hall; [done|].
  cbn [for_each]. unfold bind.
  assert (Hp : ensure_dir os_error p s = (Ok (), s)).
  { rewrite ensure_dir_eq.
    assert (Hb : present s p) by (apply Hall; by left).
    apply present_decide in Hb. by rewrite Hb. }
  rewrite Hp. apply IH. intros q Hq. apply Hall. by right.
Qed.
End TreeFacts.

(** X9: [create_directories] makes directories and nothing else: the regular
    files, the output, the progress count, the table and the generator stay
    as they were, and every path that existed still exists.  When it returns,
    the target, the three directories of the server and the three of every
    client [1..nclients] exist.  When it raises, the error is one the
    operating system gave for a path of the tree that is still missing:
    [create_directories] itself asks for no directory that is there. *)
Theorem create_directories_makes_the_tree {G : Type}
    (os_error : string → state G → option exn)
    (target_path : string) (nclients : Z) (s : state G) :
  let run := create_directories os_error target_path nclients s in
  only_new_dirs s run.2 ∧
  match run.1 with
  | Ok _ =>
      present run.2 target_path ∧
      ∀ subdict, subdict ∈ subdicts →
        present run.2 (target_path +:+ "/server" +:+ subdict) ∧
        ∀ k : nat, (1 ≤ k)%nat → Z.of_nat k ≤ nclients →
          present run.2 (target_path +:+ "/client" +:+ pretty k +:+ subdict)
  | Raise e =>
      ∃ p, p ∈ bucket_dirs target_path nclients ∧ ¬ present run.2 p ∧
           os_error p run.2 = Some e
  end.
Proof.
  intros run. unfold run. rewrite create_directories_flat.
  pose proof (ensure_all_spec os_error (bucket_dirs target_path nclients) s) as [Hnew Hres].
  split; [done|].
  destruct (for_each (bucket_dirs target_path nclients) (ensure_dir os_error) s)
    as [[[]|e] s1]; cbn [fst snd] in *; [|done].
  split.
  - apply Hres, elem_of_bucket_dirs. by left.
  - intros sd Hsd. split.
    + apply Hres, elem_of_bucket_dirs. right. exists sd. split; [done|by left].
    + intros k Hk1 Hk2. apply Hres, elem_of_bucket_dirs. right. exists sd.
      split; [done|]. right. by exists k.
Qed.

(** X10: [create_directories] can be run again.  After a call that returned,
    a second call with the same arguments returns as well, whatever the
    operating system would refuse by then, and changes nothing: it finds
    every path and makes no directory. *)
Theorem create_directories_twice {G : Type}
    (os_error os_error' : string → state G → option exn)
    (target_path : string) (nclients : Z) (s s' : state G) :
  create_directories os_error target_path nclients s = (Ok (), s') →
  create_directories os_error' target_path nclients s' = (Ok (), s').
Proof.
  intros Hrun. rewrite create_directories_flat in *.
  pose proof (ensure_all_spec os_error (bucket_dirs target_path nclients) s) as [_ Hres].
  rewrite Hrun in Hres. cbn [fst snd] in Hres.
  by apply ensure_all_noop.
Qed.

Lemma create_directories_twice_witness :
  let run := create_directories parent_is_file "dst" 2 example_state in
  create_directories (λ p _, Some (NotADirectoryError p)) "dst" 2 run.2 = (Ok (), run.2).
Proof.
  intros run.
  apply (create_directories_twice parent_is_file (λ p _, Some (NotADirectoryError p))
           "dst" 2 example_state run.2).
  change (run = (Ok (), run.2)).
  transitivity (run.1, run.2); [by destruct run|].
  f_equal; vm_compute; reflexivity.
Defined.

(** * Paths *)

Lemma chars_app (a b : string) : chars (a +:+ b) = chars a ++ chars b.
Proof.
  unfold chars. induction a as [|c a IH]; [done|].
  change (String c a +:+ b) with (String c (a +:+ b)).
  cbn [String.list_ascii_of_string app]. by rewrite IH.
Qed.

Lemma chars_text (l : list ascii) : chars (text l) = l.
Proof. apply String.list_ascii_of_string_of_list_ascii. Qed.

Lemma text_chars (p : string) : text (chars p) = p.
Proof. apply String.string_of_list_ascii_of_string. Qed.

Lemma chars_inj (a b : string) : chars a = chars b → a = b.
Proof. intros H. by rewrite <- (text_chars a), <- (text_chars b), H. Qed.

Lemma slashes_app (a b : string) : slashes (a +:+ b) = (slashes a + slashes b)%nat.
Proof. unfold slashes. by rewrite chars_app, filter_app, length_app. Qed.

Lemma plain_slashes (f : string) : plain f → slashes f = 0%nat.
Proof.
  unfold plain, slashes. induction 1 as [|c l Hc _ IH]; [done|].
  by rewrite filter_cons_False.
Qed.

Lemma plain_app (a b : string) : plain a → plain b → plain (a +:+ b).
Proof. unfold plain. rewrite chars_app. apply Forall_app_2. Qed.

Lemma plain_not_absolute (b : string) :
  plain b → starts_with (chars "/") (chars b) = false.
Proof.
  unfold plain. change (chars "/") with ["/"%char].
  destruct 1 as [|c l Hc _]; [done|]. cbn.
  rewrite bool_decide_eq_false_2; [done|]. by intros <-.
Qed.

Lemma ends_plain_app (a b : string) : ends_plain b → ends_plain (a +:+ b).
Proof.
  intros (l & c & Hb & Hc). exists (chars a ++ l), c.
  by rewrite chars_app, Hb, app_assoc.
Qed.

Lemma ends_plain_spec (p : string) : p ≠ "" → endswith p "/" = false → ends_plain p.
Proof.
  intros Hne He. unfold endswith in He. change (rev (chars "/")) with ["/"%char] in He.
  destruct (rev (chars p)) as [|c r] eqn:E.
  { destruct Hne. apply chars_inj. apply (f_equal (@rev ascii)) in E.
    by rewrite rev_involutive in E. }
  exists (rev r), c. split.
  - apply (f_equal (@rev ascii)) in E. by rewrite rev_involutive in E.
  - intros ->. cbn in He. by rewrite bool_decide_eq_true_2 in He.
Qed.

Lemma plain_ends_plain (p : string) : plain p → p ≠ "" → ends_plain p.
Proof.
  unfold plain. intros Hp Hne. apply ends_plain_spec; [done|].
  unfold endswith. change (rev (chars "/")) with ["/"%char].
  apply Forall_rev in Hp. destruct Hp as [|c l Hc _]; [done|]. cbn.
  rewrite bool_decide_eq_false_2; [done|]. by intros <-.
Qed.

Lemma path_join_plain (a b : string) :
  ends_plain a → starts_with (chars "/") (chars b) = false →
  path_join a b = a +:+ "/" +:+ b.
Proof.
  intros (l & c & Ha & Hc) Hb. unfold path_join. rewrite Hb.
  assert (Hne : a ≠ "").
  { intros ->. by destruct l. }
  rewrite (bool_decide_eq_false_2 _ Hne).
  unfold endswith. rewrite Ha, rev_app_distr. cbn.
  rewrite bool_decide_eq_false_2; [done|]. by intros <-.
Qed.

Lemma from_slash_plain (l r : list ascii) :
  Forall (λ c, c ≠ "/"%char) l → from_slash (l ++ "/"%char :: r) = "/"%char :: r.
Proof.
  induction 1 as [|c l Hc _ IH]; cbn.
  - by rewrite bool_decide_eq_true_2.
  - by rewrite bool_decide_eq_false_2.
Qed.

Lemma dirname_join (x f : string) :
  ends_plain x → plain f → dirname (x +:+ "/" +:+ f) = x.
Proof.
  intros (l & c & Hx & Hc) Hf. unfold dirname.
  rewrite !chars_app, Hx. change (chars "/") with ["/"%char].
  rewrite !rev_app_distr. cbn [rev app].
  rewrite <- app_assoc. cbn [app].
  rewrite from_slash_plain by (by apply Forall_rev).
  cbn [drop_slashes]. rewrite (bool_decide_eq_true_2 ("/"%char = "/"%char)) by done.
  cbn [drop_slashes]. rewrite (bool_decide_eq_false_2 (c = "/"%char)) by done.
  cbn [rev]. rewrite rev_involutive, <- Hx. apply text_chars.
Qed.

Lemma plain_replace_chars (old new : list ascii) (k : nat) (l : list ascii) :
  Forall (λ c, c ≠ "/"%char) new → Forall (λ c, c ≠ "/"%char) l →
  Forall (λ c, c ≠ "/"%char) (replace_chars old new k l).
Proof.
  intros Hnew Hl. revert k. induction Hl as [|c l Hc Hl IH]; intros k; [done|].
  cbn [replace_chars]. destruct k as [|k]; [|apply IH].
  destruct (starts_with old (c :: l)).
  - apply Forall_app_2; [done|apply IH].
  - constructor; [done|apply IH].
Qed.

Lemma plain_replace (old new f : string) :
  plain new → plain f → plain (replace old new f).
Proof.
  unfold plain, replace. rewrite chars_text. apply plain_replace_chars.
Qed.

Lemma plain_basename (p : string) : plain (basename p).
Proof.
  unfold plain, basename. rewrite chars_text. apply Forall_rev.
  induction (rev (chars p)) as [|c l IH]; cbn; [done|].
  destruct (bool_decide (c = "/"%char)) eqn:E; [done|].
  apply bool_decide_eq_false in E. by constructor.
Qed.

Lemma pretty_N_char_plain (x : N) : pretty_N_char x ≠ "/"%char.
Proof. unfold pretty_N_char. by repeat case_match. Qed.

Lemma pretty_N_go_plain (x : N) (p : string) :
  plain p → p ≠ "" → plain (pretty_N_go x p) ∧ pretty_N_go x p ≠ "".
Proof.
  revert p. induction (N.lt_wf_0 x) as [x _ IH]; intros p Hp Hne.
  assert (x = 0 ∨ 0 < x)%N as [->|Hx] by lia.
  - by rewrite pretty_N_go_0.
  - rewrite pretty_N_go_step by done. apply IH.
    + by apply N.div_lt.
    + constructor; [apply pretty_N_char_plain|done].
    + done.
Qed.

Lemma plain_pretty_nat (k : nat) : plain (pretty k) ∧ pretty k ≠ "".
Proof.
  unfold pretty, pretty_nat, pretty, pretty_N.
  destruct (decide (N.of_nat k = 0)%N) as [_|Hk].
  { split; [|done]. by repeat constructor. }
  rewrite pretty_N_go_step by lia. apply pretty_N_go_plain; [|done].
  constructor; [apply pretty_N_char_plain|constructor].
Qed.

(** * The files a computation writes *)

Section Frames.
Context {G : Type} {num : Numerals}.
Implicit Types (s : state G) (ps : list string).

Lemma writes_only_weaken {A} ps ps' (m : IO G A) :
  ps ⊆ ps' → writes_only ps m → writes_only ps' m.
Proof.
  intros Hsub Hm s. destruct (Hm s) as [Hd Hf]. split; [done|].
  intros q Hq. apply Hf. intros Hin. by apply Hq, Hsub.
Qed.

Lemma writes_only_bind {A B} ps (m : IO G A) (k : A → IO G B) :
  writes_only ps m → (∀ a, writes_only ps (k a)) → writes_only ps (bind m k).
Proof.
  intros Hm Hk s. unfold bind. destruct (Hm s) as [Hd Hf].
  destruct (m s) as [[a|e] s1]; cbn [snd] in *; [|done].
  destruct (Hk a s1) as [Hd1 Hf1]. split; [congruence|].
  intros q Hq. by rewrite Hf1, Hf.
Qed.

Lemma writes_only_try {A} ps (m : IO G A) (h : exn → IO G A) :
  writes_only ps m → (∀ e, writes_only ps (h e)) → writes_only ps (try_except m h).
Proof.
  intros Hm Hh s. unfold try_except. destruct (Hm s) as [Hd Hf].
  destruct (m s) as [[a|e] s1]; cbn [snd] in *; [done|].
  destruct (Hh e s1) as [Hd1 Hf1]. split; [congruence|].
  intros q Hq. by rewrite Hf1, Hf.
Qed.

Lemma writes_only_for_each {A} ps (l : list A) (body : A → IO G unit) :
  (∀ a, a ∈ l → writes_only ps (body a)) → writes_only ps (for_each l body).
Proof.
  induction l as [|a l IH]; intros Hb; cbn [for_each]; [done|].
  apply writes_only_bind; [apply Hb; by left|].
  intros _. apply IH. intros b Hin. apply Hb. by right.
Qed.

Lemma writes_only_copy src dst :
  writes_only [dst; path_join dst (basename src)] (copy (G := G) src dst).
Proof.
  intros s. unfold copy. cbv zeta.
  destruct (files s !! src) as [data|]; [|done].
  destruct (bool_decide (src = _)); [done|]. cbn. split; [done|].
  intros q Hq. rewrite lookup_insert_ne; [done|]. intros <-. apply Hq.
  destruct (bool_decide (is_Some (dirs s !! dst))); [by right; left|by left].
Qed.

Lemma writes_only_open_read p : writes_only [] (open_read (G := G) p).
Proof. intros s. unfold open_read. by destruct (files s !! p). Qed.

Lemma writes_only_open_write p : writes_only [p] (open_write (G := G) p).
Proof.
  intros s. unfold open_write. destruct (bool_decide _); [done|]. cbn.
  split; [done|]. intros q Hq. rewrite lookup_insert_ne; [done|].
  intros <-. apply Hq. by left.
Qed.

Lemma writes_only_process_line destination label_dst line :
  writes_only [label_dst] (process_line (G := G) destination label_dst line).
Proof.
  intros s. destruct (process_line_grows destination label_dst line s) as [_ (Hd & _)].
  split; [done|]. intros q Hq. rewrite process_line_files.
  destruct (render_line line); [|done]. rewrite lookup_insert_ne; [done|].
  intros <-. apply Hq. by left.
Qed.

(** The block of [process_file] under [try]. *)
Lemma writes_only_file_block img_src ann_src img_dst label_dst destination img_file :
  writes_only [img_dst; path_join img_dst (basename img_src); label_dst]
    (try_except
       (bind (copy img_src img_dst) (λ _,
        bind (open_read ann_src) (λ _,
        bind (open_write label_dst) (λ _,
        bind (read_lines ann_src) (λ lines,
        bind (for_each lines (process_line destination label_dst)) (λ _,
        pbar_update))))))
       (λ e, print (G := G) (FileFailed img_file e))).
Proof.
  apply writes_only_try; [|done].
  apply writes_only_bind.
  { eapply writes_only_weaken; [|apply writes_only_copy].
    intros q [->|[->|[]%elem_of_nil]%elem_of_cons]%elem_of_cons;
      [by left|by right; left]. }
  intros _. apply writes_only_bind.
  { eapply writes_only_weaken; [|apply writes_only_open_read].
    by intros q []%elem_of_nil. }
  intros _. apply writes_only_bind.
  { eapply writes_only_weaken; [|apply writes_only_open_write].
    intros q [->|[]%elem_of_nil]%elem_of_cons. by right; right; left. }
  intros _. apply writes_only_bind; [done|].
  intros lines. apply writes_only_bind; [|done].
  apply writes_only_for_each. intros line _.
  eapply writes_only_weaken; [|apply writes_only_process_line].
  intros q [->|[]%elem_of_nil]%elem_of_cons. by right; right; left.
Qed.

Lemma process_file_writes img_dir ann_dir dst_dir destination img_file s :
  let img_src := path_join img_dir img_file in
  let img_dst := path_join4 dst_dir destination "images" img_file in
  let label_dst :=
    path_join4 dst_dir destination "labels" (replace ".jpg" ".txt" img_file) in
  ∀ q, q ∉ [img_dst; path_join img_dst (basename img_src); label_dst] →
       files (process_file img_dir ann_dir dst_dir destination img_file s).2 !! q
       = files s !! q.
Proof.
  intros img_src img_dst label_dst q Hq. unfold process_file.
  fold img_src img_dst label_dst. unfold bind at 1.
  pose proof (makedirs_files (dirname img_dst) s) as Hf1.
  destruct (makedirs (dirname img_dst) s) as [[[]|e] s1]; cbn [snd] in *;
    [|by rewrite Hf1].
  unfold bind at 1. pose proof (makedirs_files (dirname label_dst) s1) as Hf2.
  destruct (makedirs (dirname label_dst) s1) as [[[]|e] s2]; cbn [snd] in *;
    [|by rewrite Hf2, Hf1].
  destruct (writes_only_file_block img_src
              (path_join ann_dir (replace ".jpg" ".txt" img_file))
              img_dst label_dst destination img_file s2) as [_ Hw].
  rewrite (Hw q Hq). by rewrite Hf2, Hf1.
Qed.
End Frames.

(** X11: a file of a bucket writes two regular files and no other: the
    image at its destination (inside it, under the name of the source, when
    the destination is a directory) and the label file.  Every other regular
    file has the content it had, whether the file is counted, reported as
    failed or stopped by a bucket directory; the source image and the
    annotation file, where they are other paths, are only read. *)
Theorem file_writes_image_and_label {G : Type} (num : Numerals)
    (img_dir ann_dir dst_dir destination img_file : string) (s : state G) :
  let img_src := path_join img_dir img_file in
  let img_dst := path_join4 dst_dir destination "images" img_file in
  let label_dst :=
    path_join4 dst_dir destination "labels" (replace ".jpg" ".txt" img_file) in
  let s' := (process_file img_dir ann_dir dst_dir destination img_file s).2 in
  ∀ q, q ≠ img_dst → q ≠ path_join img_dst (basename img_src) → q ≠ label_dst →
       files s' !! q = files s !! q.
Proof.
  intros img_src img_dst label_dst s' q H1 H2 H3.
  apply process_file_writes.
  intros [->|[->|[->|[]%elem_of_nil]%elem_of_cons]%elem_of_cons]%elem_of_cons; done.
Qed.

Lemma file_writes_image_and_label_witness :
  let s' := (process_file (num := Numeral.ascii_numerals)
               "src/images/train" "src/annotations/train" "dst" "client1" "a.jpg"
               example_state).2 in
  files s' !! "src/annotations/train/a.txt"
  = files example_state !! "src/annotations/train/a.txt".
Proof.
  intros s'.
  apply (file_writes_image_and_label Numeral.ascii_numerals
           "src/images/train" "src/annotations/train" "dst" "client1" "a.jpg"
           example_state "src/annotations/train/a.txt");
    vm_compute; discriminate.
Defined.

(** * A pass over the tree of [create_directories] *)

Lemma append_assoc (a b c : string) : (a +:+ b) +:+ c = a +:+ b +:+ c.
Proof. apply chars_inj. by rewrite !chars_app, app_assoc. Qed.

Lemma slashes_path_join (a b : string) :
  plain b → (slashes a ≤ slashes (path_join a b))%nat.
Proof.
  intros Hb. unfold path_join. rewrite (plain_not_absolute b Hb).
  destruct (_ || _); rewrite !slashes_app; lia.
Qed.

Lemma swap_perm {A} (i j : nat) (x x' : list A) : swap i j x = Some x' → x' ≡ₚ x.
Proof.
  unfold swap. destruct (x !! j) as [xj|] eqn:Ej; [|done].
  destruct (x !! i) as [xi|] eqn:Ei; [|done].
  intros [= <-]. by apply Permutation_insert_swap.
Qed.

Lemma shuffle_perm {G : Type} {gen : RandomGen G} {A} (x x' : list A) (g g' : G) :
  shuffle x g = Some (x', g') → x' ≡ₚ x.
Proof.
  unfold shuffle. generalize (length x - 1)%nat. intros i. revert x g.
  induction i as [|i IH]; intros x g; cbn [shuffle_loop].
  - by intros [= <- _].
  - destruct (randbelow (S i + 1) g) as [j g1].
    destruct (swap (S i) j x) as [x1|] eqn:Es; [|done].
    intros Hl. apply IH in Hl. rewrite Hl. by eapply swap_perm.
Qed.

Lemma slice_step_subset {A} (c n : nat) (l : list A) (a : A) :
  a ∈ slice_step c n l → a ∈ l.
Proof.
  revert c. induction l as [|x t IH]; intros c; cbn [slice_step]; [done|].
  destruct c as [|c].
  - intros [->|Hin]%elem_of_cons; [by left|right; by eapply IH].
  - intros Hin. right. by eapply IH.
Qed.

(** The buckets of a split hold files of the list, under bucket names. *)
Lemma split_map_buckets {G : Type} {gen : RandomGen G}
    (img_files : list string) (nclients : Z) (is_train : bool) (g : G)
    (o : split_outcome G) (destination : string) (files : list string) :
  split_map img_files nclients is_train g = Some o →
  (destination, files) ∈ buckets o →
  bucket_name nclients destination ∧ ∀ f, f ∈ files → f ∈ img_files.
Proof.
  unfold split_map, split_files. destruct is_train.
  - destruct (shuffle img_files (seed 42)) as [[files' g']|] eqn:Es; [|done].
    apply shuffle_perm in Es. intros [= <-]. cbn [buckets].
    change (map ?h ?l) with (h <$> l).
    intros (i & [= -> ->] & Hi)%list_elem_of_fmap.
    apply elem_of_seq in Hi. split.
    + right. exists i. split; [lia|done].
    + intros f Hf. rewrite <- Es. by eapply slice_step_subset.
  - intros [= <-]. cbn [buckets]. intros [= -> ->]%list_elem_of_singleton.
    split; [by left|done].
Qed.

Section StandingTree.
Context {G : Type} {num : Numerals}.
Variable dst_dir : string.
Variable nclients : Z.
Hypothesis dst_ends_plain : ends_plain dst_dir.
Implicit Types (s : state G).

Lemma bucket_name_plain destination :
  bucket_name nclients destination → plain destination ∧ destination ≠ "".
Proof.
  intros [->|(i & _ & ->)].
  - split; [|done]. unfold plain. cbn. repeat constructor; discriminate.
  - unfold client_key. destruct (plain_pretty_nat (i + 1)) as [Hp _]. split.
    + apply plain_app; [|done]. unfold plain. cbn. repeat constructor; discriminate.
    + change ("client" +:+ pretty (i + 1)%nat)
        with (String "c" ("lient" +:+ pretty (i + 1)%nat)).
      discriminate.
Qed.

Lemma bucket_subdir_in_tree destination sub :
  bucket_name nclients destination → sub = "images" ∨ sub = "labels" →
  (dst_dir +:+ "/" +:+ destination) +:+ "/" +:+ sub ∈ bucket_dirs dst_dir nclients.
Proof.
  intros Hb Hsub. apply elem_of_bucket_dirs. right. exists ("/" +:+ sub). split.
  { destruct Hsub as [->| ->]; [right; left|right; right; left]; done. }
  destruct Hb as [->|(i & Hi & ->)].
  - left. rewrite !append_assoc. reflexivity.
  - right. exists (i + 1)%nat. split; [lia|]. split; [lia|].
    unfold client_key. rewrite !append_assoc. reflexivity.
Qed.

Lemma bucket_dirs_slashes p :
  p ∈ bucket_dirs dst_dir nclients → (slashes p ≤ slashes dst_dir + 2)%nat.
Proof.
  intros [->|(sd & Hsd & Hp)]%elem_of_bucket_dirs; [lia|].
  assert (Hs : (slashes sd ≤ 1)%nat).
  { unfold subdicts in Hsd.
    apply elem_of_cons in Hsd as [->|Hsd]; [vm_compute; lia|].
    apply elem_of_cons in Hsd as [->|Hsd]; [vm_compute; lia|].
    apply elem_of_cons in Hsd as [->|Hsd]; [vm_compute; lia|].
    by apply elem_of_nil in Hsd. }
  destruct Hp as [->|(k & _ & _ & ->)]; rewrite !slashes_app.
  - change (slashes "/server") with 1%nat. lia.
  - change (slashes "/client") with 1%nat.
    destruct (plain_pretty_nat k) as [Hk _]. rewrite (plain_slashes _ Hk). lia.
Qed.

Lemma bucket_file_path destination sub f :
  bucket_name nclients destination → sub = "images" ∨ sub = "labels" → plain f →
  let d := (dst_dir +:+ "/" +:+ destination) +:+ "/" +:+ sub in
  path_join4 dst_dir destination sub f = d +:+ "/" +:+ f ∧
  dirname (path_join4 dst_dir destination sub f) = d ∧
  slashes (path_join4 dst_dir destination sub f) = (slashes dst_dir + 3)%nat.
Proof.
  intros Hb Hsub Hf d. destruct (bucket_name_plain _ Hb) as [Hp Hne].
  assert (Hsp : plain sub ∧ sub ≠ "").
  { destruct Hsub as [->| ->]; (split; [|done]); unfold plain; cbn;
      repeat constructor; discriminate. }
  destruct Hsp as [Hsp Hsne].
  assert (H1 : path_join dst_dir destination = dst_dir +:+ "/" +:+ destination).
  { apply path_join_plain; [done|by apply plain_not_absolute]. }
  assert (E1 : ends_plain (dst_dir +:+ "/" +:+ destination)).
  { apply ends_plain_app, ends_plain_app. by apply plain_ends_plain. }
  assert (H2 : path_join (dst_dir +:+ "/" +:+ destination) sub = d).
  { apply path_join_plain; [done|by apply plain_not_absolute]. }
  assert (E2 : ends_plain d).
  { apply ends_plain_app, ends_plain_app. by apply plain_ends_plain. }
  assert (H3 : path_join4 dst_dir destination sub f = d +:+ "/" +:+ f).
  { unfold path_join4, path_join3. rewrite H1, H2.
    apply path_join_plain; [done|by apply plain_not_absolute]. }
  split; [done|]. split.
  - rewrite H3. by apply dirname_join.
  - rewrite H3. unfold d. rewrite !slashes_app.
    change (slashes "/") with 1%nat.
    rewrite (plain_slashes _ Hp), (plain_slashes _ Hsp), (plain_slashes _ Hf). lia.
Qed.

Lemma makedirs_noop p s :
  files s !! p = None → is_Some (dirs s !! p) → makedirs p s = (Ok (), s).
Proof.
  intros Hf [entries Hd]. unfold makedirs. rewrite Hf, Hd.
  by rewrite bool_decide_eq_false_2 by (by intros [? ?]).
Qed.

(** On a standing tree a file of a bucket makes no directory, does not
    stop the loop, and leaves the tree standing. *)
Lemma process_file_on_tree img_dir ann_dir destination img_file s :
  bucket_name nclients destination → plain img_file →
  tree_stands dst_dir nclients s →
  ∃ s', process_file img_dir ann_dir dst_dir destination img_file s = (Ok (), s') ∧
        dirs s' = dirs s ∧ tree_stands dst_dir nclients s'.
Proof.
  intros Hb Hf Htree.
  set (img_src := path_join img_dir img_file).
  set (img_dst := path_join4 dst_dir destination "images" img_file).
  set (label_dst :=
         path_join4 dst_dir destination "labels" (replace ".jpg" ".txt" img_file)).
  assert (Hr : plain (replace ".jpg" ".txt" img_file)).
  { apply plain_replace; [|done]. unfold plain. cbn. repeat constructor; discriminate. }
  destruct (bucket_file_path destination "images" img_file Hb (or_introl eq_refl) Hf)
    as (_ & Hd1 & Hs1).
  destruct (bucket_file_path destination "labels" _ Hb (or_intror eq_refl) Hr)
    as (_ & Hd2 & Hs2).
  fold img_dst in Hd1, Hs1. fold label_dst in Hd2, Hs2.
  destruct (Htree (dirname img_dst)) as [Hdir1 Hfile1].
  { rewrite Hd1. apply bucket_subdir_in_tree; [done|by left]. }
  destruct (Htree (dirname label_dst)) as [Hdir2 Hfile2].
  { rewrite Hd2. apply bucket_subdir_in_tree; [done|by right]. }
  pose proof (makedirs_noop _ s Hfile1 Hdir1) as Hm1.
  pose proof (makedirs_noop _ s Hfile2 Hdir2) as Hm2.
  assert (Hdirs : dirs (process_file img_dir ann_dir dst_dir destination img_file s).2
                  = dirs s).
  { unfold process_file. fold img_src img_dst label_dst.
    unfold bind at 1. rewrite Hm1. unfold bind at 1. rewrite Hm2.
    apply writes_only_file_block. }
  assert (Hok : (process_file img_dir ann_dir dst_dir destination img_file s).1
                = Ok ()).
  { unfold process_file. fold img_src img_dst label_dst.
    unfold bind at 1. rewrite Hm1. unfold bind at 1. rewrite Hm2.
    unfold try_except. by destruct (bind _ _ s) as [[[]|e] s0]. }
  pose proof (process_file_writes img_dir ann_dir dst_dir destination img_file s) as Hw.
  cbv zeta in Hw. fold img_src img_dst label_dst in Hw.
  destruct (process_file img_dir ann_dir dst_dir destination img_file s)
    as [[[]|e] s'] eqn:E; cbn [fst snd] in *; [|done].
  - exists s'. split; [done|]. split; [done|].
    intros p Hp. destruct (Htree p Hp) as [Hpd Hpf]. rewrite Hdirs. split; [done|].
    rewrite Hw; [done|]. pose proof (bucket_dirs_slashes p Hp) as Hle.
    pose proof (slashes_path_join img_dst (basename img_src) (plain_basename _)) as Hj.
    intros [->|[->|[->|[]%elem_of_nil]%elem_of_cons]%elem_of_cons]%elem_of_cons; lia.
Qed.

Lemma bucket_loop_on_tree img_dir ann_dir
    (assignment : list (string * list string)) s :
  (∀ destination files, (destination, files) ∈ assignment →
     bucket_name nclients destination ∧ Forall plain files) →
  tree_stands dst_dir nclients s →
  ∃ s', bucket_loop img_dir ann_dir dst_dir assignment s = (Ok (), s') ∧
        dirs s' = dirs s ∧ tree_stands dst_dir nclients s'.
Proof.
  intros Hok Htree.
  set (I := λ s1 : state G, dirs s1 = dirs s ∧ tree_stands dst_dir nclients s1).
  assert (H : hoare I (bucket_loop img_dir ann_dir dst_dir assignment)
                (λ r s1, match r with
                         | Ok _ => I s1
                         | Raise e => (λ _ _, False) e s1
                         end)).
  { unfold bucket_loop. apply hoare_for_each. intros [destination files] Hin.
    destruct (Hok _ _ Hin) as [Hb Hpl].
    apply hoare_for_each. intros img_file Hf s1 [Hd1 Ht1].
    destruct (process_file_on_tree img_dir ann_dir destination img_file s1)
      as (s2 & -> & Hd2 & Ht2); [done| |done|].
    - rewrite Forall_forall in Hpl. by apply Hpl.
    - cbn [fst snd]. split; [congruence|done]. }
  specialize (H s (conj eq_refl Htree)).
  destruct (bucket_loop img_dir ann_dir dst_dir assignment s) as [[[]|e] s'];
    cbn [fst snd] in H; [|done].
  exists s'. by destruct H.
Qed.
End StandingTree.

(** X12: the tree of [create_directories] is the tree the passes write to.
    Let [create_directories] return for a target that is not empty and does
    not end in a slash, in a file system where no path of the tree is a
    regular file, and let the image directory list names without slashes.
    Then a pass of [process_split] over the same target and client count
    makes no directory, puts no regular file on a path of the tree, and is
    never stopped in its loop: it returns its table, or it raises one of the
    configuration errors of its checks before the loop. *)
Theorem pass_writes_into_the_tree {G : Type} (gen : RandomGen G) (num : Numerals)
    (yaml_names : list string → option (list string))
    (os_error : string → state G → option exn)
    (src_dir dst_dir subset : string) (nclients : Z) (yaml_path : string)
    (is_train : bool) (s0 s1 : state G) :
  dst_dir ≠ "" → endswith dst_dir "/" = false →
  (∀ p, p ∈ bucket_dirs dst_dir nclients → files s0 !! p = None) →
  (∀ entries, dirs s1 !! path_join3 src_dir "images" subset = Some entries →
              Forall plain entries) →
  create_directories os_error dst_dir nclients s0 = (Ok (), s1) →
  let run :=
    process_split yaml_names src_dir dst_dir subset nclients yaml_path is_train s1 in
  dirs run.2 = dirs s1 ∧
  (∀ p, p ∈ bucket_dirs dst_dir nclients → files run.2 !! p = None) ∧
  match run.1 with
  | Ok _ => True
  | Raise e =>
      config_failure (path_join3 src_dir "images" subset)
        (path_join3 src_dir "annotations" subset) subset e
  end.
Proof.
  intros Hne Hend Hfree Hplain Hmade run.
  assert (Hdst : ends_plain dst_dir) by by apply ends_plain_spec.
  assert (Htree : tree_stands dst_dir nclients s1).
  { rewrite create_directories_flat in Hmade.
    pose proof (ensure_all_spec os_error (bucket_dirs dst_dir nclients) s0)
      as [(Hfiles & _) Hres].
    rewrite Hmade in Hfiles, Hres. cbn [fst snd] in *.
    intros p Hp. assert (Hnone : files s1 !! p = None) by (rewrite Hfiles; by apply Hfree).
    split; [|done]. destruct (Hres p Hp) as [Hf|Hd]; [|done].
    rewrite Hnone in Hf. by destruct Hf. }
  destruct run as [r s'] eqn:Erun. unfold run in Erun. cbn [fst snd].
  apply process_split_shape in Erun
    as [(e & -> & Hc & Hf & Hd & _)
       |(lines & names & entries & o & _ & _ & Hent & Ho & Hloop)].
  - split; [done|]. split; [|done]. intros p Hp. rewrite Hf. by apply Htree.
  - cbv zeta in Hloop. destruct Hloop as [-> ->].
    set (entry := loop_entry subset (distribution_frame names nclients) (rng_after o) s1).
    destruct (bucket_loop_on_tree dst_dir nclients Hdst
                (path_join3 src_dir "images" subset)
                (path_join3 src_dir "annotations" subset) (buckets o) entry)
      as (s2 & Hrun & Hd2 & Ht2).
    + intros destination files Hin.
      destruct (split_map_buckets _ _ _ _ _ _ _ Ho Hin) as [Hb Hsub].
      split; [done|]. apply Forall_forall. intros f Hf.
      apply Hsub, list_elem_of_filter in Hf as [_ Hf].
      specialize (Hplain entries Hent). rewrite Forall_forall in Hplain.
      by apply Hplain.
    + exact Htree.
    + rewrite Hrun. cbn [fst snd]. split; [done|]. split; [|done].
      intros p Hp. by apply Ht2.
Qed.

Lemma pass_writes_into_the_tree_witness :
  let s1 := (create_directories parent_is_file "dst" 2 example_state).2 in
  let run :=
    process_split (num := Numeral.ascii_numerals) (λ _, Some visdrone_names)
      "src" "dst" "train" 2 "data/VisDrone.yaml" true s1 in
  dirs run.2 = dirs s1 ∧
  (∀ p, p ∈ bucket_dirs "dst" 2 → files run.2 !! p = None).
Proof.
  intros s1 run.
  assert (Hfree : ∀ p, p ∈ bucket_dirs "dst" 2 → files example_state !! p = None).
  { apply Forall_forall.
    let l := eval vm_compute in (bucket_dirs "dst" 2) in
    change (bucket_dirs "dst" 2) with l.
    repeat (constructor; [vm_compute; reflexivity|]). constructor. }
  assert (Hplain : ∀ entries,
            dirs s1 !! path_join3 "src" "images" "train" = Some entries →
            Forall plain entries).
  { intros entries Hent.
    assert (Hd : dirs s1 !! path_join3 "src" "images" "train" = Some ["a.jpg"; "b.jpg"])
      by (vm_compute; reflexivity).
    rewrite Hd in Hent. injection Hent as <-.
    repeat (constructor;
            [unfold plain; cbn; repeat (constructor; [discriminate|]); constructor|]).
    constructor. }
  assert (Hmade : create_directories parent_is_file "dst" 2 example_state = (Ok (), s1)).
  { transitivity ((create_directories parent_is_file "dst" 2 example_state).1, s1);
      [by destruct (create_directories parent_is_file "dst" 2 example_state)|].
    f_equal; vm_compute; reflexivity. }
  destruct (pass_writes_into_the_tree MT19937.mt_gen Numeral.ascii_numerals
              (λ _, Some visdrone_names) parent_is_file
              "src" "dst" "train" 2 "data/VisDrone.yaml" true example_state s1
              ltac:(discriminate) eq_refl Hfree Hplain Hmade) as (Hd & Hf & _).
  split; [exact Hd|exact Hf].
Defined.

(** * A file that is converted *)

Section Converted.
Context {G : Type} {num : Numerals}.
Implicit Types (s : state G).

Lemma bind_run {A B} (m : IO G A) (k : A → IO G B) s a s1 :
  m s = (Ok a, s1) → bind m k s = k a s1.
Proof. intros H. unfold bind. by rewrite H. Qed.

Lemma try_run {A} (m : IO G A) (h : exn → IO G A) s a s1 :
  m s = (Ok a, s1) → try_except m h s = (Ok a, s1).
Proof. intros H. unfold try_except. by rewrite H. Qed.

(** The lines of an annotation file, on a table that is ready for them:
    the label file gains the rendered lines, in order. *)
Lemma lines_written (keys : list string) destination label_dst
    (lines old : list string) s :
  destination ∈ keys →
  table_ready keys (dist_df s) →
  files s !! label_dst = Some old →
  ∃ s', for_each lines (process_line destination label_dst) s = (Ok (), s') ∧
        files s' = <[label_dst := old ++ omap render_line lines]> (files s) ∧
        same_outside s s'.
Proof.
  intros Hkey. revert old s. induction lines as [|line rest IH]; intros old s Hready Hold.
  { exists s. split; [done|]. split; [|done].
    cbn. rewrite app_nil_r. symmetry. by apply insert_id. }
  pose proof (lines_keep_ready keys destination label_dst [line] s Hkey Hready)
    as [Hok Hready1].
  pose proof (process_line_files destination label_dst line s) as Hfiles.
  pose proof (process_line_grows destination label_dst line s) as [_ Hsame].
  cbn [for_each] in *. unfold bind in *.
  destruct (process_line destination label_dst line s) as [[[]|e] s1];
    cbn [fst snd] in *; [|done].
  rewrite Hold in Hfiles. cbn [default] in Hfiles.
  destruct (render_line line) as [out|] eqn:Hr.
  - destruct (IH (old ++ [out]) s1 Hready1) as (s' & -> & Hf & Hs).
    { by rewrite Hfiles, lookup_insert_eq. }
    exists s'. split; [done|]. split; [|by eapply same_outside_trans].
    rewrite Hf, Hfiles, insert_insert_eq.
    change (omap render_line (line :: rest))
      with (match render_line line with
            | Some y => y :: omap render_line rest
            | None => omap render_line rest
            end).
    rewrite Hr. by rewrite <- app_assoc.
  - destruct (IH old s1 Hready1) as (s' & -> & Hf & Hs).
    { by rewrite Hfiles. }
    exists s'. split; [done|]. split; [|by eapply same_outside_trans].
    rewrite Hf, Hfiles.
    change (omap render_line (line :: rest))
      with (match render_line line with
            | Some y => y :: omap render_line rest
            | None => omap render_line rest
            end).
    by rewrite Hr.
Qed.
End Converted.

(** X13: a file that is converted.  Let the two directories of the bucket
    exist, the source image and the annotation file exist, neither
    destination be a directory, the destinations differ from the sources,
    and the table have a row for each of the ten classes and a column for
    the bucket.  Then [process_file] returns, the image is at its destination
    with the content of the source, the label file holds the rendered
    surviving lines of the annotation file, in order, and nothing else, the
    file is counted on the progress bar and nothing is printed. *)
Theorem file_is_converted {G : Type} (num : Numerals)
    (img_dir ann_dir dst_dir destination img_file : string)
    (data lines keys : list string) (s : state G) :
  let img_src := path_join img_dir img_file in
  let ann_src := path_join ann_dir (replace ".jpg" ".txt" img_file) in
  let img_dst := path_join4 dst_dir destination "images" img_file in
  let label_dst :=
    path_join4 dst_dir destination "labels" (replace ".jpg" ".txt" img_file) in
  files s !! dirname img_dst = None → is_Some (dirs s !! dirname img_dst) →
  files s !! dirname label_dst = None → is_Some (dirs s !! dirname label_dst) →
  files s !! img_src = Some data →
  files s !! ann_src = Some lines →
  dirs s !! img_dst = None →
  dirs s !! label_dst = None →
  img_src ≠ img_dst → ann_src ≠ img_dst → ann_src ≠ label_dst →
  destination ∈ keys → table_ready keys (dist_df s) →
  ∃ s',
    process_file img_dir ann_dir dst_dir destination img_file s = (Ok (), s') ∧
    files s' = <[label_dst := omap render_line lines]> (<[img_dst := data]> (files s)) ∧
    dirs s' = dirs s ∧
    progress s' = S (progress s) ∧
    stdout s' = stdout s.
Proof.
  intros img_src ann_src img_dst label_dst Hf1 Hd1 Hf2 Hd2 Himg Hann Hnd1 Hnd2
    Hne1 Hne2 Hne3 Hkey Hready.
  unfold process_file. fold img_src ann_src img_dst label_dst.
  rewrite (bind_run _ _ s () s (makedirs_noop _ s Hf1 Hd1)).
  rewrite (bind_run _ _ s () s (makedirs_noop _ s Hf2 Hd2)).
  set (s1 := set_files (<[img_dst := data]> (files s)) s).
  assert (Hcopy : copy img_src img_dst s = (Ok (), s1)).
  { unfold copy. cbv zeta. rewrite Hnd1.
    rewrite (bool_decide_eq_false_2 (is_Some None)) by (by intros [? ?]).
    rewrite Himg. by rewrite bool_decide_eq_false_2. }
  assert (Hopen : open_read ann_src s1 = (Ok (), s1)).
  { unfold open_read. cbn [files s1 set_files].
    by rewrite lookup_insert_ne, Hann. }
  set (s2 := set_files (<[label_dst := []]> (files s1)) s1).
  assert (Hwrite : open_write label_dst s1 = (Ok (), s2)).
  { unfold open_write. cbn [dirs s1 set_files]. rewrite Hnd2.
    by rewrite (bool_decide_eq_false_2 (is_Some None)) by (by intros [? ?]). }
  assert (Hread : read_lines ann_src s2 = (Ok lines, s2)).
  { unfold read_lines. cbn [files s2 s1 set_files].
    by rewrite lookup_insert_ne, lookup_insert_ne, Hann. }
  destruct (lines_written keys destination label_dst lines [] s2 Hkey Hready)
    as (s3 & Hloop & Hfiles & Hdirs & Hout & Hprog & _).
  { cbn [files s2 set_files]. by rewrite lookup_insert_eq. }
  eexists. split.
  - apply try_run.
    rewrite (bind_run _ _ s () s1 Hcopy), (bind_run _ _ s1 () s1 Hopen).
    rewrite (bind_run _ _ s1 () s2 Hwrite), (bind_run _ _ s2 lines s2 Hread).
    rewrite (bind_run _ _ s2 () s3 Hloop). reflexivity.
  - cbn [files dirs progress stdout]. rewrite Hfiles, Hdirs, Hout, Hprog.
    cbn [files s2 s1 set_files app]. by rewrite insert_insert_eq.
Qed.

Lemma file_is_converted_witness :
  let s1 := (create_directories willing "dst" 2 example_state).2 in
  ∃ s',
    process_file (num := Numeral.ascii_numerals)
      "src/images/train" "src/annotations/train" "dst" "client1" "a.jpg" s1
      = (Ok (), s') ∧
    files s' !! "dst/client1/labels/a.txt"
      = Some ["3 0.130208 0.254630 0.156250 0.138889
"; "9 0.013021 0.037037 0.015625 0.037037
"].
Proof.
  intros s1.
  destruct (file_is_converted Numeral.ascii_numerals
              "src/images/train" "src/annotations/train" "dst" "client1" "a.jpg"
              ["<jpeg a>"]
              ["100,200,300,150,1,4,1,0"; "1,2,3,4,0,0,1,0"; "corrupt";
               "10,20,30,40,1,10,2,0"; "1,1,1,1,1,1,0,0"]
              ["client1"; "client2"] s1)
    as (s' & Hrun & Hfiles & _).
  - vm_compute. reflexivity.
  - vm_compute. by eexists.
  - vm_compute. reflexivity.
  - vm_compute. by eexists.
  - vm_compute. reflexivity.
  - vm_compute. reflexivity.
  - vm_compute. reflexivity.
  - vm_compute. reflexivity.
  - vm_compute. discriminate.
  - vm_compute. discriminate.
  - vm_compute. discriminate.
  - by left.
  - assert (Hdf : dist_df s1 = distribution_frame visdrone_names 2)
      by (vm_compute; reflexivity).
    rewrite Hdf. split; [|split].
    + apply distribution_frame_well_shaped, visdrone_labels_distinct.
    + cbn. lia.
    + intros key [->|[->|[]%elem_of_nil]%elem_of_cons]%elem_of_cons.
      * right. by left.
      * right. right. by left.
  - exists s'. split; [exact Hrun|]. rewrite Hfiles.
    change (path_join4 "dst" "client1" "labels" (replace ".jpg" ".txt" "a.jpg"))
      with "dst/client1/labels/a.txt".
    rewrite lookup_insert_eq. vm_compute. reflexivity.
Defined.

(** * The images of a pass *)

Lemma loop_accounting {G : Type} {num : Numerals} (img_dir ann_dir dst_dir : string)
    (assignment : list (string * list string)) (s s' : state G) :
  bucket_loop img_dir ann_dir dst_dir assignment s = (Ok (), s') →
  ∃ failures,
    stdout s' = stdout s ++ failures ∧
    (progress s' + length failures
     = progress s + length (mjoin assignment.*2))%nat ∧
    Forall (λ m, ∃ f e, m = FileFailed f e ∧ f ∈ mjoin assignment.*2) failures.
Proof.
  unfold bucket_loop. revert s.
  induction assignment as [|[destination files] rest IH]; intros s Hrun.
  - injection Hrun as <-. exists []. rewrite app_nil_r. by repeat split.
  - cbn [for_each] in Hrun. unfold bind at 1 in Hrun.
    destruct (for_each files _ s) as [[[]|e] s1] eqn:E; [|done].
    apply bucket_accounting in E as (fs1 & Ho1 & Hc1 & Ha1).
    destruct (IH s1 Hrun) as (fs2 & Ho2 & Hc2 & Ha2).
    exists (fs1 ++ fs2).
    change (mjoin (((destination, files) :: rest).*2)) with (files ++ mjoin rest.*2).
    rewrite Ho2, Ho1, <- app_assoc, !length_app. split; [done|]. split; [lia|].
    apply Forall_app_2.
    + eapply Forall_impl; [exact Ha1|]. intros m (f & e & -> & Hin).
      exists f, e. split; [done|]. apply elem_of_app. by left.
    + eapply Forall_impl; [exact Ha2|]. intros m (f & e & -> & Hin).
      exists f, e. split; [done|]. apply elem_of_app. by right.
Qed.

Lemma split_map_perm {G : Type} {gen : RandomGen G}
    (img_files : list string) (nclients : Z) (is_train : bool) (g : G)
    (o : split_outcome G) :
  split_map img_files nclients is_train g = Some o →
  (is_train = true → 1 ≤ nclients) →
  mjoin (buckets o).*2 ≡ₚ img_files.
Proof.
  unfold split_map, split_files. destruct is_train.
  - destruct (shuffle img_files (seed 42)) as [[files' g']|] eqn:Es; [|done].
    apply shuffle_perm in Es. intros [= <-] Hn. cbn [buckets].
    assert (Hsnd : ∀ l : list nat,
              (map (λ i, (client_key i, slice_step i (Z.to_nat nclients) files')) l).*2
              = map (λ i, slice_step i (Z.to_nat nclients) files') l).
    { intros l. induction l as [|a l IH]; [done|]. cbn. by f_equal. }
    rewrite Hsnd. unfold client_range.
    rewrite slices_permutation by lia. done.
  - intros [= <-] _. cbn. by rewrite app_nil_r.
Qed.

(** X14: a pass that returns its table accounts for every image of the
    subset once.  With at least one client in training mode, the output of
    the pass is the announcement of the subset followed by the failures, each
    of which names an entry of the image directory that ends in [.jpg], and
    the files counted on the progress bar and the failures printed add up to
    the number of such entries. *)
Theorem pass_accounts_for_every_image {G : Type} (gen : RandomGen G)
    (num : Numerals) (yaml_names : list string → option (list string))
    (src_dir dst_dir subset : string) (nclients : Z) (yaml_path : string)
    (is_train : bool) (s s' : state G) (df : dataframe) :
  process_split yaml_names src_dir dst_dir subset nclients yaml_path is_train s
    = (Ok df, s') →
  (is_train = true → 1 ≤ nclients) →
  ∃ entries failures,
    dirs s !! path_join3 src_dir "images" subset = Some entries ∧
    let img_files := filter (λ f, endswith f ".jpg" = true) entries in
    stdout s' = stdout s ++ Processing subset :: failures ∧
    (progress s' + length failures = progress s + length img_files)%nat ∧
    Forall (λ m, ∃ f e, m = FileFailed f e ∧ f ∈ img_files) failures.
Proof.
  intros Hrun Hn.
  apply process_split_shape in Hrun
    as [(e & [=] & _)|(lines & names & entries & o & _ & _ & Hent & Ho & Hloop)].
  cbv zeta in Hloop. destruct Hloop as [-> Hr].
  set (entry := loop_entry subset (distribution_frame names nclients) (rng_after o) s)
    in *.
  destruct (bucket_loop _ _ _ (buckets o) entry) as [[[]|e] s2] eqn:E;
    cbn [fst snd] in *; [|done].
  apply loop_accounting in E as (failures & Hout & Hcount & Hall).
  pose proof (split_map_perm _ _ _ _ _ Ho Hn) as Hperm.
  exists entries, failures. split; [done|]. cbv zeta.
  split; [|split].
  - rewrite Hout. cbn [entry loop_entry stdout]. by rewrite <- app_assoc.
  - rewrite Hcount, Hperm. done.
  - eapply Forall_impl; [exact Hall|]. intros m (f & e & -> & Hin).
    exists f, e. split; [done|]. by rewrite <- Hperm.
Qed.

Lemma pass_accounts_for_every_image_witness :
  ∃ failures,
    stdout example_pass.2 = stdout example_state ++ Processing "train" :: failures ∧
    (progress example_pass.2 + length failures = progress example_state + 2)%nat.
Proof.
  destruct (pass_accounts_for_every_image MT19937.mt_gen Numeral.ascii_numerals
              (λ _, Some visdrone_names) "src" "dst" "train" 2 "data/VisDrone.yaml"
              true example_state example_pass.2 example_table example_pass_returns
              ltac:(lia)) as (entries & failures & Hent & Hout & Hcount & _).
  exists failures. split; [exact Hout|].
  assert (E : entries = ["a.jpg"; "b.jpg"]).
  { assert (Hd : dirs example_state !! path_join3 "src" "images" "train"
                 = Some ["a.jpg"; "b.jpg"]) by (vm_compute; reflexivity).
    rewrite Hd in Hent. by injection Hent as <-. }
  rewrite E in Hcount. exact Hcount.
Defined.

(** * White space around a line *)

Lemma lstrip_blank (pad l : list ascii) :
  Forall (λ c, isspace c = true) pad → lstrip (pad ++ l) = lstrip l.
Proof. induction 1 as [|c pad Hc _ IH]; [done|]. cbn [app lstrip]. by rewrite Hc. Qed.

Lemma lstrip_app (l pad : list ascii) :
  Forall (λ c, isspace c = true) pad →
  lstrip (l ++ pad) = match lstrip l with [] => [] | _ => lstrip l ++ pad end.
Proof.
  intros Hpad. induction l as [|c t IH].
  - cbn [app lstrip]. rewrite <- (app_nil_r pad). by rewrite lstrip_blank.
  - cbn [app lstrip]. by destruct (isspace c).
Qed.

Lemma strip_pad (pad line pad' : string) :
  blank pad → blank pad' → strip (pad +:+ line +:+ pad') = strip line.
Proof.
  unfold blank, strip. intros Hpad Hpad'. rewrite !chars_app.
  rewrite lstrip_blank by done. rewrite lstrip_app by done.
  destruct (lstrip (chars line)) as [|c t] eqn:E; [done|].
  rewrite rev_app_distr. by rewrite lstrip_blank by (by apply Forall_rev).
Qed.

(** X15: white space around a line of an annotation file does not matter.
    A line read with its newline, with a carriage return or with blanks or
    tabs before or after it is parsed, filtered, written and counted exactly as
    the line without them. *)
Theorem padding_is_ignored {G : Type} (num : Numerals)
    (destination label_dst pad line pad' : string) (s : state G) :
  blank pad → blank pad' →
  parse_line (pad +:+ line +:+ pad') = parse_line line ∧
  process_line destination label_dst (pad +:+ line +:+ pad') s
  = process_line destination label_dst line s.
Proof.
  intros Hpad Hpad'.
  assert (Hparse : parse_line (pad +:+ line +:+ pad') = parse_line line).
  { unfold parse_line. by rewrite strip_pad. }
  split; [done|]. unfold process_line. by rewrite Hparse.
Qed.

Lemma padding_is_ignored_witness :
  process_line (num := Numeral.ascii_numerals) "client1" "dst/client1/labels/a.txt"
    ("  " +:+ "100,200,300,150,1,4,1,0" +:+ "
") example_state
  = process_line (num := Numeral.ascii_numerals) "client1" "dst/client1/labels/a.txt"
      "100,200,300,150,1,4,1,0" example_state.
Proof.
  apply (padding_is_ignored Numeral.ascii_numerals "client1" "dst/client1/labels/a.txt"
           "  " "100,200,300,150,1,4,1,0" "
" example_state).
  - unfold blank. cbn. repeat constructor.
  - unfold blank. cbn. repeat constructor.
Defined.

(** * The name of the annotation file *)

Lemma replace_chars_stem (stem rest : list ascii) :
  Forall (λ c, c ≠ "."%char) stem →
  replace_chars (chars ".jpg") (chars ".txt") 0 (stem ++ chars ".jpg" ++ rest)
  = stem ++ chars ".txt" ++ replace_chars (chars ".jpg") (chars ".txt") 0 rest.
Proof.
  induction 1 as [|c stem Hc _ IH].
  - change (chars ".jpg") with ("."%char :: chars "jpg").
    cbn [app replace_chars starts_with].
    rewrite (bool_decide_eq_true_2 ("."%char = "."%char)) by done.
    cbn [andb]. change (starts_with (chars "jpg") (chars "jpg" ++ rest)) with true.
    cbv iota. reflexivity.
  - cbn [app replace_chars]. change (chars ".jpg") with ("."%char :: chars "jpg") at 1.
    cbn [starts_with]. rewrite (bool_decide_eq_false_2 ("."%char = c)) by (by intros <-).
    cbn [andb]. by rewrite IH.
Qed.

(** X16: how the name of the annotation file is made.  [replace] turns every
    [.jpg] of the name of an image into [.txt], not only its extension: for
    a stem without a dot, [stem.jpg] followed by a rest becomes [stem.txt]
    followed by the rest with its own [.jpg] replaced.  So [stem.jpg] gives
    [stem.txt], and [stem.jpg.jpg] gives [stem.txt.txt]. *)
Theorem annotation_name_replaces_every_jpg (stem rest : string) :
  Forall (λ c, c ≠ "."%char) (chars stem) →
  replace ".jpg" ".txt" (stem +:+ ".jpg" +:+ rest)
  = stem +:+ ".txt" +:+ replace ".jpg" ".txt" rest.
Proof.
  intros Hstem. apply chars_inj. unfold replace.
  rewrite !chars_app, !chars_text. by apply replace_chars_stem.
Qed.

Lemma annotation_name_replaces_every_jpg_witness :
  replace ".jpg" ".txt" ("0000002_00005_d_0000014" +:+ ".jpg" +:+ ".jpg")
  = "0000002_00005_d_0000014" +:+ ".txt" +:+ replace ".jpg" ".txt" ".jpg".
Proof.
  apply (annotation_name_replaces_every_jpg "0000002_00005_d_0000014" ".jpg").
  cbn. repeat (constructor; [discriminate|]). constructor.
Defined.

(** * The class written and the class counted *)

(** X17: the label file and the table agree on the class of a line.  On a
    table whose rows are ["Samples"] followed by the class names, a surviving
    line of class id [c] is written with the class id [c - 1], and the row
    that is counted up for it is the name at position [c - 1] of the class
    names: the id in the label file is the position of the counted name. *)
Theorem written_class_is_counted_class {G : Type} (num : Numerals)
    (destination label_dst line name : string) (names : list string)
    (c : Z) (s : state G) :
  line_class line = Some c →
  index (dist_df s) = "Samples" :: names →
  names !! Z.to_nat (c - 1) = Some name →
  well_shaped (dist_df s) →
  destination ∈ columns (dist_df s) →
  ∃ rest s',
    render_line line = Some (pretty (c - 1) +:+ " " +:+ rest) ∧
    process_line destination label_dst line s = (Ok (), s') ∧
    cell (dist_df s') name destination = cell (dist_df s) name destination + 1.
Proof.
  intros Hc Hindex Hname Hws Hcol.
  destruct (line_class_Some _ _ Hc) as (x & y & w & h & st & E & Ef & Hrange).
  assert (Hrow : index (dist_df s) !! Z.to_nat c = Some name).
  { rewrite Hindex. replace (Z.to_nat c) with (S (Z.to_nat (c - 1))) by lia. done. }
  destruct (process_line_counts destination label_dst line s c name Hws Hc Hrow Hcol)
    as (s' & Hrun & _ & _ & _ & Hne & Hcells).
  eexists _, s'. split; [|split; [exact Hrun|]].
  - unfold render_line. rewrite E, Ef. unfold convert_bbox, yolo_line, str_int.
    reflexivity.
  - rewrite Hcells. rewrite decide_True by done. rewrite decide_False by tauto. lia.
Qed.

Lemma written_class_is_counted_class_witness :
  ∃ rest s',
    render_line (num := Numeral.ascii_numerals) "100,200,300,150,1,4,1,0"
      = Some ("3" +:+ " " +:+ rest) ∧
    process_line (num := Numeral.ascii_numerals) "client1" "dst/client1/labels/a.txt"
      "100,200,300,150,1,4,1,0" example_state = (Ok (), s') ∧
    cell (dist_df s') "car" "client1" = cell (dist_df example_state) "car" "client1" + 1.
Proof.
  apply (written_class_is_counted_class Numeral.ascii_numerals
           "client1" "dst/client1/labels/a.txt" "100,200,300,150,1,4,1,0" "car"
           visdrone_names 4 example_state).
  - vm_compute. reflexivity.
  - reflexivity.
  - reflexivity.
  - apply distribution_frame_well_shaped, visdrone_labels_distinct.
  - right. by left.
Defined.
